(** * LINE chatbot relay: response selection, fallback responder and webhook

    A shallow embedding of [openai_service.py], [line_bot.py] and [app.py].

    Python [str] values are sequences of Unicode code points, so a string is
    a [list N] here.  Everything outside the process (the AI providers, the
    Ollama daemon, the LINE SDK) is an oracle that answers a call knowing the
    calls made so far; the program itself runs in a small state-and-exception
    monad whose state is that log of calls. *)

From Stdlib Require Import List NArith ZArith Bool String Ascii Lia.
Import ListNotations.
Local Open Scope N_scope.

(** ** Python strings *)

Module PyStr.

Definition str := list N.

(** Decoding of a UTF-8 literal of this file into code points. *)
Fixpoint utf8_decode (bs : list N) (need : nat) (acc : N) : str :=
  match bs with
  | [] => []
  | b :: r =>
      match need with
      | O =>
          if b <? 128 then b :: utf8_decode r 0 0
          else if b <? 224 then utf8_decode r 1 (b - 192)
          else if b <? 240 then utf8_decode r 2 (b - 224)
          else utf8_decode r 3 (b - 240)
      | S k =>
          let acc' := acc * 64 + (b - 128) in
          match k with
          | O => acc' :: utf8_decode r 0 0
          | S _ => utf8_decode r k acc'
          end
      end
  end.

Definition u (s : string) : str :=
  utf8_decode (map N_of_ascii (list_ascii_of_string s)) 0 0.

Definition str_eqb (a b : str) : bool :=
  if list_eq_dec N.eq_dec a b then true else false.

(** [x in xs] for a list of strings. *)
Definition mem (x : str) (xs : list str) : bool := existsb (str_eqb x) xs.

(** [s.startswith(p)]. *)
Fixpoint starts_with (p s : str) : bool :=
  match p, s with
  | [], _ => true
  | _ :: _, [] => false
  | a :: p', b :: s' => (a =? b) && starts_with p' s'
  end.

(** [needle in s] for strings: a substring test. *)
Fixpoint contains (needle s : str) : bool :=
  starts_with needle s ||
  match s with
  | [] => false
  | _ :: s' => contains needle s'
  end.

(** [str.isspace] on one code point. *)
Definition is_space (c : N) : bool :=
  ((9 <=? c) && (c <=? 13)) || ((28 <=? c) && (c <=? 32)) ||
  (c =? 133) || (c =? 160) || (c =? 5760) ||
  ((8192 <=? c) && (c <=? 8202)) || (c =? 8232) || (c =? 8233) ||
  (c =? 8239) || (c =? 8287) || (c =? 12288).

Fixpoint lstrip (s : str) : str :=
  match s with
  | [] => []
  | c :: r => if is_space c then lstrip r else s
  end.

(** [s.strip()]. *)
Definition strip (s : str) : str := rev (lstrip (rev (lstrip s))).

(** [s.replace(old, new)] for a non-empty [old]: occurrences are replaced
    from left to right and do not overlap; [skip] counts the code points of
    an occurrence still to be dropped. *)
Fixpoint replace_from (old new : str) (skip : nat) (s : str) : str :=
  match s with
  | [] => []
  | c :: r =>
      match skip with
      | S k => replace_from old new k r
      | O =>
          if starts_with old s
          then new ++ replace_from old new (Nat.pred (List.length old)) r
          else c :: replace_from old new 0 r
      end
  end.

Definition replace (old new s : str) : str := replace_from old new 0 s.

Definition ascii_lower (c : N) : N :=
  if (65 <=? c) && (c <=? 90) then c + 32 else c.

(** CJK Unified Ideographs, U+4E00..U+9FFF: no code point there has case. *)
Definition is_cjk (c : N) : bool := (19968 <=? c) && (c <=? 40959).

Section Lower.

(** The interpreter's Unicode case table for the remaining code points:
    the lower-casing of [c] standing between [pre] and [suf] (the context
    matters for the Greek final sigma, and the result may be several code
    points). *)
Variable unicode_lower : str -> N -> str -> str.

Definition lower_cp (pre : str) (c : N) (suf : str) : str :=
  if c <? 128 then [ascii_lower c]
  else if is_cjk c then [c]
  else unicode_lower pre c suf.

Fixpoint lower_from (pre s : str) : str :=
  match s with
  | [] => []
  | c :: r => lower_cp pre c r ++ lower_from (pre ++ [c]) r
  end.

(** [s.lower()]. *)
Definition lower (s : str) : str := lower_from [] s.

End Lower.

(** Python truthiness of a string. *)
Definition nonempty (s : str) : bool :=
  match s with [] => false | _ :: _ => true end.

End PyStr.
Import PyStr.

(** ** Python values, exceptions and JSON *)

(** A value that is either a [str] or [None]. *)
Definition value := option str.

Definition truthy (v : value) : bool :=
  match v with
  | Some s => nonempty s
  | None => false
  end.

Inductive exn_class :=
| InvalidSignatureError
| LineBotApiError
| AttributeError
| OtherException.

(** Every exception here derives from [Exception]; [exn_msg] is what
    [str(e)] and [e.message] give. *)
Record exn := { exn_cls : exn_class; exn_msg : str }.

Definition Exception (msg : str) : exn :=
  {| exn_cls := OtherException; exn_msg := msg |}.

Inductive outcome (A : Type) :=
| Returns (a : A)
| Raises (e : exn).
Arguments Returns {A} a.
Arguments Raises {A} e.

(** A parsed JSON document.  A [JObj] lists the items of the resulting
    [dict], whose keys are distinct; numbers are integers. *)
#[warnings="-register-all"]
Inductive json :=
| JNull
| JBool (b : bool)
| JNum (z : Z)
| JStr (s : str)
| JList (l : list json)
| JObj (items : list (str * json)).

Definition json_truthy (j : json) : bool :=
  match j with
  | JNull => false
  | JBool b => b
  | JNum z => negb (Z.eqb z 0)
  | JStr s => nonempty s
  | JList l => match l with [] => false | _ :: _ => true end
  | JObj l => match l with [] => false | _ :: _ => true end
  end.

Definition type_name (j : json) : str :=
  match j with
  | JNull => u "NoneType"
  | JBool _ => u "bool"
  | JNum _ => u "int"
  | JStr _ => u "str"
  | JList _ => u "list"
  | JObj _ => u "dict"
  end.

Definition no_attribute (j : json) (attr : str) : exn :=
  {| exn_cls := AttributeError;
     exn_msg := u "'" ++ type_name j ++ u "' object has no attribute '"
                ++ attr ++ u "'" |}.

Fixpoint assoc (key : str) (items : list (str * json)) : option json :=
  match items with
  | [] => None
  | (k, v) :: r => if str_eqb k key then Some v else assoc key r
  end.

(** [j.get(key, default)]: only a [dict] has the method. *)
Definition py_get (j : json) (key : str) (default : json) : outcome json :=
  match j with
  | JObj items =>
      match assoc key items with
      | Some v => Returns v
      | None => Returns default
      end
  | _ => Raises (no_attribute j (u "get"))
  end.

Definition json_of_value (v : value) : json :=
  match v with
  | Some s => JStr s
  | None => JNull
  end.

(** ** The outside world *)

(** An inbound LINE event, with the attributes [webhook] reads. *)
Record Event := {
  ev_type : str;
  ev_message_type : str;
  ev_message_text : str;
  ev_user_id : value;
  ev_reply_token : str
}.

(** The calls that leave the process, with their arguments. *)
Inductive Call :=
| GetOllamaTags (url : str)
| ChatCompletionsCreate (model system_prompt user_message : str)
| GenerateContent (model_name full_prompt : str)
| GetWhoami (token : str)
| PostInference (model token inputs : str)
| PostOllamaGenerate (url model prompt : str)
| ApiReplyMessage (reply_token : str) (text : value).

Definition Trace := list Call.

(** An HTTP response: its status and what [response.json()] does. *)
Record Response := { status_code : Z; response_json : outcome json }.

(** The world answers a call from the log of calls so far, the call being
    answered last in it.  [chat_completion] gives
    [response.choices[0].message.content] (or the exception of the request
    or of that access), [gemini_text] gives [response.text] of
    [GenerativeModel(model_name).generate_content(full_prompt)] (or the
    exception of any of the three steps). *)
Record World := {
  http_status : Trace -> outcome Z;
  http_response : Trace -> outcome Response;
  chat_completion : Trace -> outcome value;
  gemini_text : Trace -> outcome str;
  api_reply : Trace -> outcome unit
}.

(** ** The monad: a log of calls, and exceptions *)

Definition M (A : Type) := Trace -> outcome A * Trace.

Definition ret {A} (a : A) : M A := fun t => (Returns a, t).

Definition raise {A} (e : exn) : M A := fun t => (Raises e, t).

Definition bind {A B} (m : M A) (k : A -> M B) : M B :=
  fun t =>
    match m t with
    | (Returns a, t') => k a t'
    | (Raises e, t') => (Raises e, t')
    end.

Notation "x <- m ;; k" := (bind m (fun x => k))
  (at level 61, m at next level, right associativity).
Notation "m ;;; k" := (bind m (fun _ => k))
  (at level 61, right associativity).

(** [try: m except Exception as e: h e]. *)
Definition try_except {A} (m : M A) (h : exn -> M A) : M A :=
  fun t =>
    match m t with
    | (Returns a, t') => (Returns a, t')
    | (Raises e, t') => h e t'
    end.

Definition lift {A} (o : outcome A) : M A := fun t => (o, t).

(** Performing a call: it is logged, then the world answers. *)
Definition perform {A} (c : Call) (answer : Trace -> outcome A) : M A :=
  fun t => (answer (t ++ [c]), t ++ [c]).

(** What one iteration of a [for] loop does next. *)
Inductive step (A : Type) :=
| Return_ (a : A)
| Continue.
Arguments Return_ {A} a.
Arguments Continue {A}.

(** ** openai_service.py *)

Module OpenAIService.

(** The attributes set by [__init__]; [openai_client] is [None] or a
    client object. *)
Record t := {
  openai_key : str;
  openai_client : option unit;
  ollama_url : str;
  hf_token : str;
  gemini_key : str;
  anthropic_key : str
}.

(** [os.getenv(name, default)]. *)
Definition getenv (environ : str -> option str) (name default : str) : str :=
  match environ name with
  | Some v => v
  | None => default
  end.

Definition __init__ (environ : str -> option str) : t :=
  let key := getenv environ (u "OPENAI_API_KEY") [] in
  {| openai_key := key;
     openai_client := if nonempty key then Some tt else None;
     ollama_url := getenv environ (u "OLLAMA_URL") (u "http://localhost:11434");
     hf_token := getenv environ (u "HUGGINGFACE_TOKEN") [];
     gemini_key := getenv environ (u "GEMINI_API_KEY") [];
     anthropic_key := getenv environ (u "ANTHROPIC_API_KEY") [] |}.

Definition system_prompt : str := Eval vm_compute in
  u "你是一個友善且樂於助人的聊天機器人。請用繁體中文回應用戶。
特點：
- 友善、有禮貌
- 提供有用的資訊和建議
- 保持對話自然流暢
- 如果不確定答案，會誠實告知
- 避免提供有害或不當的內容".

Definition unavailable_message : str := Eval vm_compute in
  u "抱歉，AI 服務目前無法使用。請稍後再試。".

Definition greeting_reply : str := Eval vm_compute in
  u "你好！我是你的智能助手，有什麼可以幫助你的嗎？".

Definition help_reply : str := Eval vm_compute in
  u "我可以幫助你：
• 回答各種問題
• 進行日常對話
• 提供資訊和建議
• 解釋概念和知識

直接輸入你的問題或想聊的話題就可以了！".

Definition final_message : str := Eval vm_compute in
  u "抱歉，AI 服務目前無法使用。請稍後再試或聯絡管理員。".

Definition greeting_commands : list str :=
  [u "hi"; u "hello"; u "你好"; u "嗨"].

Definition help_commands : list str :=
  [u "help"; u "幫助"; u "說明"].

Definition hf_models : list str :=
  [u "bigscience/bloom-560m"; u "distilgpt2"; u "gpt2"].

Definition gemini_models : list str :=
  [u "gemini-1.5-flash"; u "gemini-1.5-pro"; u "gemini-pro"].

Definition end_of_text : str := u "<|endoftext|>".

Definition hf_prefix : str := Eval vm_compute in u "AI 回應：".

(** The replies of the rule-based responder. *)
Definition fallback_greeting : str := Eval vm_compute in
  u "你好！我是你的智能助手。雖然高級 AI 功能暫時無法使用，但我仍然可以協助你處理一些基本問題。".

Definition fallback_help : str := Eval vm_compute in
  u "我可以提供以下協助：
• 回答常見問題
• 提供基本資訊
• 進行簡單對話
• 協助使用說明

目前 AI 服務正在維護中，完整功能將稍後恢復。".

Definition fallback_time : str := Eval vm_compute in
  u "抱歉，我目前無法取得即時時間資訊。請檢查你的裝置時間或稍後再試。".

Definition fallback_weather : str := Eval vm_compute in
  u "抱歉，我目前無法提供天氣資訊。建議你查看天氣應用程式或氣象網站。".

Definition fallback_thanks : str := Eval vm_compute in
  u "不客氣！很高興能為你服務。如有其他問題，隨時可以詢問我。".

Definition fallback_goodbye : str := Eval vm_compute in
  u "再見！期待下次為你服務。祝你有美好的一天！".

Definition fallback_default : str := Eval vm_compute in
  u "我收到了你的訊息，但目前高級 AI 功能暫時無法使用。請稍後再試，或者詢問一些基本問題，我會盡力協助你。".

Definition greeting_words : list str :=
  [u "你好"; u "嗨"; u "hi"; u "hello"; u "哈囉"].
Definition help_words : list str :=
  [u "幫助"; u "幫忙"; u "help"; u "說明"; u "功能"].
Definition time_words : list str :=
  [u "時間"; u "日期"; u "現在"; u "time"; u "date"].
Definition weather_words : list str :=
  [u "天氣"; u "氣溫"; u "weather"; u "下雨"].
Definition thanks_words : list str :=
  [u "謝謝"; u "感謝"; u "thank"; u "謝"].
Definition goodbye_words : list str :=
  [u "再見"; u "掰掰"; u "bye"; u "goodbye"; u "拜拜"].

(** [any(word in message_lower for word in words)]. *)
Definition any_in (words : list str) (message_lower : str) : bool :=
  existsb (fun word => contains word message_lower) words.

(** The [return] statement of [generate_response] that produced the
    result, in the order of the source. *)
Inductive site :=
| AtNotConfigured
| AtGreeting
| AtHelp
| AtOpenAI
| AtGemini
| AtHuggingFace
| AtOllama
| AtFallback
| AtFinal.

Section Methods.

Variable unicode_lower : str -> N -> str -> str.
Variable w : World.
Variable self : t.

(** [for x in xs: body], where the body may [return]; [after] is the code
    that follows the loop. *)
Fixpoint for_each {A} (body : str -> M (step A)) (xs : list str)
    (after : M A) : M A :=
  match xs with
  | [] => after
  | x :: r =>
      s <- body x ;;
      match s with
      | Return_ a => ret a
      | Continue => for_each body r after
      end
  end.

Definition _check_ollama : M bool :=
  try_except
    (status <- perform (GetOllamaTags (ollama_url self ++ u "/api/tags"))
                 (http_status w) ;;
     ret (Z.eqb status 200))
    (fun _ => ret false).

(** The [or] chain stops at its first true operand; callers only test
    the result, so its truth value is what is kept. *)
Definition is_configured : M bool :=
  match openai_client self with
  | Some _ => ret true
  | None =>
      if nonempty (hf_token self) then ret true
      else if nonempty (gemini_key self) then ret true
      else if nonempty (anthropic_key self) then ret true
      else _check_ollama
  end.

(** The body of the loop over [models] in [_generate_with_huggingface]. *)
Definition hf_try_model (user_message model : str) : M (step value) :=
  try_except
    (response <- perform
                   (PostInference model (hf_token self)
                      (u "問題：" ++ user_message ++ [10] ++ u "回答："))
                   (http_response w) ;;
     if Z.eqb (status_code response) 200 then
       result <- lift (response_json response) ;;
       match result with
       | JList (first :: _) =>
           generated_text <-
             lift (py_get first (u "generated_text") (JStr [])) ;;
           match generated_text with
           | JStr text =>
               if nonempty text && (5 <? List.length (strip text))%nat
               then
                 let clean_response := strip text in
                 let clean_response := replace end_of_text [] clean_response in
                 ret (Return_ (Some (hf_prefix ++ clean_response)))
               else ret Continue
           | other =>
               if json_truthy other
               then raise (no_attribute other (u "strip"))
               else ret Continue
           end
       | _ => ret Continue
       end
     else if Z.eqb (status_code response) 503 then ret Continue
     else if Z.eqb (status_code response) 401 then ret (Return_ None)
     else ret Continue)
    (fun _ => ret Continue).

Definition _generate_with_huggingface (user_message system_prompt : str)
    : M value :=
  if negb (nonempty (hf_token self)) then ret None
  else
    try_except
      (status <- perform (GetWhoami (hf_token self)) (http_status w) ;;
       if negb (Z.eqb status 200) then ret None
       else for_each (hf_try_model user_message) hf_models (ret None))
      (fun _ => ret None).

(** The body of the loop over [models] in [_generate_with_gemini]. *)
Definition gemini_try_model (user_message system_prompt model_name : str)
    : M (step value) :=
  try_except
    (text <- perform
               (GenerateContent model_name
                  (system_prompt ++ [10; 10] ++ u "用戶問題：" ++ user_message
                   ++ [10; 10] ++ u "請用繁體中文回答："))
               (gemini_text w) ;;
     if nonempty text then ret (Return_ (Some (strip text)))
     else ret Continue)
    (fun _ => ret Continue).

Definition _generate_with_gemini (user_message system_prompt : str)
    : M value :=
  if negb (nonempty (gemini_key self)) then ret None
  else
    try_except
      (for_each (gemini_try_model user_message system_prompt) gemini_models
         (ret None))
      (fun _ => ret None).

Definition _generate_with_ollama (user_message system_prompt : str)
    : M value :=
  available <- _check_ollama ;;
  if negb available then ret None
  else
    try_except
      (response <- perform
                     (PostOllamaGenerate (ollama_url self ++ u "/api/generate")
                        (u "llama2")
                        (system_prompt ++ [10; 10] ++ u "User: " ++ user_message
                         ++ [10] ++ u "Assistant:"))
                     (http_response w) ;;
       if Z.eqb (status_code response) 200 then
         result <- lift (response_json response) ;;
         text <- lift (py_get result (u "response") (JStr [])) ;;
         match text with
         | JStr s => ret (Some (strip s))
         | other => raise (no_attribute other (u "strip"))
         end
       else ret None)
      (fun _ => ret None).

Definition _generate_fallback_response (user_message : str) : str :=
  let message_lower := lower unicode_lower user_message in
  if any_in greeting_words message_lower then fallback_greeting
  else if any_in help_words message_lower then fallback_help
  else if any_in time_words message_lower then fallback_time
  else if any_in weather_words message_lower then fallback_weather
  else if any_in thanks_words message_lower then fallback_thanks
  else if any_in goodbye_words message_lower then fallback_goodbye
  else fallback_default.

(** The block [if self.openai_client: try: ... return ai_response
    except ...]: [Return_] when the [return] is reached. *)
Definition try_openai (user_message : str) : M (step value) :=
  match openai_client self with
  | Some _ =>
      try_except
        (ai_response <- perform
                          (ChatCompletionsCreate (u "gpt-4o") system_prompt
                             user_message)
                          (chat_completion w) ;;
         let ai_response :=
           if truthy ai_response then option_map strip ai_response
           else ai_response in
         ret (Return_ ai_response))
        (fun _ => ret Continue)
  | None => ret Continue
  end.

(** [generate_response], each result paired with the [return] statement
    it comes from. *)
Definition generate_response_at (user_message : str) : M (site * value) :=
  configured <- is_configured ;;
  if negb configured then ret (AtNotConfigured, Some unavailable_message)
  else if mem (lower unicode_lower user_message) greeting_commands
  then ret (AtGreeting, Some greeting_reply)
  else if mem (lower unicode_lower user_message) help_commands
  then ret (AtHelp, Some help_reply)
  else
    openai <- try_openai user_message ;;
    match openai with
    | Return_ ai_response => ret (AtOpenAI, ai_response)
    | Continue =>
        gemini_response <- _generate_with_gemini user_message system_prompt ;;
        if truthy gemini_response then ret (AtGemini, gemini_response)
        else
          hf_response <-
            _generate_with_huggingface user_message system_prompt ;;
          if truthy hf_response then ret (AtHuggingFace, hf_response)
          else
            ollama_response <-
              _generate_with_ollama user_message system_prompt ;;
            if truthy ollama_response then ret (AtOllama, ollama_response)
            else
              let fallback_response :=
                _generate_fallback_response user_message in
              if nonempty fallback_response
              then ret (AtFallback, Some fallback_response)
              else ret (AtFinal, Some final_message)
    end.

Definition generate_response (user_message : str) : M value :=
  r <- generate_response_at user_message ;;
  ret (snd r).

(** [generate_response] called with any JSON value, as [test_message]
    may do: past the configuration check, [user_message.lower()] raises
    on anything but a [str]. *)
Definition generate_response_any (user_message : json) : M value :=
  match user_message with
  | JStr s => generate_response s
  | other =>
      configured <- is_configured ;;
      if negb configured then ret (Some unavailable_message)
      else raise (no_attribute other (u "lower"))
  end.

End Methods.

End OpenAIService.

(** ** line_bot.py *)

Module LineBot.

Record t := {
  channel_access_token : str;
  channel_secret : str;
  line_bot_api : option unit;
  handler : option unit
}.

Definition __init__ (environ : str -> option str) : t :=
  let token := OpenAIService.getenv environ (u "LINE_CHANNEL_ACCESS_TOKEN") [] in
  let secret := OpenAIService.getenv environ (u "LINE_CHANNEL_SECRET") [] in
  if nonempty token && nonempty secret
  then {| channel_access_token := token; channel_secret := secret;
          line_bot_api := Some tt; handler := Some tt |}
  else {| channel_access_token := token; channel_secret := secret;
          line_bot_api := None; handler := None |}.

Definition is_some {A} (o : option A) : bool :=
  match o with Some _ => true | None => false end.

Definition is_configured (self : t) : bool :=
  is_some (line_bot_api self) && is_some (handler self).

(** [self.handler.parse].  The handler is a [linebot.WebhookHandler]
    (lines 3 and 17), a class with the methods [add], [default] and [handle]
    and the attribute [parser]; [parse] is a method of [WebhookParser] and
    not of the handler, so the lookup raises and there is no method to
    call. *)
Definition handler_parse : outcome (str -> str -> M (list Event)) :=
  Raises
    {| exn_cls := AttributeError;
       exn_msg := u "'WebhookHandler' object has no attribute 'parse'" |}.

Section Methods.

Variable w : World.
Variable self : t.

Definition parse_webhook (body signature : str) : M (list Event) :=
  if negb (is_configured self)
  then raise (Exception (u "LINE Bot is not configured"))
  else
    try_except
      (parse <- lift handler_parse ;;
       events <- parse body signature ;;
       ret events)
      (fun e =>
         match exn_cls e with
         | InvalidSignatureError => raise (Exception (u "Invalid signature"))
         | _ => raise e
         end).

Definition reply_message (reply_token : str) (message_text : value)
    : M unit :=
  if negb (is_configured self)
  then raise (Exception (u "LINE Bot is not configured"))
  else
    try_except
      (perform (ApiReplyMessage reply_token message_text) (api_reply w))
      (fun e =>
         match exn_cls e with
         | LineBotApiError =>
             raise (Exception (u "Failed to send message: " ++ exn_msg e))
         | _ => raise e
         end).

End Methods.

End LineBot.

(** ** app.py *)

Module App.

Section Handlers.

Variable unicode_lower : str -> N -> str -> str.
Variable w : World.
Variable line_bot : LineBot.t.
Variable openai_service : OpenAIService.t.

(** The loop [for event in events] of [webhook]. *)
Fixpoint process_events (events : list Event) : M unit :=
  match events with
  | [] => ret tt
  | event :: rest =>
      (if str_eqb (ev_type event) (u "message")
          && str_eqb (ev_message_type event) (u "text")
       then
         let user_message := ev_message_text event in
         ai_response <-
           OpenAIService.generate_response unicode_lower w openai_service
             user_message ;;
         LineBot.reply_message w line_bot (ev_reply_token event) ai_response
       else ret tt) ;;;
      process_events rest
  end.

(** The handler answers with a body and a status. *)
Definition webhook (signature body : str) : M (str * Z) :=
  try_except
    (events <- LineBot.parse_webhook line_bot body signature ;;
     process_events events ;;;
     ret (u "OK", 200%Z))
    (fun _ => ret (u "Error", 500%Z)).

(** [get_json] is what [request.get_json()] does on the request; the
    answer is the document given to [jsonify] and the status. *)
Definition test_message (get_json : outcome json) : M (json * Z) :=
  try_except
    (data <- lift get_json ;;
     message <- lift (py_get data (u "message") (JStr [])) ;;
     if negb (json_truthy message)
     then ret (JObj [(u "error", JStr (u "Message is required"))], 400%Z)
     else
       response <-
         OpenAIService.generate_response_any unicode_lower w openai_service
           message ;;
       ret (JObj [(u "response", json_of_value response)], 200%Z))
    (fun e => ret (JObj [(u "error", JStr (exn_msg e))], 500%Z)).

End Handlers.

End App.

(** ** The fallback responder as the specification words it *)

Module Responder.

Import OpenAIService.

(** The six keyword sets with their canned replies, in priority order. *)
Definition keyword_table : list (list str * str) :=
  [ (greeting_words, fallback_greeting);
    (help_words, fallback_help);
    (time_words, fallback_time);
    (weather_words, fallback_weather);
    (thanks_words, fallback_thanks);
    (goodbye_words, fallback_goodbye) ].

(** The reply of the first set with a keyword occurring in the message. *)
Fixpoint first_match (table : list (list str * str)) (message_lower : str)
    (generic : str) : str :=
  match table with
  | [] => generic
  | (words, reply) :: rest =>
      if any_in words message_lower then reply
      else first_match rest message_lower generic
  end.

Definition respond (unicode_lower : str -> N -> str -> str)
    (user_message : str) : str :=
  first_match keyword_table (lower unicode_lower user_message)
    fallback_default.

End Responder.

(** ** Vocabulary of the statements *)

(** The calls to an AI backend, as opposed to those to the LINE SDK. *)
Definition backend_call (c : Call) : Prop :=
  match c with
  | ApiReplyMessage _ _ => False
  | _ => True
  end.

(** The calls that ask a backend to generate text; the Ollama liveness
    probe and the Hugging Face credential check are not among them. *)
Definition generation_call (c : Call) : Prop :=
  match c with
  | ChatCompletionsCreate _ _ _ | GenerateContent _ _
  | PostInference _ _ _ | PostOllamaGenerate _ _ _ => True
  | _ => False
  end.

(** The calls of each adapter. *)
Definition openai_call (c : Call) : Prop :=
  match c with ChatCompletionsCreate _ _ _ => True | _ => False end.

Definition gemini_call (c : Call) : Prop :=
  match c with GenerateContent _ _ => True | _ => False end.

Definition huggingface_call (c : Call) : Prop :=
  match c with GetWhoami _ | PostInference _ _ _ => True | _ => False end.

Definition ollama_call (c : Call) : Prop :=
  match c with GetOllamaTags _ | PostOllamaGenerate _ _ _ => True | _ => False end.

(** The generation request of the Hugging Face adapter for one model. *)
Definition hf_request (self : OpenAIService.t) (user_message model : str)
    : Call :=
  PostInference model (OpenAIService.hf_token self)
    (u "問題：" ++ user_message ++ [10] ++ u "回答：").

(** A reply of the Hugging Face adapter made from the generated [text]. *)
Definition hf_reply (text : str) : str :=
  OpenAIService.hf_prefix
  ++ replace OpenAIService.end_of_text [] (strip text).

(** A result of the Hugging Face adapter is [None] or a reply made from a
    generated text of more than five code points once stripped. *)
Definition hf_accepted (v : value) : Prop :=
  match v with
  | Some r => exists text, (5 < List.length (strip text))%nat /\ r = hf_reply text
  | None => True
  end.

Definition on_return {A} (Q : A -> Prop) (s : step A) : Prop :=
  match s with
  | Return_ a => Q a
  | Continue => True
  end.

(** The liveness probe of the Ollama daemon. *)
Definition ollama_probe (self : OpenAIService.t) (c : Call) : Prop :=
  c = GetOllamaTags (OpenAIService.ollama_url self ++ u "/api/tags").

Definition is_reply (c : Call) : bool :=
  match c with
  | ApiReplyMessage _ _ => true
  | _ => false
  end.

(** [m] never raises, and the calls it adds to the log all satisfy [P]. *)
Definition safe {A} (P : Call -> Prop) (m : M A) : Prop :=
  forall t, exists a ext, m t = (Returns a, t ++ ext) /\ Forall P ext.

(** [m] may raise; the calls it adds to the log all satisfy [P]. *)
Definition logs {A} (P : Call -> Prop) (m : M A) : Prop :=
  forall t, exists o ext, m t = (o, t ++ ext) /\ Forall P ext.

(** The answers of the two endpoints. *)
Definition message_required : json * Z :=
  (JObj [(u "error", JStr (u "Message is required"))], 400%Z).

Definition error_500 : str * Z := (u "Error", 500%Z).

Definition ok_200 : str * Z := (u "OK", 200%Z).

(** Whatever [m] returns satisfies [Q]. *)
Definition ensures {A} (Q : A -> Prop) (m : M A) : Prop :=
  forall t a t', m t = (Returns a, t') -> Q a.

(** What holds of a result of [generate_response] by the [return] it
    comes from: the last [return] is never the one, and every other one
    but that of the OpenAI block gives a non-empty string. *)
Definition well_sited (r : OpenAIService.site * value) : Prop :=
  match fst r with
  | OpenAIService.AtFinal => False
  | OpenAIService.AtOpenAI => True
  | _ => truthy (snd r) = true
  end.

(** Started from the log [t], the chain of adapters of [generate_response]
    falls through to the fallback responder: the OpenAI block does not
    reach its [return] (there is no client, or its request raises), and
    then the Gemini, Hugging Face and Ollama adapters, run one after the
    other, each return [None] or an empty string.  A completion of OpenAI
    that is [None] or blank is not this case: the block returns it. *)
Definition chain_falls_through (w : World) (self : OpenAIService.t)
    (user_message : str) (t : Trace) : Prop :=
  exists t1 g t2 h t3 o t4,
    OpenAIService.try_openai w self user_message t = (Returns Continue, t1) /\
    OpenAIService._generate_with_gemini w self user_message
      OpenAIService.system_prompt t1 = (Returns g, t2) /\
    truthy g = false /\
    OpenAIService._generate_with_huggingface w self user_message
      OpenAIService.system_prompt t2 = (Returns h, t3) /\
    truthy h = false /\
    OpenAIService._generate_with_ollama w self user_message
      OpenAIService.system_prompt t3 = (Returns o, t4) /\
    truthy o = false.

(** ** Sample worlds and configurations *)

Module Samples.

(** A case table that leaves every code point as it is. *)
Definition no_case : str -> N -> str -> str := fun _ c _ => [c].

Definition unreachable : exn := Exception (u "connection refused").

(** No provider can be reached and the LINE SDK refuses everything. *)
Definition offline : World :=
  {| http_status := fun _ => Raises unreachable;
     http_response := fun _ => Raises unreachable;
     chat_completion := fun _ => Raises unreachable;
     gemini_text := fun _ => Raises unreachable;
     api_reply := fun _ => Raises unreachable |}.

Definition no_environ : str -> option str := fun _ => None.

(** Only [key] is set in the environment, to [val]. *)
Definition only (key val : str) : str -> option str :=
  fun name => if str_eqb name key then Some val else None.

(** Neither a credential nor a reachable Ollama. *)
Definition bare : OpenAIService.t := OpenAIService.__init__ no_environ.

(** Configured through a credential no adapter of [generate_response]
    uses. *)
Definition anthropic_only : OpenAIService.t :=
  OpenAIService.__init__ (only (u "ANTHROPIC_API_KEY") (u "sk-ant")).

Definition both_keys : str -> option str :=
  fun name =>
    if str_eqb name (u "OPENAI_API_KEY") then Some (u "sk-test")
    else if str_eqb name (u "GEMINI_API_KEY") then Some (u "g-test")
    else None.

Definition openai_and_gemini : OpenAIService.t :=
  OpenAIService.__init__ both_keys.

(** OpenAI answers with a blank completion; Gemini would answer. *)
Definition blank_completion : World :=
  {| http_status := fun _ => Raises unreachable;
     http_response := fun _ => Raises unreachable;
     chat_completion := fun _ => Returns (Some (u "  "));
     gemini_text := fun _ => Returns (u "Hello from Gemini");
     api_reply := fun _ => Raises unreachable |}.

(** OpenAI answers with a message whose content is [None]. *)
Definition null_completion : World :=
  {| http_status := fun _ => Raises unreachable;
     http_response := fun _ => Raises unreachable;
     chat_completion := fun _ => Returns None;
     gemini_text := fun _ => Returns (u "Hello from Gemini");
     api_reply := fun _ => Raises unreachable |}.

Definition hf_only : OpenAIService.t :=
  OpenAIService.__init__ (only (u "HUGGINGFACE_TOKEN") (u "hf_test")).

Definition warming_up : Response :=
  {| status_code := 503; response_json := Raises unreachable |}.

Definition generated : Response :=
  {| status_code := 200;
     response_json :=
       Returns
         (JList
            [JObj [(u "generated_text",
                    JStr (u " Hello there<|endoftext|> "))]]) |}.

(** The token is valid; the first model is warming up, the others
    generate. *)
Definition first_model_warming : World :=
  {| http_status := fun _ => Returns 200%Z;
     http_response := fun t =>
       match last t (GetWhoami []) with
       | PostInference model _ _ =>
           if str_eqb model (u "bigscience/bloom-560m")
           then Returns warming_up
           else Returns generated
       | _ => Raises unreachable
       end;
     chat_completion := fun _ => Raises unreachable;
     gemini_text := fun _ => Raises unreachable;
     api_reply := fun _ => Raises unreachable |}.

Definition hello_event : Event :=
  {| ev_type := u "message";
     ev_message_type := u "text";
     ev_message_text := u "hello";
     ev_user_id := Some (u "U1");
     ev_reply_token := u "reply-token" |}.

(** The reply API delivers every reply; no provider can be reached. *)
Definition replies_delivered : World :=
  {| http_status := fun _ => Raises unreachable;
     http_response := fun _ => Raises unreachable;
     chat_completion := fun _ => Raises unreachable;
     gemini_text := fun _ => Raises unreachable;
     api_reply := fun _ => Returns tt |}.

Definition line_environ : str -> option str :=
  fun name =>
    if str_eqb name (u "LINE_CHANNEL_ACCESS_TOKEN") then Some (u "token")
    else if str_eqb name (u "LINE_CHANNEL_SECRET") then Some (u "secret")
    else None.

Definition line_ready : LineBot.t := LineBot.__init__ line_environ.

End Samples.

(** ** The remaining methods and endpoints *)

Module Sentiment.

Import OpenAIService.

Definition sentiment_prompt : str :=
  u "Analyze the sentiment of the following text. Respond with JSON format: {'sentiment': 'positive/negative/neutral', 'confidence': 0.0-1.0}".

(** [OpenAIService.analyze_sentiment]; the log keeps the model and the two
    messages of the request, [response_format] is a constant of it. *)
Definition analyze_sentiment (w : World) (self : t) (text : str) : M value :=
  configured <- is_configured w self ;;
  if negb configured then ret None
  else
    try_except
      (match openai_client self with
       | Some _ =>
           result <- perform
                       (ChatCompletionsCreate (u "gpt-4o") sentiment_prompt text)
                       (chat_completion w) ;;
           ret result
       | None => ret None
       end)
      (fun _ => ret None).

End Sentiment.

Module Health.

Import OpenAIService.

(** The value of the [or] chain of [OpenAIService.is_configured]: [True]
    when there is a client, else the first non-empty credential, else what
    [_check_ollama] returns. *)
Definition is_configured_value (w : World) (self : t) : M json :=
  match openai_client self with
  | Some _ => ret (JBool true)
  | None =>
      if nonempty (hf_token self) then ret (JStr (hf_token self))
      else if nonempty (gemini_key self) then ret (JStr (gemini_key self))
      else if nonempty (anthropic_key self) then ret (JStr (anthropic_key self))
      else
        available <- _check_ollama w self ;;
        ret (JBool available)
  end.

(** [app.health_check]: the document given to [jsonify], and the status. *)
Definition health_check (w : World) (line_bot : LineBot.t) (openai_service : t)
    : M (json * Z) :=
  let line_bot_configured := LineBot.is_configured line_bot in
  openai_configured <- is_configured_value w openai_service ;;
  ret (JObj [ (u "status", JStr (u "healthy"));
              (u "line_bot_configured", JBool line_bot_configured);
              (u "openai_configured", openai_configured) ],
       200%Z).

End Health.

(** [push_message] and [get_profile] are called by no handler; the one SDK
    method each of them calls is taken as a function of its arguments. *)
Module LineApi.

(** The attributes of the SDK's profile object that [get_profile] reads. *)
Record Profile := {
  user_id : value;
  display_name : value;
  picture_url : value;
  status_message : value
}.

Definition push_message (self : LineBot.t)
    (api_push_message : str -> value -> outcome unit)
    (user_id : str) (message_text : value) : outcome unit :=
  if negb (LineBot.is_configured self)
  then Raises (Exception (u "LINE Bot is not configured"))
  else
    match api_push_message user_id message_text with
    | Returns _ => Returns tt
    | Raises e =>
        match exn_cls e with
        | LineBotApiError =>
            Raises (Exception (u "Failed to send push message: " ++ exn_msg e))
        | _ => Raises e
        end
    end.

Definition get_profile (self : LineBot.t)
    (api_get_profile : str -> outcome Profile) (uid : str) : outcome json :=
  if negb (LineBot.is_configured self)
  then Raises (Exception (u "LINE Bot is not configured"))
  else
    match api_get_profile uid with
    | Returns profile =>
        Returns
          (JObj [ (u "user_id", json_of_value (user_id profile));
                  (u "display_name", json_of_value (display_name profile));
                  (u "picture_url", json_of_value (picture_url profile));
                  (u "status_message", json_of_value (status_message profile)) ])
    | Raises e =>
        match exn_cls e with
        | LineBotApiError => Returns JNull
        | _ => Returns JNull
        end
    end.

End LineApi.

(** ** Further vocabulary *)

(** The request of the Gemini adapter for one model. *)
Definition gemini_request (user_message system_prompt model_name : str)
    : Call :=
  GenerateContent model_name
    (system_prompt ++ [10; 10] ++ u "用戶問題：" ++ user_message
     ++ [10; 10] ++ u "請用繁體中文回答：").

(** The generation request of the Ollama adapter. *)
Definition ollama_request (self : OpenAIService.t)
    (user_message system_prompt : str) : Call :=
  PostOllamaGenerate (OpenAIService.ollama_url self ++ u "/api/generate")
    (u "llama2")
    (system_prompt ++ [10; 10] ++ u "User: " ++ user_message
     ++ [10] ++ u "Assistant:").

(** The probe of [_check_ollama]. *)
Definition probe_request (self : OpenAIService.t) : Call :=
  GetOllamaTags (OpenAIService.ollama_url self ++ u "/api/tags").

(** The chat request of [generate_response]. *)
Definition chat_request (user_message : str) : Call :=
  ChatCompletionsCreate (u "gpt-4o") OpenAIService.system_prompt user_message.

(** Whether an answer to an HTTP request is the status 200. *)
Definition is_200 (o : outcome Z) : bool :=
  match o with
  | Returns status => Z.eqb status 200
  | Raises _ => false
  end.

(** A code point whose lower-casing the model fixes: ASCII or a CJK
    ideograph. *)
Definition plain (c : N) : bool := (c <? 128) || is_cjk c.

(** [m] never raises and adds at most [n] calls to the log. *)
Definition within {A} (n : nat) (m : M A) : Prop :=
  forall t, exists a ext,
    m t = (Returns a, t ++ ext) /\ (List.length ext <= n)%nat.

(** The events [webhook] answers. *)
Definition is_text_message (event : Event) : bool :=
  str_eqb (ev_type event) (u "message")
  && str_eqb (ev_message_type event) (u "text").

Definition reply_token_of (c : Call) : str :=
  match c with
  | ApiReplyMessage reply_token _ => reply_token
  | _ => []
  end.

(** [needle] occurs in [s] as a substring. *)
Definition occurs_in (needle s : str) : Prop :=
  exists pre suf, s = pre ++ needle ++ suf.

(** In [pre ++ needle ++ rest], the [needle] after [pre] is the leftmost
    occurrence of [needle]. *)
Definition leftmost (needle pre rest : str) : Prop :=
  forall pre' suf',
    pre ++ needle ++ rest = pre' ++ needle ++ suf' ->
    (List.length pre <= List.length pre')%nat.

(** Neither the first nor the last code point of [s] is white space. *)
Definition trimmed (s : str) : Prop :=
  match s with
  | [] => True
  | c :: _ => is_space c = false
  end
  /\ match rev s with
     | [] => True
     | c :: _ => is_space c = false
     end.

(** One of the keywords occurs in [s]. *)
Definition has_keyword (words : list str) (s : str) : Prop :=
  exists word, In word words /\ occurs_in word s.

(** The generated text of a Hugging Face answer, when there is one: the
    body is a JSON list whose first element is an object with a string
    under ["generated_text"]. *)
Definition candidate_text (response : Response) : option str :=
  match response_json response with
  | Returns (JList (JObj items :: _)) =>
      match assoc (u "generated_text") items with
      | Some (JStr text) => Some text
      | _ => None
      end
  | _ => None
  end.

(** What the Hugging Face adapter does with the answer to a generation
    request, as a table: 401 ends the adapter with no result; a 200 answer
    with a generated text longer than five code points once stripped ends
    it with the reply made from that text; anything else (an exception, 503,
    another status, a 200 answer without such a text) passes to the next
    model. *)
Definition hf_decision (answer : outcome Response) : step value :=
  match answer with
  | Raises _ => Continue
  | Returns response =>
      if Z.eqb (status_code response) 401 then Return_ None
      else if Z.eqb (status_code response) 200 then
        match candidate_text response with
        | Some text =>
            if (5 <? List.length (strip text))%nat
            then Return_ (Some (hf_reply text))
            else Continue
        | None => Continue
        end
      else Continue
  end.

(** Whether a keyword of the set occurs in the lower-cased message. *)
Definition keyword_in (unicode_lower : str -> N -> str -> str)
    (words : list str) (user_message : str) : bool :=
  OpenAIService.any_in words (lower unicode_lower user_message).

(** No credential of an adapter and no OpenAI client. *)
Definition no_credentials (self : OpenAIService.t) : Prop :=
  OpenAIService.openai_client self = None
  /\ OpenAIService.hf_token self = []
  /\ OpenAIService.gemini_key self = []
  /\ OpenAIService.anthropic_key self = [].

(** The environment variables that hold a credential. *)
Definition credential_variables : list str :=
  [ u "OPENAI_API_KEY"; u "HUGGINGFACE_TOKEN"; u "GEMINI_API_KEY";
    u "ANTHROPIC_API_KEY" ].

(** What a Gemini result is made from. *)
Definition gemini_accepted (v : value) : Prop :=
  match v with
  | Some r => exists text, text <> [] /\ r = strip text
  | None => True
  end.

(** ** Further sample worlds *)

Module MoreSamples.

Import Samples.

(** The OpenAI request fails; Gemini answers with padded text. *)
Definition openai_down : World :=
  {| http_status := fun _ => Raises unreachable;
     http_response := fun _ => Raises unreachable;
     chat_completion := fun _ => Raises unreachable;
     gemini_text := fun _ => Returns (u "  Hello from Gemini
");
     api_reply := fun _ => Raises unreachable |}.

Definition gemini_only : OpenAIService.t :=
  OpenAIService.__init__ (only (u "GEMINI_API_KEY") (u "g-test")).

Definition ollama_answer : Response :=
  {| status_code := 200;
     response_json := Returns (JObj [(u "response", JStr (u " Hi! "))]) |}.

(** Only a local Ollama is running. *)
Definition ollama_up : World :=
  {| http_status := fun _ => Returns 200%Z;
     http_response := fun _ => Returns ollama_answer;
     chat_completion := fun _ => Raises unreachable;
     gemini_text := fun _ => Raises unreachable;
     api_reply := fun _ => Raises unreachable |}.

(** Every credential is set, Hugging Face accepts the token and Ollama
    answers its probe, and every generation request fails. *)
Definition all_keys : OpenAIService.t :=
  OpenAIService.__init__
    (fun name =>
       if str_eqb name (u "OPENAI_API_KEY") then Some (u "sk-test")
       else if str_eqb name (u "GEMINI_API_KEY") then Some (u "g-test")
       else if str_eqb name (u "HUGGINGFACE_TOKEN") then Some (u "hf_test")
       else None).

Definition generation_down : World :=
  {| http_status := fun _ => Returns 200%Z;
     http_response := fun _ => Raises unreachable;
     chat_completion := fun _ => Raises unreachable;
     gemini_text := fun _ => Raises unreachable;
     api_reply := fun _ => Raises unreachable |}.

(** OpenAI answers the sentiment request. *)
Definition sentiment_answer : World :=
  {| http_status := fun _ => Raises unreachable;
     http_response := fun _ => Raises unreachable;
     chat_completion := fun _ => Returns (Some (u "{}"));
     gemini_text := fun _ => Raises unreachable;
     api_reply := fun _ => Raises unreachable |}.

Definition sticker_event : Event :=
  {| ev_type := u "message";
     ev_message_type := u "sticker";
     ev_message_text := [];
     ev_user_id := Some (u "U1");
     ev_reply_token := u "sticker-token" |}.

Definition follow_event : Event :=
  {| ev_type := u "follow";
     ev_message_type := [];
     ev_message_text := [];
     ev_user_id := Some (u "U2");
     ev_reply_token := u "follow-token" |}.

Definition help_event : Event :=
  {| ev_type := u "message";
     ev_message_type := u "text";
     ev_message_text := u "help";
     ev_user_id := Some (u "U3");
     ev_reply_token := u "help-token" |}.

(** A text, a sticker, a follow and a second text event. *)
Definition four_events : list Event :=
  [hello_event; sticker_event; follow_event; help_event].

Definition invalid_token : exn :=
  {| exn_cls := LineBotApiError; exn_msg := u "Invalid reply token" |}.

(** The reply API delivers the first reply and refuses the later ones. *)
Definition second_reply_fails : World :=
  {| http_status := fun _ => Raises unreachable;
     http_response := fun _ => Raises unreachable;
     chat_completion := fun _ => Raises unreachable;
     gemini_text := fun _ => Raises unreachable;
     api_reply := fun t =>
       match filter is_reply t with
       | [_] => Returns tt
       | _ => Raises invalid_token
       end |}.

End MoreSamples.

Example u_nihao : u "你好" = [20320; 22909].
Proof. reflexivity. Qed.

Example strip_ex : strip (u "  ab c
 ") = u "ab c".
Proof. reflexivity. Qed.

Example replace_ex : replace (u "aa") (u "b") (u "aaaxaa") = u "baxb".
Proof. reflexivity. Qed.

Example lower_ex : lower (fun _ c _ => [c]) (u "Hi 你好 HELLO") = u "hi 你好 hello".
Proof. reflexivity. Qed.

(** ** Strings *)

Lemma str_eqb_eq (a b : str) : str_eqb a b = true <-> a = b.
Proof.
  unfold str_eqb. destruct (list_eq_dec N.eq_dec a b); split; congruence.
Qed.

Lemma starts_with_iff (p s : str) :
  starts_with p s = true <-> exists suf, s = p ++ suf.
Proof.
  revert s. induction p as [|a p IH]; intros s; simpl.
  - split; eauto.
  - destruct s as [|b s].
    + split; [discriminate | intros [suf E]; discriminate].
    + rewrite andb_true_iff, N.eqb_eq, IH. split.
      * intros [-> [suf ->]]. eauto.
      * intros [suf E]. injection E as -> ->. eauto.
Qed.

(** [contains] is the substring test. *)
Lemma contains_iff (needle s : str) :
  contains needle s = true <-> exists pre suf, s = pre ++ needle ++ suf.
Proof.
  induction s as [|c s IH].
  - simpl. rewrite orb_false_r, starts_with_iff. split.
    + intros [suf E]. exists [], suf. exact E.
    + intros (pre & suf & E). destruct pre; simpl in E.
      * eauto.
      * discriminate.
  - simpl. rewrite orb_true_iff, starts_with_iff, IH. split.
    + intros [[suf E] | (pre & suf & E)].
      * exists [], suf. exact E.
      * exists (c :: pre), suf. simpl. now rewrite E.
    + intros (pre & suf & E). destruct pre as [|c' pre]; simpl in E.
      * left. eauto.
      * right. injection E as _ E. eauto.
Qed.

Lemma contains_refl (s : str) : contains s s = true.
Proof. apply contains_iff. exists [], []. now rewrite app_nil_r. Qed.

Lemma mem_iff (x : str) (xs : list str) : mem x xs = true <-> In x xs.
Proof.
  unfold mem. rewrite existsb_exists. split.
  - intros (y & Hy & E). apply str_eqb_eq in E. now subst.
  - intros H. exists x. split; [exact H | now apply str_eqb_eq].
Qed.

(** ** The monad *)

Lemma bind_returns {A B} (m : M A) (k : A -> M B) t a t' :
  m t = (Returns a, t') -> bind m k t = k a t'.
Proof. intros E. unfold bind. now rewrite E. Qed.

Lemma bind_raises {A B} (m : M A) (k : A -> M B) t e t' :
  m t = (Raises e, t') -> bind m k t = (Raises e, t').
Proof. intros E. unfold bind. now rewrite E. Qed.

Lemma logs_of_safe {A} P (m : M A) : safe P m -> logs P m.
Proof. intros H t. destruct (H t) as (a & ext & E & F). eauto. Qed.

Lemma safe_ret {A} P (a : A) : safe P (ret a).
Proof. intros t. exists a, []. now rewrite app_nil_r. Qed.

Lemma logs_raise {A} P e : logs P (@raise A e).
Proof. intros t. exists (Raises e), []. now rewrite app_nil_r. Qed.

Lemma logs_lift {A} P (o : outcome A) : logs P (lift o).
Proof. intros t. exists o, []. now rewrite app_nil_r. Qed.

Lemma logs_perform {A} (P : Call -> Prop) c (answer : Trace -> outcome A) :
  P c -> logs P (perform c answer).
Proof. intros H t. exists (answer (t ++ [c])), [c]. split; auto. Qed.

Lemma logs_bind {A B} P (m : M A) (k : A -> M B) :
  logs P m -> (forall a, logs P (k a)) -> logs P (bind m k).
Proof.
  intros Hm Hk t. destruct (Hm t) as ([a|e] & ext & E & F).
  - destruct (Hk a (t ++ ext)) as (o & ext' & E' & F').
    exists o, (ext ++ ext'). rewrite (bind_returns _ _ _ _ _ E), E', app_assoc.
    split; [reflexivity | now apply Forall_app].
  - exists (Raises e), ext. now rewrite (bind_raises _ _ _ _ _ E).
Qed.

Lemma safe_bind {A B} P (m : M A) (k : A -> M B) :
  safe P m -> (forall a, safe P (k a)) -> safe P (bind m k).
Proof.
  intros Hm Hk t. destruct (Hm t) as (a & ext & E & F).
  destruct (Hk a (t ++ ext)) as (b & ext' & E' & F').
  exists b, (ext ++ ext'). rewrite (bind_returns _ _ _ _ _ E), E', app_assoc.
  split; [reflexivity | now apply Forall_app].
Qed.

Lemma logs_try {A} P (m : M A) h :
  logs P m -> (forall e, logs P (h e)) -> logs P (try_except m h).
Proof.
  intros Hm Hh t. unfold try_except.
  destruct (Hm t) as ([a|e] & ext & E & F); rewrite E.
  - eauto.
  - destruct (Hh e (t ++ ext)) as (o & ext' & E' & F').
    exists o, (ext ++ ext'). rewrite E', app_assoc.
    split; [reflexivity | now apply Forall_app].
Qed.

(** A [try] whose handler cannot raise does not raise. *)
Lemma safe_try {A} P (m : M A) h :
  logs P m -> (forall e, safe P (h e)) -> safe P (try_except m h).
Proof.
  intros Hm Hh t. unfold try_except.
  destruct (Hm t) as ([a|e] & ext & E & F); rewrite E.
  - eauto.
  - destruct (Hh e (t ++ ext)) as (b & ext' & E' & F').
    exists b, (ext ++ ext'). rewrite E', app_assoc.
    split; [reflexivity | now apply Forall_app].
Qed.

Lemma logs_for_each {A} P (body : str -> M (step A)) xs after :
  (forall x, logs P (body x)) -> logs P after ->
  logs P (OpenAIService.for_each body xs after).
Proof.
  intros Hb Ha. induction xs as [|x xs IH]; simpl.
  - exact Ha.
  - apply logs_bind; [apply Hb|]. intros [a|].
    + apply logs_of_safe, safe_ret.
    + exact IH.
Qed.

Lemma safe_for_each {A} P (body : str -> M (step A)) xs after :
  (forall x, safe P (body x)) -> safe P after ->
  safe P (OpenAIService.for_each body xs after).
Proof.
  intros Hb Ha. induction xs as [|x xs IH]; simpl.
  - exact Ha.
  - apply safe_bind; [apply Hb|]. intros [a|].
    + apply safe_ret.
    + exact IH.
Qed.

Lemma safe_weaken {A} (P Q : Call -> Prop) (m : M A) :
  (forall c, P c -> Q c) -> safe P m -> safe Q m.
Proof.
  intros PQ H t. destruct (H t) as (a & ext & E & F).
  exists a, ext. split; [exact E|]. eapply Forall_impl; eauto.
Qed.

Lemma logs_ret {A} P (a : A) : logs P (ret a).
Proof. apply logs_of_safe, safe_ret. Qed.

(** Decomposes a [safe] or [logs] goal along the structure of the code. *)
Ltac walk :=
  repeat first
    [ apply safe_ret | apply logs_ret | apply logs_raise | apply logs_lift
    | apply logs_perform; simpl; auto
    | apply safe_for_each | apply logs_for_each
    | apply safe_try | apply logs_try
    | apply safe_bind | apply logs_bind
    | intro
    | match goal with
      | |- context [if ?b then _ else _] => destruct b
      | |- context [match ?x with _ => _ end] => destruct x
      end ].

(** ** No adapter raises, and each makes only its own calls *)

Section Adapters.

Variable unicode_lower : str -> N -> str -> str.
Variable w : World.
Variable self : OpenAIService.t.

Lemma check_ollama_safe :
  safe (ollama_probe self) (OpenAIService._check_ollama w self).
Proof. unfold OpenAIService._check_ollama, ollama_probe. walk. Qed.

Lemma is_configured_safe :
  safe (ollama_probe self) (OpenAIService.is_configured w self).
Proof.
  unfold OpenAIService.is_configured.
  destruct (OpenAIService.openai_client self); [apply safe_ret|].
  repeat match goal with
         | |- context [if ?b then _ else _] => destruct b
         end; try apply safe_ret.
  apply check_ollama_safe.
Qed.

Lemma try_openai_safe msg :
  safe openai_call (OpenAIService.try_openai w self msg).
Proof. unfold OpenAIService.try_openai. walk. Qed.

Lemma gemini_safe msg sp :
  safe gemini_call (OpenAIService._generate_with_gemini w self msg sp).
Proof.
  unfold OpenAIService._generate_with_gemini, OpenAIService.gemini_try_model.
  walk.
Qed.

Lemma hf_try_model_safe msg model :
  safe huggingface_call (OpenAIService.hf_try_model w self msg model).
Proof. unfold OpenAIService.hf_try_model. walk. Qed.

Lemma huggingface_safe msg sp :
  safe huggingface_call
    (OpenAIService._generate_with_huggingface w self msg sp).
Proof.
  unfold OpenAIService._generate_with_huggingface.
  destruct (negb _); [apply safe_ret|].
  apply safe_try; [|intro; apply safe_ret].
  apply logs_bind; [apply logs_perform; exact I|]. intros status.
  destruct (negb _); [apply logs_ret|].
  apply logs_of_safe, safe_for_each; [intro; apply hf_try_model_safe|].
  apply safe_ret.
Qed.

Lemma ollama_safe msg sp :
  safe ollama_call (OpenAIService._generate_with_ollama w self msg sp).
Proof.
  unfold OpenAIService._generate_with_ollama.
  apply safe_bind.
  - eapply safe_weaken; [|apply check_ollama_safe].
    intros c ->. exact I.
  - walk.
Qed.

Lemma probe_is_backend c : ollama_probe self c -> backend_call c.
Proof. intros ->. exact I. Qed.

Lemma openai_is_backend c : openai_call c -> backend_call c.
Proof. destruct c; simpl; auto. Qed.

Lemma gemini_is_backend c : gemini_call c -> backend_call c.
Proof. destruct c; simpl; auto. Qed.

Lemma huggingface_is_backend c : huggingface_call c -> backend_call c.
Proof. destruct c; simpl; auto. Qed.

Lemma ollama_is_backend c : ollama_call c -> backend_call c.
Proof. destruct c; simpl; auto. Qed.

Lemma generate_response_at_safe msg :
  safe backend_call
    (OpenAIService.generate_response_at unicode_lower w self msg).
Proof.
  unfold OpenAIService.generate_response_at.
  apply safe_bind.
  { eapply safe_weaken; [apply probe_is_backend | apply is_configured_safe]. }
  intros configured.
  destruct (negb configured); [apply safe_ret|].
  destruct (mem _ _); [apply safe_ret|].
  destruct (mem _ _); [apply safe_ret|].
  apply safe_bind.
  { eapply safe_weaken; [apply openai_is_backend | apply try_openai_safe]. }
  intros [ai|]; [apply safe_ret|].
  apply safe_bind.
  { eapply safe_weaken; [apply gemini_is_backend | apply gemini_safe]. }
  intros g. destruct (truthy g); [apply safe_ret|].
  apply safe_bind.
  { eapply safe_weaken; [apply huggingface_is_backend | apply huggingface_safe]. }
  intros h. destruct (truthy h); [apply safe_ret|].
  apply safe_bind.
  { eapply safe_weaken; [apply ollama_is_backend | apply ollama_safe]. }
  intros o. destruct (truthy o); [apply safe_ret|].
  destruct (nonempty _); apply safe_ret.
Qed.

(** [generate_response] returns a value for every message, whatever
    the backends do: no exception of theirs gets through. *)
Lemma generate_response_safe msg :
  safe backend_call (OpenAIService.generate_response unicode_lower w self msg).
Proof.
  unfold OpenAIService.generate_response.
  apply safe_bind; [apply generate_response_at_safe|].
  intro. apply safe_ret.
Qed.

End Adapters.

(** ** The fallback responder *)

Section Fallback.

Variable unicode_lower : str -> N -> str -> str.

(** What "first set matched" means for a table of keyword sets. *)
Lemma first_match_spec table message_lower generic :
  (exists before words reply after,
      table = before ++ (words, reply) :: after /\
      Forall (fun e => OpenAIService.any_in (fst e) message_lower = false)
        before /\
      OpenAIService.any_in words message_lower = true /\
      Responder.first_match table message_lower generic = reply)
  \/
  (Forall (fun e => OpenAIService.any_in (fst e) message_lower = false) table /\
   Responder.first_match table message_lower generic = generic).
Proof.
  induction table as [|[words reply] rest IH]; simpl.
  - right. split; constructor.
  - destruct (OpenAIService.any_in words message_lower) eqn:E.
    + left. exists [], words, reply, rest. repeat split; auto.
    + destruct IH as [(before & ws & r & after & -> & F & Hm & Hr) | [F Hr]].
      * left. exists ((words, reply) :: before), ws, r, after.
        repeat split; auto.
      * right. split; auto.
Qed.

Lemma any_in_iff (words : list str) (s : str) :
  OpenAIService.any_in words s = true <-> has_keyword words s.
Proof.
  unfold OpenAIService.any_in, has_keyword, occurs_in.
  rewrite existsb_exists. split.
  - intros (word & Hi & Hc). apply contains_iff in Hc. eauto.
  - intros (word & Hi & Hc). apply contains_iff in Hc. eauto.
Qed.

Lemma any_in_false (words : list str) (s : str) :
  ~ has_keyword words s -> OpenAIService.any_in words s = false.
Proof.
  intros H. destruct (OpenAIService.any_in words s) eqn:E; [|reflexivity].
  apply any_in_iff in E. contradiction.
Qed.

Lemma ascii_lower_above_127 (c : N) : (c <? 128) = false -> ascii_lower c = c.
Proof.
  intros H. apply N.ltb_ge in H. unfold ascii_lower.
  destruct (c <=? 90) eqn:E; [|now rewrite andb_false_r].
  apply N.leb_le in E. lia.
Qed.

(** On ASCII and CJK code points the lower-casing does not depend on the
    case table: [A]..[Z] go to [a]..[z] and nothing else changes. *)
Lemma lower_on_plain (s : str) :
  forallb plain s = true ->
  lower unicode_lower s
  = map (fun c => if (65 <=? c) && (c <=? 90) then c + 32 else c) s.
Proof.
  unfold lower. generalize (@nil N) as pre.
  induction s as [|c s IH]; intros pre H; [reflexivity|].
  cbn [forallb] in H. apply andb_true_iff in H. destruct H as [Hc Hs].
  cbn [lower_from map]. rewrite (IH _ Hs). unfold lower_cp, plain in *.
  destruct (c <? 128) eqn:E; [reflexivity|].
  cbn [orb] in Hc. rewrite Hc.
  change (if (65 <=? c) && (c <=? 90) then c + 32 else c)
    with (ascii_lower c).
  now rewrite (ascii_lower_above_127 _ E).
Qed.

(** C5.  The fallback responder is a total function of the message alone.
    It lower-cases the message ([A]..[Z] to [a]..[z] on ASCII and CJK
    text) and answers with the canned reply of the first of the six keyword
    sets (greeting, help, time/date, weather, thanks, goodbye, in that
    order) one of whose keywords occurs in the lower-cased message as a
    substring, and with the generic "message received" reply when no
    keyword of any set occurs in it. *)
Theorem fallback_is_first_match (user_message : str) :
  (has_keyword OpenAIService.greeting_words (lower unicode_lower user_message) ->
   OpenAIService._generate_fallback_response unicode_lower user_message
   = OpenAIService.fallback_greeting)
  /\ (~ has_keyword OpenAIService.greeting_words
          (lower unicode_lower user_message) ->
      has_keyword OpenAIService.help_words (lower unicode_lower user_message) ->
      OpenAIService._generate_fallback_response unicode_lower user_message
      = OpenAIService.fallback_help)
  /\ (~ has_keyword OpenAIService.greeting_words
          (lower unicode_lower user_message) ->
      ~ has_keyword OpenAIService.help_words
          (lower unicode_lower user_message) ->
      has_keyword OpenAIService.time_words (lower unicode_lower user_message) ->
      OpenAIService._generate_fallback_response unicode_lower user_message
      = OpenAIService.fallback_time)
  /\ (~ has_keyword OpenAIService.greeting_words
          (lower unicode_lower user_message) ->
      ~ has_keyword OpenAIService.help_words
          (lower unicode_lower user_message) ->
      ~ has_keyword OpenAIService.time_words
          (lower unicode_lower user_message) ->
      has_keyword OpenAIService.weather_words
        (lower unicode_lower user_message) ->
      OpenAIService._generate_fallback_response unicode_lower user_message
      = OpenAIService.fallback_weather)
  /\ (~ has_keyword OpenAIService.greeting_words
          (lower unicode_lower user_message) ->
      ~ has_keyword OpenAIService.help_words
          (lower unicode_lower user_message) ->
      ~ has_keyword OpenAIService.time_words
          (lower unicode_lower user_message) ->
      ~ has_keyword OpenAIService.weather_words
          (lower unicode_lower user_message) ->
      has_keyword OpenAIService.thanks_words
        (lower unicode_lower user_message) ->
      OpenAIService._generate_fallback_response unicode_lower user_message
      = OpenAIService.fallback_thanks)
  /\ (~ has_keyword OpenAIService.greeting_words
          (lower unicode_lower user_message) ->
      ~ has_keyword OpenAIService.help_words
          (lower unicode_lower user_message) ->
      ~ has_keyword OpenAIService.time_words
          (lower unicode_lower user_message) ->
      ~ has_keyword OpenAIService.weather_words
          (lower unicode_lower user_message) ->
      ~ has_keyword OpenAIService.thanks_words
          (lower unicode_lower user_message) ->
      has_keyword OpenAIService.goodbye_words
        (lower unicode_lower user_message) ->
      OpenAIService._generate_fallback_response unicode_lower user_message
      = OpenAIService.fallback_goodbye)
  /\ (~ has_keyword OpenAIService.greeting_words
          (lower unicode_lower user_message) ->
      ~ has_keyword OpenAIService.help_words
          (lower unicode_lower user_message) ->
      ~ has_keyword OpenAIService.time_words
          (lower unicode_lower user_message) ->
      ~ has_keyword OpenAIService.weather_words
          (lower unicode_lower user_message) ->
      ~ has_keyword OpenAIService.thanks_words
          (lower unicode_lower user_message) ->
      ~ has_keyword OpenAIService.goodbye_words
          (lower unicode_lower user_message) ->
      OpenAIService._generate_fallback_response unicode_lower user_message
      = OpenAIService.fallback_default)
  /\ (forallb plain user_message = true ->
      lower unicode_lower user_message
      = map (fun c => if (65 <=? c) && (c <=? 90) then c + 32 else c)
          user_message)
  /\ OpenAIService._generate_fallback_response unicode_lower user_message
     = Responder.respond unicode_lower user_message.
Proof.
  assert (Step : forall P Q : Prop, P -> Q -> P /\ Q) by (intros; now split).
  repeat apply Step; try apply lower_on_plain; try reflexivity;
    intros;
    repeat match goal with
           | H : has_keyword _ _ |- _ => apply any_in_iff in H
           | H : ~ has_keyword _ _ |- _ => apply any_in_false in H
           end;
    unfold OpenAIService._generate_fallback_response; cbv zeta;
    repeat match goal with
           | H : OpenAIService.any_in _ _ = _ |- _ => rewrite H; clear H
           end;
    reflexivity.
Qed.

Lemma fallback_nonempty (user_message : str) :
  nonempty
    (OpenAIService._generate_fallback_response unicode_lower user_message)
  = true.
Proof.
  unfold OpenAIService._generate_fallback_response.
  repeat match goal with
         | |- context [if ?b then _ else _] => destruct b
         end; reflexivity.
Qed.

End Fallback.

(** ** Results of the response generator *)

Lemma ensures_ret {A} (Q : A -> Prop) a : Q a -> ensures Q (ret a).
Proof. intros H t a' t' E. injection E as <- _. exact H. Qed.

Lemma ensures_bind {A B} (Q : B -> Prop) (m : M A) (k : A -> M B) :
  (forall a, ensures Q (k a)) -> ensures Q (bind m k).
Proof.
  intros Hk t b t' E. unfold bind in E.
  destruct (m t) as [[a|e] t1]; [|discriminate].
  exact (Hk a t1 b t' E).
Qed.

Section Generator.

Variable unicode_lower : str -> N -> str -> str.
Variable w : World.
Variable self : OpenAIService.t.

Lemma generate_response_at_sited msg :
  ensures well_sited
    (OpenAIService.generate_response_at unicode_lower w self msg).
Proof.
  unfold OpenAIService.generate_response_at.
  apply ensures_bind. intros configured.
  destruct (negb configured); [now apply ensures_ret|].
  destruct (mem _ _); [now apply ensures_ret|].
  destruct (mem _ _); [now apply ensures_ret|].
  apply ensures_bind. intros [ai|]; [now apply ensures_ret|].
  apply ensures_bind. intros g.
  destruct (truthy g) eqn:Eg; [now apply ensures_ret|].
  apply ensures_bind. intros h.
  destruct (truthy h) eqn:Eh; [now apply ensures_ret|].
  apply ensures_bind. intros o.
  destruct (truthy o) eqn:Eo; [now apply ensures_ret|].
  rewrite fallback_nonempty. apply ensures_ret.
  unfold well_sited. simpl. apply fallback_nonempty.
Qed.

(** C9.  The fallback responder returns a non-empty string for every
    message, so [generate_response] never returns from its last statement,
    the "service unavailable, contact the administrator" one after the
    fallback responder. *)
Theorem final_return_unreachable (user_message : str) (t : Trace) :
  nonempty
    (OpenAIService._generate_fallback_response unicode_lower user_message)
  = true
  /\ (exists r t',
        OpenAIService.generate_response_at unicode_lower w self user_message t
        = (Returns r, t'))
  /\ forall v,
       fst (OpenAIService.generate_response_at unicode_lower w self
              user_message t)
       <> Returns (OpenAIService.AtFinal, v).
Proof.
  split; [apply fallback_nonempty|].
  destruct (generate_response_at_safe unicode_lower w self user_message t)
    as (r & ext & E & _).
  split; [eauto|].
  intros v H. rewrite E in H. simpl in H. injection H as ->.
  exact (generate_response_at_sited user_message t _ _ E).
Qed.

(** The adapters run in the order OpenAI, Gemini, Hugging Face, Ollama,
    after the configuration check, and none runs after the one whose
    result is returned. *)
Lemma adapters_run_in_order (user_message : str) (t : Trace) :
  exists r e0 e1 e2 e3 e4,
    OpenAIService.generate_response_at unicode_lower w self user_message t
    = (Returns r, t ++ e0 ++ e1 ++ e2 ++ e3 ++ e4)
    /\ Forall (ollama_probe self) e0 /\ Forall openai_call e1
    /\ Forall gemini_call e2 /\ Forall huggingface_call e3
    /\ Forall ollama_call e4
    /\ match fst r with
       | OpenAIService.AtNotConfigured | OpenAIService.AtGreeting
       | OpenAIService.AtHelp => e1 = [] /\ e2 = [] /\ e3 = [] /\ e4 = []
       | OpenAIService.AtOpenAI => e2 = [] /\ e3 = [] /\ e4 = []
       | OpenAIService.AtGemini => e3 = [] /\ e4 = []
       | OpenAIService.AtHuggingFace => e4 = []
       | _ => True
       end.
Proof.
  unfold OpenAIService.generate_response_at.
  destruct (is_configured_safe w self t) as (c & e0 & E0 & F0).
  rewrite (bind_returns _ _ _ _ _ E0).
  assert (Stop : forall s (v : value),
             match s with
             | OpenAIService.AtNotConfigured | OpenAIService.AtGreeting
             | OpenAIService.AtHelp => True
             | _ => False
             end ->
             exists r e0' e1 e2 e3 e4,
               ret (s, v) (t ++ e0)
               = (Returns r, t ++ e0' ++ e1 ++ e2 ++ e3 ++ e4)
               /\ Forall (ollama_probe self) e0' /\ Forall openai_call e1
               /\ Forall gemini_call e2 /\ Forall huggingface_call e3
               /\ Forall ollama_call e4
               /\ match fst r with
                  | OpenAIService.AtNotConfigured | OpenAIService.AtGreeting
                  | OpenAIService.AtHelp =>
                      e1 = [] /\ e2 = [] /\ e3 = [] /\ e4 = []
                  | OpenAIService.AtOpenAI => e2 = [] /\ e3 = [] /\ e4 = []
                  | OpenAIService.AtGemini => e3 = [] /\ e4 = []
                  | OpenAIService.AtHuggingFace => e4 = []
                  | _ => True
                  end).
  { intros s v Hs. exists (s, v), e0, [], [], [], [].
    rewrite !app_nil_r. repeat split; auto.
    destruct s; simpl; auto; contradiction. }
  destruct (negb c); [now apply Stop|].
  destruct (mem _ _); [now apply Stop|].
  destruct (mem _ _); [now apply Stop|].
  clear Stop.
  destruct (try_openai_safe w self user_message (t ++ e0))
    as (r1 & e1 & E1 & F1).
  rewrite (bind_returns _ _ _ _ _ E1).
  destruct r1 as [ai|].
  { exists (OpenAIService.AtOpenAI, ai), e0, e1, [], [], [].
    rewrite !app_nil_r, <- app_assoc. repeat split; auto. }
  destruct (gemini_safe w self user_message OpenAIService.system_prompt
              ((t ++ e0) ++ e1)) as (g & e2 & E2 & F2).
  rewrite (bind_returns _ _ _ _ _ E2).
  destruct (truthy g).
  { exists (OpenAIService.AtGemini, g), e0, e1, e2, [], [].
    rewrite !app_nil_r, <- !app_assoc. repeat split; auto. }
  destruct (huggingface_safe w self user_message OpenAIService.system_prompt
              (((t ++ e0) ++ e1) ++ e2)) as (h & e3 & E3 & F3).
  rewrite (bind_returns _ _ _ _ _ E3).
  destruct (truthy h).
  { exists (OpenAIService.AtHuggingFace, h), e0, e1, e2, e3, [].
    rewrite !app_nil_r, <- !app_assoc. repeat split; auto. }
  destruct (ollama_safe w self user_message OpenAIService.system_prompt
              ((((t ++ e0) ++ e1) ++ e2) ++ e3)) as (o & e4 & E4 & F4).
  rewrite (bind_returns _ _ _ _ _ E4).
  destruct (truthy o).
  { exists (OpenAIService.AtOllama, o), e0, e1, e2, e3, e4.
    rewrite <- !app_assoc. repeat split; auto. }
  destruct (nonempty _);
    eexists (_, _), e0, e1, e2, e3, e4;
    rewrite <- !app_assoc; repeat split; auto.
Qed.

End Generator.

(** ** An empty completion from OpenAI *)

(** C1.  With an OpenAI client configured, a completion whose content is
    [None] or blank is returned as it is: [generate_response] does not
    raise, but its result is [None] in the first case and the empty string
    in the second, where the claim promises a non-empty string. *)
Theorem openai_empty_completion_is_returned :
  OpenAIService.generate_response Samples.no_case Samples.null_completion
    Samples.openai_and_gemini (u "tell me a joke") []
  = (Returns None,
     [ChatCompletionsCreate (u "gpt-4o") OpenAIService.system_prompt
        (u "tell me a joke")])
  /\
  OpenAIService.generate_response Samples.no_case Samples.blank_completion
    Samples.openai_and_gemini (u "tell me a joke") []
  = (Returns (Some []),
     [ChatCompletionsCreate (u "gpt-4o") OpenAIService.system_prompt
        (u "tell me a joke")]).
Proof. split; vm_compute; reflexivity. Qed.

(** C4.  OpenAI answers with a blank completion and Gemini is configured
    and would answer "Hello from Gemini": the result is the empty string of
    the OpenAI block, and Gemini, the first adapter with a non-empty result,
    is never called. *)
Theorem openai_blank_completion_ends_the_chain :
  OpenAIService.generate_response_at Samples.no_case Samples.blank_completion
    Samples.openai_and_gemini (u "what is the weather like") []
  = (Returns (OpenAIService.AtOpenAI, Some []),
     [ChatCompletionsCreate (u "gpt-4o") OpenAIService.system_prompt
        (u "what is the weather like")])
  /\
  fst (OpenAIService._generate_with_gemini Samples.blank_completion
         Samples.openai_and_gemini (u "what is the weather like")
         OpenAIService.system_prompt
         [ChatCompletionsCreate (u "gpt-4o") OpenAIService.system_prompt
            (u "what is the weather like")])
  = Returns (Some (u "Hello from Gemini")).
Proof. split; vm_compute; reflexivity. Qed.

(** ** The greeting and help commands *)

Lemma lower_fixed_commands (unicode_lower : str -> N -> str -> str) :
  Forall (fun p => lower unicode_lower (fst p) = snd p)
    [ (u "hi", u "hi"); (u "你好", u "你好"); (u "Hi", u "hi");
      (u "HI", u "hi"); (u "hello", u "hello"); (u "Hello", u "hello");
      (u "HELLO", u "hello"); (u "嗨", u "嗨"); (u "help", u "help");
      (u "HELP", u "help") ].
Proof. repeat constructor. Qed.

Section Commands.

Variable unicode_lower : str -> N -> str -> str.
Variable w : World.
Variable self : OpenAIService.t.

Lemma greeting_command_at msg t t0 :
  OpenAIService.is_configured w self t = (Returns true, t0) ->
  mem (lower unicode_lower msg) OpenAIService.greeting_commands = true ->
  OpenAIService.generate_response unicode_lower w self msg t
  = (Returns (Some OpenAIService.greeting_reply), t0).
Proof.
  intros Ec Hm.
  assert (E : OpenAIService.generate_response_at unicode_lower w self msg t
              = (Returns (OpenAIService.AtGreeting, Some OpenAIService.greeting_reply), t0)).
  { unfold OpenAIService.generate_response_at.
    rewrite (bind_returns _ _ _ _ _ Ec). cbn [negb]. now rewrite Hm. }
  unfold OpenAIService.generate_response.
  now rewrite (bind_returns _ _ _ _ _ E).
Qed.

Lemma help_command_at msg t t0 :
  OpenAIService.is_configured w self t = (Returns true, t0) ->
  mem (lower unicode_lower msg) OpenAIService.help_commands = true ->
  mem (lower unicode_lower msg) OpenAIService.greeting_commands = false ->
  OpenAIService.generate_response unicode_lower w self msg t
  = (Returns (Some OpenAIService.help_reply), t0).
Proof.
  intros Ec Hm Hg.
  assert (E : OpenAIService.generate_response_at unicode_lower w self msg t
              = (Returns (OpenAIService.AtHelp, Some OpenAIService.help_reply), t0)).
  { unfold OpenAIService.generate_response_at.
    rewrite (bind_returns _ _ _ _ _ Ec). cbn [negb]. now rewrite Hg, Hm. }
  unfold OpenAIService.generate_response.
  now rewrite (bind_returns _ _ _ _ _ E).
Qed.

Lemma not_configured_at msg t t0 :
  OpenAIService.is_configured w self t = (Returns false, t0) ->
  OpenAIService.generate_response unicode_lower w self msg t
  = (Returns (Some OpenAIService.unavailable_message), t0).
Proof.
  intros Ec.
  assert (E : OpenAIService.generate_response_at unicode_lower w self msg t
              = (Returns (OpenAIService.AtNotConfigured, Some OpenAIService.unavailable_message), t0)).
  { unfold OpenAIService.generate_response_at.
    rewrite (bind_returns _ _ _ _ _ Ec). cbn [negb]. reflexivity. }
  unfold OpenAIService.generate_response.
  now rewrite (bind_returns _ _ _ _ _ E).
Qed.

Lemma split_run {A} (m : M A) t o :
  fst (m t) = o -> m t = (o, snd (m t)).
Proof. intros <-. now destruct (m t). Qed.

(** C2, amended.  Whenever the service is configured, "hi", "你好" and
    every message whose lower-casing is one of the greeting commands get the
    fixed greeting reply, and no call is made beyond those of the
    configuration check: no adapter is asked to generate. *)
Theorem greeting_bypasses_backends (t : Trace) :
  fst (OpenAIService.is_configured w self t) = Returns true ->
  (forall msg,
      mem (lower unicode_lower msg) OpenAIService.greeting_commands = true ->
      OpenAIService.generate_response unicode_lower w self msg t
      = (Returns (Some OpenAIService.greeting_reply),
         snd (OpenAIService.is_configured w self t)))
  /\ Forall
       (fun msg =>
          OpenAIService.generate_response unicode_lower w self msg t
          = (Returns (Some OpenAIService.greeting_reply),
             snd (OpenAIService.is_configured w self t)))
       [u "hi"; u "你好"; u "Hi"; u "HI"; u "hello"; u "Hello"; u "HELLO";
        u "嗨"]
  /\ exists probes,
       snd (OpenAIService.is_configured w self t) = t ++ probes
       /\ Forall (ollama_probe self) probes.
Proof.
  intros Hc. apply split_run in Hc.
  split; [|split].
  - intros msg Hm. now apply greeting_command_at.
  - repeat constructor; apply greeting_command_at; auto.
  - destruct (is_configured_safe w self t) as (c & ext & E & F).
    exists ext. rewrite E. auto.
Qed.

End Commands.

(** C2 as stated fails: with no credential and no reachable Ollama, "hi"
    gets the "service unavailable" message, after the one probe of Ollama. *)
Lemma greeting_when_nothing_is_configured :
  OpenAIService.generate_response Samples.no_case Samples.offline
    Samples.bare (u "hi") []
  = (Returns (Some OpenAIService.unavailable_message),
     [GetOllamaTags (u "http://localhost:11434/api/tags")])
  /\ OpenAIService.unavailable_message <> OpenAIService.greeting_reply.
Proof. split; [vm_compute; reflexivity | discriminate]. Qed.

Lemma greeting_bypasses_backends_witness :
  OpenAIService.generate_response Samples.no_case Samples.offline
    Samples.anthropic_only (u "Hello") []
  = (Returns (Some OpenAIService.greeting_reply), []).
Proof.
  apply (proj1 (greeting_bypasses_backends Samples.no_case Samples.offline
                  Samples.anthropic_only [] eq_refl)).
  reflexivity.
Defined.

(** ** When every adapter gives no result *)

(** A command is one of the keywords of the fallback responder, so a
    message without the keywords is not a command. *)
Lemma command_has_word (cmds words : list str) (x : str) :
  incl cmds words -> mem x cmds = true -> OpenAIService.any_in words x = true.
Proof.
  intros Hi Hm. apply mem_iff in Hm.
  unfold OpenAIService.any_in. apply existsb_exists.
  exists x. split; [now apply Hi | apply contains_refl].
Qed.

Lemma greeting_commands_are_words :
  incl OpenAIService.greeting_commands OpenAIService.greeting_words.
Proof. intros c H. simpl in *. intuition. Qed.

Lemma help_commands_are_words :
  incl OpenAIService.help_commands OpenAIService.help_words.
Proof. intros c H. simpl in *. intuition. Qed.

Lemma not_a_command (cmds words : list str) (x : str) :
  incl cmds words -> OpenAIService.any_in words x = false -> mem x cmds = false.
Proof.
  intros Hi Hw. destruct (mem x cmds) eqn:E; [|reflexivity].
  now rewrite (command_has_word _ _ _ Hi E) in Hw.
Qed.

Section NoResult.

Variable unicode_lower : str -> N -> str -> str.
Variable w : World.
Variable self : OpenAIService.t.

(** The OpenAI block passes to the next adapter exactly when there is no
    client or the request raises: a completion, be it [None] or blank, is
    returned by the block. *)
Lemma openai_block_falls_through_iff msg t t1 :
  OpenAIService.try_openai w self msg t = (Returns Continue, t1)
  <-> (OpenAIService.openai_client self = None /\ t1 = t)
      \/ (OpenAIService.openai_client self <> None
          /\ t1 = t ++ [ChatCompletionsCreate (u "gpt-4o")
                          OpenAIService.system_prompt msg]
          /\ exists e, chat_completion w t1 = Raises e).
Proof.
  unfold OpenAIService.try_openai, try_except, bind, perform, ret.
  destruct (OpenAIService.openai_client self) as [client|].
  - destruct (chat_completion w _) as [v|e] eqn:E; split.
    + intros H. discriminate H.
    + intros [[H _]|(_ & -> & e & He)]; [discriminate H|].
      rewrite E in He. discriminate He.
    + intros H. injection H as <-. right.
      split; [discriminate|]. split; [reflexivity|]. now exists e.
    + intros [[H _]|(_ & -> & _)]; [discriminate H|reflexivity].
  - split.
    + intros H. injection H as <-. now left.
    + intros [[_ ->]|(H & _)]; [reflexivity|now contradiction H].
Qed.

(** Configured, not a command, and the chain falls through: the reply is
    the fallback responder's. *)
Lemma fallback_when_no_result msg t t0 :
  OpenAIService.is_configured w self t = (Returns true, t0) ->
  mem (lower unicode_lower msg) OpenAIService.greeting_commands = false ->
  mem (lower unicode_lower msg) OpenAIService.help_commands = false ->
  chain_falls_through w self msg t0 ->
  fst (OpenAIService.generate_response unicode_lower w self msg t)
  = Returns
      (Some (OpenAIService._generate_fallback_response unicode_lower msg)).
Proof.
  intros Ec Hg Hh (t1 & g & t2 & h & t3 & o & t4 & E1 & E2 & Tg & E3 & Th & E4 & To).
  assert (E : OpenAIService.generate_response_at unicode_lower w self msg t
              = (Returns
                   (OpenAIService.AtFallback,
                    Some (OpenAIService._generate_fallback_response
                            unicode_lower msg)), t4)).
  { unfold OpenAIService.generate_response_at.
    rewrite (bind_returns _ _ _ _ _ Ec). cbn [negb]. rewrite Hg, Hh.
    rewrite (bind_returns _ _ _ _ _ E1).
    rewrite (bind_returns _ _ _ _ _ E2), Tg.
    rewrite (bind_returns _ _ _ _ _ E3), Th.
    rewrite (bind_returns _ _ _ _ _ E4), To.
    now rewrite fallback_nonempty. }
  unfold OpenAIService.generate_response.
  now rewrite (bind_returns _ _ _ _ _ E).
Qed.

(** C3, amended.  The service being configured, the OpenAI block not
    reaching its [return] (no client, or a request that raises) and the
    Gemini, Hugging Face and Ollama adapters each giving no result, a
    message with a thanks keyword and a goodbye keyword, and with no
    greeting, help, time/date or weather keyword, gets the thanks reply of
    the fallback responder: thanks is checked before goodbye. *)
Theorem thanks_is_checked_before_goodbye (msg : str) (t : Trace) :
  fst (OpenAIService.is_configured w self t) = Returns true ->
  chain_falls_through w self msg
    (snd (OpenAIService.is_configured w self t)) ->
  OpenAIService.any_in OpenAIService.thanks_words (lower unicode_lower msg)
  = true ->
  OpenAIService.any_in OpenAIService.goodbye_words (lower unicode_lower msg)
  = true ->
  OpenAIService.any_in OpenAIService.greeting_words (lower unicode_lower msg)
  = false ->
  OpenAIService.any_in OpenAIService.help_words (lower unicode_lower msg)
  = false ->
  OpenAIService.any_in OpenAIService.time_words (lower unicode_lower msg)
  = false ->
  OpenAIService.any_in OpenAIService.weather_words (lower unicode_lower msg)
  = false ->
  fst (OpenAIService.generate_response unicode_lower w self msg t)
  = Returns (Some OpenAIService.fallback_thanks).
Proof.
  intros Hc Ha Hthanks _ Hgreet Hhelp Htime Hweather.
  apply split_run in Hc.
  rewrite (fallback_when_no_result msg t _ Hc
             (not_a_command _ _ _ greeting_commands_are_words Hgreet)
             (not_a_command _ _ _ help_commands_are_words Hhelp) Ha).
  unfold OpenAIService._generate_fallback_response.
  now rewrite Hgreet, Hhelp, Htime, Hweather, Hthanks.
Qed.

End NoResult.

Lemma offline_chain_falls_through (msg : str) :
  chain_falls_through Samples.offline Samples.anthropic_only msg [].
Proof.
  exists [], None, [], None, [], None,
    [GetOllamaTags (u "http://localhost:11434/api/tags")].
  repeat split; reflexivity.
Qed.

(** C3 as stated fails: "thank you, bye" has a thanks keyword and a goodbye
    keyword, no adapter has a result (there is no client and no key, and
    Ollama cannot be reached), and the reply is the thanks reply, not the
    goodbye reply. *)
Lemma thanks_wins_over_goodbye :
  OpenAIService.any_in OpenAIService.thanks_words
    (lower Samples.no_case (u "thank you, bye")) = true
  /\ OpenAIService.any_in OpenAIService.goodbye_words
       (lower Samples.no_case (u "thank you, bye")) = true
  /\ chain_falls_through Samples.offline Samples.anthropic_only
       (u "thank you, bye") []
  /\ fst (OpenAIService.generate_response Samples.no_case Samples.offline
            Samples.anthropic_only (u "thank you, bye") [])
     = Returns (Some OpenAIService.fallback_thanks)
  /\ OpenAIService.fallback_thanks <> OpenAIService.fallback_goodbye.
Proof.
  repeat split; try (vm_compute; reflexivity).
  - apply offline_chain_falls_through.
  - discriminate.
Qed.

Lemma thanks_is_checked_before_goodbye_witness :
  fst (OpenAIService.generate_response Samples.no_case Samples.offline
         Samples.anthropic_only (u "thank you, bye") [])
  = Returns (Some OpenAIService.fallback_thanks).
Proof.
  apply (thanks_is_checked_before_goodbye Samples.no_case Samples.offline
           Samples.anthropic_only (u "thank you, bye") []);
    try reflexivity.
  apply offline_chain_falls_through.
Defined.

(** ** The test endpoint *)

Section TestEndpoint.

Variable unicode_lower : str -> N -> str -> str.
Variable w : World.
Variable openai_service : OpenAIService.t.

Lemma test_message_without_message data message t :
  py_get data (u "message") (JStr []) = Returns message ->
  json_truthy message = false ->
  App.test_message unicode_lower w openai_service (Returns data) t
  = (Returns message_required, t).
Proof.
  intros Hg Hm. unfold App.test_message, try_except.
  erewrite bind_returns by reflexivity.
  erewrite bind_returns by (unfold lift; rewrite Hg; reflexivity).
  now rewrite Hm.
Qed.

Lemma test_message_with_message data message v t t' :
  py_get data (u "message") (JStr []) = Returns message ->
  json_truthy message = true ->
  OpenAIService.generate_response_any unicode_lower w openai_service message t
  = (Returns v, t') ->
  App.test_message unicode_lower w openai_service (Returns data) t
  = (Returns (JObj [(u "response", json_of_value v)], 200%Z), t').
Proof.
  intros Hg Hm Hr. unfold App.test_message, try_except.
  erewrite bind_returns by reflexivity.
  erewrite bind_returns by (unfold lift; rewrite Hg; reflexivity).
  rewrite Hm. cbn [negb].
  now erewrite bind_returns by exact Hr.
Qed.

(** C8, amended.  A POST whose JSON object has no [message], or a falsy
    one, is answered 400 with [{"error": "Message is required"}] and
    nothing is called; [{"message": "help"}] is answered 200 with the help
    menu in the [response] field when the service is configured, and 200
    with the "service unavailable" message when it is not. *)
Theorem test_endpoint_contract (t : Trace) :
  App.test_message unicode_lower w openai_service (Returns (JObj [])) t
  = (Returns message_required, t)
  /\ (forall items,
         assoc (u "message") items = None ->
         App.test_message unicode_lower w openai_service
           (Returns (JObj items)) t
         = (Returns message_required, t))
  /\ (forall items message,
         assoc (u "message") items = Some message ->
         json_truthy message = false ->
         App.test_message unicode_lower w openai_service
           (Returns (JObj items)) t
         = (Returns message_required, t))
  /\ (fst (OpenAIService.is_configured w openai_service t) = Returns true ->
      App.test_message unicode_lower w openai_service
        (Returns (JObj [(u "message", JStr (u "help"))])) t
      = (Returns
           (JObj [(u "response", JStr OpenAIService.help_reply)], 200%Z),
         snd (OpenAIService.is_configured w openai_service t)))
  /\ (fst (OpenAIService.is_configured w openai_service t) = Returns false ->
      App.test_message unicode_lower w openai_service
        (Returns (JObj [(u "message", JStr (u "help"))])) t
      = (Returns
           (JObj [(u "response", JStr OpenAIService.unavailable_message)],
            200%Z),
         snd (OpenAIService.is_configured w openai_service t))).
Proof.
  split; [|split; [|split; [|split]]].
  - now apply (test_message_without_message (JObj []) (JStr [])).
  - intros items Ha.
    apply (test_message_without_message (JObj items) (JStr [])); auto.
    simpl. now rewrite Ha.
  - intros items message Ha Hm.
    apply (test_message_without_message (JObj items) message); auto.
    simpl. now rewrite Ha.
  - intros Hc. apply split_run in Hc.
    apply (test_message_with_message _ (JStr (u "help"))
             (Some OpenAIService.help_reply)); try reflexivity.
    now apply help_command_at.
  - intros Hc. apply split_run in Hc.
    apply (test_message_with_message _ (JStr (u "help"))
             (Some OpenAIService.unavailable_message)); try reflexivity.
    now apply not_configured_at.
Qed.

End TestEndpoint.

(** C8 as stated fails: with no credential and no reachable Ollama,
    [{"message": "help"}] is answered 200 with the "service unavailable"
    message, not the help menu. *)
Lemma help_when_nothing_is_configured :
  App.test_message Samples.no_case Samples.offline Samples.bare
    (Returns (JObj [(u "message", JStr (u "help"))])) []
  = (Returns
       (JObj [(u "response", JStr OpenAIService.unavailable_message)], 200%Z),
     [GetOllamaTags (u "http://localhost:11434/api/tags")])
  /\ OpenAIService.unavailable_message <> OpenAIService.help_reply.
Proof. split; [vm_compute; reflexivity | discriminate]. Qed.

(** ** The webhook *)

Lemma init_without_credentials (environ : str -> option str) :
  nonempty (OpenAIService.getenv environ (u "LINE_CHANNEL_ACCESS_TOKEN") [])
  && nonempty (OpenAIService.getenv environ (u "LINE_CHANNEL_SECRET") [])
  = false ->
  LineBot.is_configured (LineBot.__init__ environ) = false.
Proof. intros H. unfold LineBot.__init__. now rewrite H. Qed.

Section Webhook.

Variable unicode_lower : str -> N -> str -> str.
Variable w : World.
Variable line_bot : LineBot.t.
Variable openai_service : OpenAIService.t.

Lemma webhook_not_configured signature body t :
  LineBot.is_configured line_bot = false ->
  App.webhook unicode_lower w line_bot openai_service signature body t
  = (Returns error_500, t).
Proof.
  intros H. unfold App.webhook, try_except, LineBot.parse_webhook.
  rewrite H. reflexivity.
Qed.

End Webhook.

(** C10.  When the channel access token or the channel secret is missing or
    empty, the LINE bot is not configured and every POST to the webhook is
    answered 500 "Error", whatever its body and signature; the SDK is not
    called and no event is processed. *)
Theorem webhook_without_credentials (environ : str -> option str)
    (unicode_lower : str -> N -> str -> str) (w : World)
    (openai_service : OpenAIService.t) (signature body : str) (t : Trace) :
  nonempty (OpenAIService.getenv environ (u "LINE_CHANNEL_ACCESS_TOKEN") [])
  && nonempty (OpenAIService.getenv environ (u "LINE_CHANNEL_SECRET") [])
  = false ->
  LineBot.is_configured (LineBot.__init__ environ) = false
  /\ App.webhook unicode_lower w (LineBot.__init__ environ) openai_service
       signature body t
     = (Returns (u "Error", 500%Z), t).
Proof.
  intros H. split.
  - now apply init_without_credentials.
  - apply webhook_not_configured. now apply init_without_credentials.
Qed.

Lemma webhook_without_credentials_witness :
  App.webhook Samples.no_case Samples.offline
    (LineBot.__init__ (Samples.only (u "LINE_CHANNEL_SECRET") (u "s3cret")))
    Samples.anthropic_only (u "signature") (u "{}") []
  = (Returns (u "Error", 500%Z), []).
Proof.
  apply (proj2 (webhook_without_credentials
                  (Samples.only (u "LINE_CHANNEL_SECRET") (u "s3cret"))
                  Samples.no_case Samples.offline Samples.anthropic_only
                  (u "signature") (u "{}") [] eq_refl)).
Defined.

Lemma no_reply_in_backend_calls (ext : list Call) :
  Forall backend_call ext -> filter is_reply ext = [].
Proof.
  induction 1 as [|c ext Hc _ IH]; [reflexivity|].
  simpl. destruct c; simpl in *; try exact IH; contradiction.
Qed.

Section WebhookContract.

Variable unicode_lower : str -> N -> str -> str.
Variable w : World.
Variable line_bot : LineBot.t.
Variable openai_service : OpenAIService.t.

(** Configured, [parse_webhook] raises the [AttributeError] of the lookup
    of [parse]: the second [except] clause re-raises it. *)
Lemma parse_webhook_configured body signature t :
  LineBot.is_configured line_bot = true ->
  LineBot.parse_webhook line_bot body signature t
  = (Raises
       {| exn_cls := AttributeError;
          exn_msg := u "'WebhookHandler' object has no attribute 'parse'" |},
     t).
Proof.
  intros Hc. unfold LineBot.parse_webhook. now rewrite Hc.
Qed.

(** The handler returns whatever is raised inside it. *)
Lemma webhook_always_answers signature body t :
  exists r t',
    App.webhook unicode_lower w line_bot openai_service signature body t
    = (Returns r, t')
    /\ (r = ok_200 \/ r = error_500).
Proof.
  unfold App.webhook, try_except.
  destruct (bind _ _ t) as [[r|e] t'] eqn:E.
  - exists r, t'. split; [reflexivity|]. left.
    revert E. generalize t r t'.
    change (ensures (fun r => r = ok_200)
              (events <- LineBot.parse_webhook line_bot body signature ;;
               App.process_events unicode_lower w line_bot openai_service
                 events ;;;
               ret (u "OK", 200%Z))).
    apply ensures_bind. intros events.
    apply ensures_bind. intros _.
    now apply ensures_ret.
  - exists error_500, t'. split; [reflexivity|]. now right.
Qed.

(** C7.  With the LINE bot configured, [parse_webhook] raises for every
    body and signature, because the handler object has no [parse]; so every
    POST is answered 500 "Error" and nothing is called: an invalid
    signature does get 500 and no exception leaves the handler, as the
    claim says, but a POST with no event is not answered 200 "OK", and a
    text-message event gets no reply. *)
Theorem configured_webhook_answers_500 (signature body : str) (t : Trace) :
  LineBot.is_configured line_bot = true ->
  (forall events t',
      LineBot.parse_webhook line_bot body signature t
      <> (Returns events, t'))
  /\ App.webhook unicode_lower w line_bot openai_service signature body t
     = (Returns (u "Error", 500%Z), t).
Proof.
  intros Hc. split.
  - intros events t'. now rewrite (parse_webhook_configured _ _ _ Hc).
  - unfold App.webhook, try_except.
    now rewrite (bind_raises _ _ _ _ _ (parse_webhook_configured _ _ _ Hc)).
Qed.

End WebhookContract.

Lemma configured_webhook_answers_500_witness :
  App.webhook Samples.no_case Samples.replies_delivered Samples.line_ready
    Samples.anthropic_only (u "signature") (u "{}") []
  = (Returns (u "Error", 500%Z), []).
Proof.
  apply (proj2 (configured_webhook_answers_500 Samples.no_case
                  Samples.replies_delivered Samples.line_ready
                  Samples.anthropic_only (u "signature") (u "{}") []
                  eq_refl)).
Defined.

(** ** The Hugging Face adapter *)

Lemma ensures_try {A} (Q : A -> Prop) (m : M A) h :
  ensures Q m -> (forall e, ensures Q (h e)) -> ensures Q (try_except m h).
Proof.
  intros Hm Hh t a t' E. unfold try_except in E.
  destruct (m t) as [[a0|e] t1] eqn:Em.
  - injection E as <- <-. exact (Hm _ _ _ Em).
  - exact (Hh e _ _ _ E).
Qed.

Lemma ensures_for_each {A} (Q : A -> Prop) (body : str -> M (step A)) xs after :
  (forall x, ensures (on_return Q) (body x)) -> ensures Q after ->
  ensures Q (OpenAIService.for_each body xs after).
Proof.
  intros Hb Ha. induction xs as [|x xs IH]; simpl; [exact Ha|].
  intros t a t' E. unfold bind in E.
  destruct (body x t) as [[s|e] t1] eqn:Eb; [|discriminate].
  destruct s as [a0|].
  - injection E as <- <-. exact (Hb x _ _ _ Eb).
  - exact (IH _ _ _ E).
Qed.

(** A guarded request followed by code that makes no call: one call is
    logged and nothing is raised. *)
Lemma try_perform_log {A B} c (answer : Trace -> outcome A) (k : A -> M B) d :
  (forall a, logs (fun _ => False) (k a)) ->
  forall t, exists b,
    try_except (bind (perform c answer) k) (fun _ => ret d) t
    = (Returns b, t ++ [c]).
Proof.
  intros Hk t. unfold try_except, bind, perform.
  destruct (answer (t ++ [c])) as [a|e]; [|unfold ret; eauto].
  destruct (Hk a (t ++ [c])) as (o & ext & E & F).
  destruct ext as [|x ext]; [|now inversion F].
  rewrite E, app_nil_r. destruct o; unfold ret; eauto.
Qed.

(** *** What [strip] and [replace] compute *)

Lemma lstrip_spec (s : str) :
  exists l,
    s = l ++ lstrip s
    /\ Forall (fun c => is_space c = true) l
    /\ match lstrip s with
       | [] => True
       | c :: _ => is_space c = false
       end.
Proof.
  induction s as [|c s (l & E & F & H)].
  - exists []. repeat split. constructor.
  - cbn [lstrip]. destruct (is_space c) eqn:Ec.
    + exists (c :: l). cbn [app]. rewrite <- E. repeat split; auto.
    + exists []. repeat split; auto.
Qed.

(** [strip] removes the white space at both ends, and nothing else. *)
Lemma strip_spec (s : str) :
  exists l r,
    s = l ++ strip s ++ r
    /\ Forall (fun c => is_space c = true) l
    /\ Forall (fun c => is_space c = true) r
    /\ trimmed (strip s).
Proof.
  unfold strip, trimmed.
  destruct (lstrip_spec s) as (l & E & F & H).
  destruct (lstrip_spec (rev (lstrip s))) as (r & E' & F' & H').
  exists l, (rev r). rewrite rev_involutive.
  assert (Es : lstrip s = rev (lstrip (rev (lstrip s))) ++ rev r).
  { rewrite <- rev_app_distr, <- E'. now rewrite rev_involutive. }
  split; [now rewrite <- Es|]. split; [exact F|].
  split; [now apply Forall_rev|]. split; [|exact H'].
  destruct (rev (lstrip (rev (lstrip s)))) as [|c x] eqn:Ex; [exact I|].
  rewrite Es in H. exact H.
Qed.

Lemma starts_with_app (p r : str) : starts_with p (p ++ r) = true.
Proof. apply starts_with_iff. eauto. Qed.

Lemma replace_from_skip (old new : str) (k : nat) (s : str) :
  replace_from old new k s = replace_from old new 0 (skipn k s).
Proof.
  revert s. induction k as [|k IH]; intros s; [reflexivity|].
  destruct s as [|c s]; [reflexivity|]. cbn [replace_from skipn]. apply IH.
Qed.

(** At an occurrence, [replace] puts [new] and goes on after it. *)
Lemma replace_at_occurrence (old new rest : str) :
  old <> [] ->
  replace old new (old ++ rest) = new ++ replace old new rest.
Proof.
  intros Ho. destruct old as [|a o]; [now elim Ho|].
  unfold replace. cbn [app replace_from].
  change (a :: o ++ rest) with ((a :: o) ++ rest).
  rewrite starts_with_app. cbn [List.length Nat.pred].
  rewrite replace_from_skip, skipn_app, skipn_all, Nat.sub_diag.
  reflexivity.
Qed.

Lemma replace_elsewhere (old new : str) (c : N) (r : str) :
  starts_with old (c :: r) = false ->
  replace old new (c :: r) = c :: replace old new r.
Proof. intros H. unfold replace. cbn [replace_from]. now rewrite H. Qed.

(** Without an occurrence, [replace] changes nothing. *)
Lemma replace_without_occurrence (old new s : str) :
  ~ occurs_in old s -> replace old new s = s.
Proof.
  induction s as [|c s IH]; intros H; [reflexivity|].
  rewrite replace_elsewhere.
  - f_equal. apply IH. intros (pre & suf & E). apply H.
    exists (c :: pre), suf. now rewrite E.
  - destruct (starts_with old (c :: s)) eqn:E; [|reflexivity].
    apply starts_with_iff in E. destruct E as (suf & E).
    elim H. exists [], suf. exact E.
Qed.

(** [replace] keeps what stands before the leftmost occurrence, puts [new]
    for the occurrence and goes on after it. *)
Lemma replace_leftmost (old new pre rest : str) :
  old <> [] ->
  leftmost old pre rest ->
  replace old new (pre ++ old ++ rest) = pre ++ new ++ replace old new rest.
Proof.
  intros Ho. induction pre as [|c pre IH]; intros Hl.
  - cbn [app]. now apply replace_at_occurrence.
  - cbn [app]. rewrite replace_elsewhere.
    + f_equal. apply IH. intros pre' suf' E.
      assert (L := Hl (c :: pre') suf'). cbn [app List.length] in L.
      rewrite E in L. specialize (L eq_refl). lia.
    + destruct (starts_with old (c :: pre ++ old ++ rest)) eqn:E;
        [|reflexivity].
      apply starts_with_iff in E. destruct E as (suf & E).
      assert (L := Hl [] suf). cbn [app List.length] in L.
      specialize (L E). lia.
Qed.

Section HuggingFace.

Variable w : World.
Variable self : OpenAIService.t.
Variable user_message : str.

(** One iteration makes exactly one request and does not raise. *)
Lemma hf_try_model_log model t :
  exists s,
    OpenAIService.hf_try_model w self user_message model t
    = (Returns s, t ++ [hf_request self user_message model]).
Proof.
  unfold OpenAIService.hf_try_model, hf_request.
  apply try_perform_log. intros response. walk.
Qed.

Lemma ensures_raise {A} (Q : A -> Prop) e : ensures Q (raise e).
Proof. intros t a t' E. discriminate. Qed.

Lemma hf_try_model_accepted model :
  ensures (on_return hf_accepted)
    (OpenAIService.hf_try_model w self user_message model).
Proof.
  unfold OpenAIService.hf_try_model.
  apply ensures_try; [|intro; now apply ensures_ret].
  apply ensures_bind. intros response.
  destruct (Z.eqb (status_code response) 200).
  - apply ensures_bind. intros result.
    destruct result as [| | | |l|]; try now apply ensures_ret.
    destruct l as [|first others]; [now apply ensures_ret|].
    apply ensures_bind. intros generated_text.
    destruct generated_text as [|b|z|text|l|items];
      try (destruct (json_truthy _);
           [apply ensures_raise | now apply ensures_ret]).
    destruct (nonempty text && (5 <? List.length (strip text))%nat) eqn:E;
      [|now apply ensures_ret].
    apply ensures_ret. simpl. exists text.
    apply andb_true_iff in E. destruct E as [_ E].
    apply Nat.ltb_lt in E. now split.
  - destruct (Z.eqb (status_code response) 503); [now apply ensures_ret|].
    destruct (Z.eqb (status_code response) 401); now apply ensures_ret.
Qed.

(** What one iteration does with the answer to its request. *)
Lemma hf_try_model_run model t response :
  http_response w (t ++ [hf_request self user_message model])
  = Returns response ->
  (status_code response = 503%Z ->
   OpenAIService.hf_try_model w self user_message model t
   = (Returns Continue, t ++ [hf_request self user_message model]))
  /\ (status_code response = 401%Z ->
      OpenAIService.hf_try_model w self user_message model t
      = (Returns (Return_ None), t ++ [hf_request self user_message model]))
  /\ (forall first others text,
         status_code response = 200%Z ->
         response_json response = Returns (JList (first :: others)) ->
         py_get first (u "generated_text") (JStr []) = Returns (JStr text) ->
         OpenAIService.hf_try_model w self user_message model t
         = (Returns
              (if (5 <? List.length (strip text))%nat
               then Return_ (Some (hf_reply text))
               else Continue),
            t ++ [hf_request self user_message model])).
Proof.
  intros Hr.
  unfold OpenAIService.hf_try_model, try_except, bind, perform, lift.
  fold (hf_request self user_message model). rewrite Hr.
  split; [|split].
  - intros ->. reflexivity.
  - intros ->. reflexivity.
  - intros first others text -> -> ->.
    cbn [Z.eqb Pos.eqb]. 
    destruct text as [|c text]; [reflexivity|].
    cbn [nonempty andb].
    destruct (5 <? List.length (strip (c :: text)))%nat; reflexivity.
Qed.

Lemma hf_loop_step model rest t s :
  OpenAIService.hf_try_model w self user_message model t
  = (Returns s, t ++ [hf_request self user_message model]) ->
  OpenAIService.for_each (OpenAIService.hf_try_model w self user_message)
    (model :: rest) (ret None) t
  = match s with
    | Return_ v => (Returns v, t ++ [hf_request self user_message model])
    | Continue =>
        OpenAIService.for_each
          (OpenAIService.hf_try_model w self user_message) rest (ret None)
          (t ++ [hf_request self user_message model])
    end.
Proof.
  intros E. cbn [OpenAIService.for_each].
  rewrite (bind_returns _ _ _ _ _ E). now destruct s.
Qed.

(** The loop asks the models one after the other, from the first. *)
Lemma hf_loop_requests models t :
  exists k v,
    OpenAIService.for_each (OpenAIService.hf_try_model w self user_message)
      models (ret None) t
    = (Returns v, t ++ map (hf_request self user_message) (firstn k models)).
Proof.
  revert t. induction models as [|model rest IH]; intros t.
  - exists 0%nat, None. cbn. now rewrite app_nil_r.
  - destruct (hf_try_model_log model t) as (s & E).
    rewrite (hf_loop_step _ rest _ _ E). destruct s as [v|].
    + exists 1%nat, v. reflexivity.
    + destruct (IH (t ++ [hf_request self user_message model])) as (k & v & E').
      exists (S k), v. rewrite E', <- app_assoc. reflexivity.
Qed.

Lemma huggingface_after_whoami sp t :
  nonempty (OpenAIService.hf_token self) = true ->
  OpenAIService._generate_with_huggingface w self user_message sp t
  = match http_status w (t ++ [GetWhoami (OpenAIService.hf_token self)]) with
    | Returns status =>
        if Z.eqb status 200
        then OpenAIService.for_each
               (OpenAIService.hf_try_model w self user_message)
               OpenAIService.hf_models (ret None)
               (t ++ [GetWhoami (OpenAIService.hf_token self)])
        else (Returns None, t ++ [GetWhoami (OpenAIService.hf_token self)])
    | Raises _ => (Returns None, t ++ [GetWhoami (OpenAIService.hf_token self)])
    end.
Proof.
  intros Hk. unfold OpenAIService._generate_with_huggingface.
  rewrite Hk. cbn [negb]. unfold try_except, bind at 1, perform.
  destruct (http_status w _) as [status|e]; [|reflexivity].
  destruct (Z.eqb status 200); [|reflexivity]. cbn [negb].
  destruct (hf_loop_requests OpenAIService.hf_models
              (t ++ [GetWhoami (OpenAIService.hf_token self)]))
    as (k & v & E).
  now rewrite E.
Qed.

Lemma huggingface_accepted sp :
  ensures hf_accepted
    (OpenAIService._generate_with_huggingface w self user_message sp).
Proof.
  unfold OpenAIService._generate_with_huggingface.
  destruct (negb _); [now apply ensures_ret|].
  apply ensures_try; [|intro; now apply ensures_ret].
  apply ensures_bind. intros status.
  destruct (negb _); [now apply ensures_ret|].
  apply ensures_for_each; [apply hf_try_model_accepted | now apply ensures_ret].
Qed.

(** One iteration decides by the table [hf_decision]. *)
Lemma hf_try_model_decides model t :
  OpenAIService.hf_try_model w self user_message model t
  = (Returns
       (hf_decision (http_response w (t ++ [hf_request self user_message model]))),
     t ++ [hf_request self user_message model]).
Proof.
  unfold OpenAIService.hf_try_model, try_except, bind, perform, lift,
    hf_decision, candidate_text.
  fold (hf_request self user_message model).
  destruct (http_response w _) as [response|e]; [|reflexivity].
  destruct (Z.eqb (status_code response) 401) eqn:E401.
  { apply Z.eqb_eq in E401. now rewrite E401. }
  destruct (Z.eqb (status_code response) 200) eqn:E200;
    [|now destruct (Z.eqb (status_code response) 503)].
  destruct (response_json response) as [result|e]; [|reflexivity].
  destruct result as [| | | |[|first others]|]; try reflexivity.
  destruct first as [| | | | |items]; try reflexivity.
  cbn [py_get].
  destruct (assoc (u "generated_text") items) as [generated_text|];
    [|reflexivity].
  destruct generated_text as [|[]|z|[|c text]|[|x l]|[|x l]]; try reflexivity.
  - cbn [json_truthy]. now destruct (Z.eqb z 0).
  - cbn [nonempty andb].
    now destruct (5 <? List.length (strip (c :: text)))%nat.
Qed.

Lemma huggingface_adapter_basics (system_prompt : str) (t : Trace) :
  (nonempty (OpenAIService.hf_token self) = false ->
   OpenAIService._generate_with_huggingface w self user_message system_prompt t
   = (Returns None, t))
  /\ (nonempty (OpenAIService.hf_token self) = true ->
      http_status w (t ++ [GetWhoami (OpenAIService.hf_token self)])
      <> Returns 200%Z ->
      OpenAIService._generate_with_huggingface w self user_message
        system_prompt t
      = (Returns None, t ++ [GetWhoami (OpenAIService.hf_token self)]))
  /\ (nonempty (OpenAIService.hf_token self) = true ->
      http_status w (t ++ [GetWhoami (OpenAIService.hf_token self)])
      = Returns 200%Z ->
      OpenAIService._generate_with_huggingface w self user_message
        system_prompt t
      = OpenAIService.for_each
          (OpenAIService.hf_try_model w self user_message)
          OpenAIService.hf_models (ret None)
          (t ++ [GetWhoami (OpenAIService.hf_token self)]))
  /\ (nonempty (OpenAIService.hf_token self) = true ->
      exists k v,
        OpenAIService._generate_with_huggingface w self user_message
          system_prompt t
        = (Returns v,
           t ++ GetWhoami (OpenAIService.hf_token self)
                :: map (hf_request self user_message)
                     (firstn k OpenAIService.hf_models)))
  /\ (forall model rest t0 response,
         http_response w (t0 ++ [hf_request self user_message model])
         = Returns response ->
         (status_code response = 503%Z ->
          OpenAIService.for_each
            (OpenAIService.hf_try_model w self user_message)
            (model :: rest) (ret None) t0
          = OpenAIService.for_each
              (OpenAIService.hf_try_model w self user_message)
              rest (ret None) (t0 ++ [hf_request self user_message model]))
         /\ (status_code response = 401%Z ->
             OpenAIService.for_each
               (OpenAIService.hf_try_model w self user_message)
               (model :: rest) (ret None) t0
             = (Returns None, t0 ++ [hf_request self user_message model]))
         /\ (forall first others text,
                status_code response = 200%Z ->
                response_json response = Returns (JList (first :: others)) ->
                py_get first (u "generated_text") (JStr [])
                = Returns (JStr text) ->
                OpenAIService.for_each
                  (OpenAIService.hf_try_model w self user_message)
                  (model :: rest) (ret None) t0
                = if (5 <? List.length (strip text))%nat
                  then (Returns (Some (hf_reply text)),
                        t0 ++ [hf_request self user_message model])
                  else OpenAIService.for_each
                         (OpenAIService.hf_try_model w self user_message)
                         rest (ret None)
                         (t0 ++ [hf_request self user_message model])))
  /\ (forall v t',
         OpenAIService._generate_with_huggingface w self user_message
           system_prompt t
         = (Returns v, t') ->
         hf_accepted v).
Proof.
  split; [|split; [|split; [|split; [|split]]]].
  - intros Hk. unfold OpenAIService._generate_with_huggingface.
    now rewrite Hk.
  - intros Hk Hs. rewrite (huggingface_after_whoami _ _ Hk).
    destruct (http_status w _) as [status|e]; [|reflexivity].
    destruct (Z.eqb status 200) eqn:E; [|reflexivity].
    apply Z.eqb_eq in E. now subst.
  - intros Hk Hs. now rewrite (huggingface_after_whoami _ _ Hk), Hs.
  - intros Hk. rewrite (huggingface_after_whoami _ _ Hk).
    destruct (http_status w _) as [status|e];
      [|now exists 0%nat, None].
    destruct (Z.eqb status 200); [|now exists 0%nat, None].
    destruct (hf_loop_requests OpenAIService.hf_models
                (t ++ [GetWhoami (OpenAIService.hf_token self)]))
      as (k & v & E).
    exists k, v. now rewrite E, <- app_assoc.
  - intros model rest t0 response Hr.
    destruct (hf_try_model_run model t0 response Hr) as (H503 & H401 & H200).
    split; [|split].
    + intros Hs. now rewrite (hf_loop_step _ rest _ _ (H503 Hs)).
    + intros Hs. now rewrite (hf_loop_step _ rest _ _ (H401 Hs)).
    + intros first others text Hs Hj Hg.
      rewrite (hf_loop_step _ rest _ _ (H200 first others text Hs Hj Hg)).
      now destruct (5 <? List.length (strip text))%nat.
  - intros v t' E. exact (huggingface_accepted system_prompt t v t' E).
Qed.


(** C6.  With a token, the Hugging Face adapter first asks [whoami] and
    gives no result, without any generation request, unless the answer is
    200 (an exception counts as a failure).  It then asks its models in the
    order of the list, and each answer is decided by the table
    [hf_decision]: 401 ends the adapter with no result; 503, any other
    status, an exception and a 200 answer without an acceptable text pass to
    the next model; a generated text is accepted when, stripped of the white
    space at its ends, it is longer than five code points, and the reply is
    the prefix followed by the stripped text from which the occurrences of
    the end-of-text marker are removed, from the left.  The length is tested
    before the marker is removed: a text that is the marker alone is
    accepted and gives the bare prefix.  Without a token the adapter gives
    no result and calls nothing. *)
Theorem huggingface_adapter_contract (system_prompt : str) (t : Trace) :
  ((nonempty (OpenAIService.hf_token self) = false ->
   OpenAIService._generate_with_huggingface w self user_message system_prompt t
   = (Returns None, t))
  /\ (nonempty (OpenAIService.hf_token self) = true ->
      http_status w (t ++ [GetWhoami (OpenAIService.hf_token self)])
      <> Returns 200%Z ->
      OpenAIService._generate_with_huggingface w self user_message
        system_prompt t
      = (Returns None, t ++ [GetWhoami (OpenAIService.hf_token self)]))
  /\ (nonempty (OpenAIService.hf_token self) = true ->
      http_status w (t ++ [GetWhoami (OpenAIService.hf_token self)])
      = Returns 200%Z ->
      OpenAIService._generate_with_huggingface w self user_message
        system_prompt t
      = OpenAIService.for_each
          (OpenAIService.hf_try_model w self user_message)
          OpenAIService.hf_models (ret None)
          (t ++ [GetWhoami (OpenAIService.hf_token self)]))
  /\ (nonempty (OpenAIService.hf_token self) = true ->
      exists k v,
        OpenAIService._generate_with_huggingface w self user_message
          system_prompt t
        = (Returns v,
           t ++ GetWhoami (OpenAIService.hf_token self)
                :: map (hf_request self user_message)
                     (firstn k OpenAIService.hf_models)))
  /\ (forall model rest t0 response,
         http_response w (t0 ++ [hf_request self user_message model])
         = Returns response ->
         (status_code response = 503%Z ->
          OpenAIService.for_each
            (OpenAIService.hf_try_model w self user_message)
            (model :: rest) (ret None) t0
          = OpenAIService.for_each
              (OpenAIService.hf_try_model w self user_message)
              rest (ret None) (t0 ++ [hf_request self user_message model]))
         /\ (status_code response = 401%Z ->
             OpenAIService.for_each
               (OpenAIService.hf_try_model w self user_message)
               (model :: rest) (ret None) t0
             = (Returns None, t0 ++ [hf_request self user_message model]))
         /\ (forall first others text,
                status_code response = 200%Z ->
                response_json response = Returns (JList (first :: others)) ->
                py_get first (u "generated_text") (JStr [])
                = Returns (JStr text) ->
                OpenAIService.for_each
                  (OpenAIService.hf_try_model w self user_message)
                  (model :: rest) (ret None) t0
                = if (5 <? List.length (strip text))%nat
                  then (Returns (Some (hf_reply text)),
                        t0 ++ [hf_request self user_message model])
                  else OpenAIService.for_each
                         (OpenAIService.hf_try_model w self user_message)
                         rest (ret None)
                         (t0 ++ [hf_request self user_message model])))
  /\ (forall v t',
         OpenAIService._generate_with_huggingface w self user_message
           system_prompt t
         = (Returns v, t') ->
         hf_accepted v))
  /\ (forall model t0,
         OpenAIService.hf_try_model w self user_message model t0
         = (Returns
              (hf_decision
                 (http_response w
                    (t0 ++ [hf_request self user_message model]))),
            t0 ++ [hf_request self user_message model]))
  /\ (forall model rest t0,
         OpenAIService.for_each
           (OpenAIService.hf_try_model w self user_message)
           (model :: rest) (ret None) t0
         = match hf_decision
                   (http_response w
                      (t0 ++ [hf_request self user_message model])) with
           | Return_ v =>
               (Returns v, t0 ++ [hf_request self user_message model])
           | Continue =>
               OpenAIService.for_each
                 (OpenAIService.hf_try_model w self user_message)
                 rest (ret None)
                 (t0 ++ [hf_request self user_message model])
           end)
  /\ (forall text,
         hf_reply text
         = OpenAIService.hf_prefix
           ++ replace OpenAIService.end_of_text [] (strip text))
  /\ (forall text,
         exists l r,
           text = l ++ strip text ++ r
           /\ Forall (fun c => is_space c = true) l
           /\ Forall (fun c => is_space c = true) r
           /\ trimmed (strip text))
  /\ (forall s,
         ~ occurs_in OpenAIService.end_of_text s ->
         replace OpenAIService.end_of_text [] s = s)
  /\ (forall pre rest,
         leftmost OpenAIService.end_of_text pre rest ->
         replace OpenAIService.end_of_text []
           (pre ++ OpenAIService.end_of_text ++ rest)
         = pre ++ replace OpenAIService.end_of_text [] rest)
  /\ hf_decision
       (Returns
          {| status_code := 200;
             response_json :=
               Returns
                 (JList
                    [JObj [(u "generated_text",
                            JStr OpenAIService.end_of_text)]]) |})
     = Return_ (Some OpenAIService.hf_prefix).
Proof.
  split; [apply huggingface_adapter_basics|].
  split; [apply hf_try_model_decides|].
  split.
  { intros model rest t0.
    rewrite (hf_loop_step _ rest _ _ (hf_try_model_decides model t0)).
    reflexivity. }
  split; [reflexivity|].
  split; [apply strip_spec|].
  split; [apply replace_without_occurrence|].
  split; [|reflexivity].
  intros pre rest Hl.
  apply (replace_leftmost OpenAIService.end_of_text [] pre rest);
    [discriminate | exact Hl].
Qed.

End HuggingFace.

(** The first model is warming up (503): the second is asked, and its text
    comes back stripped, without the end-of-text marker. *)
Example huggingface_second_model :
  OpenAIService._generate_with_huggingface Samples.first_model_warming
    Samples.hf_only (u "hey") OpenAIService.system_prompt []
  = (Returns (Some (OpenAIService.hf_prefix ++ u "Hello there")),
     [GetWhoami (u "hf_test");
      hf_request Samples.hf_only (u "hey") (u "bigscience/bloom-560m");
      hf_request Samples.hf_only (u "hey") (u "distilgpt2")]).
Proof. vm_compute. reflexivity. Qed.

(** * Further properties of the code *)

(** ** The response generator *)

Lemma bind_ret {A B} (a : A) (k : A -> M B) : bind (ret a) k = k a.
Proof. reflexivity. Qed.

Lemma check_ollama_run (w : World) (self : OpenAIService.t) (t : Trace) :
  OpenAIService._check_ollama w self t
  = (Returns (is_200 (http_status w (t ++ [probe_request self]))),
     t ++ [probe_request self]).
Proof.
  unfold OpenAIService._check_ollama, try_except, bind, perform, probe_request,
    is_200.
  now destruct (http_status w _).
Qed.

Lemma is_configured_without_credentials (w : World) (self : OpenAIService.t) :
  no_credentials self ->
  OpenAIService.is_configured w self = OpenAIService._check_ollama w self.
Proof.
  intros (Hc & Hh & Hg & Ha). unfold OpenAIService.is_configured.
  now rewrite Hc, Hh, Hg, Ha.
Qed.

Lemma try_openai_no_client (w : World) (self : OpenAIService.t) msg :
  OpenAIService.openai_client self = None ->
  OpenAIService.try_openai w self msg = ret Continue.
Proof. intros H. unfold OpenAIService.try_openai. now rewrite H. Qed.

Lemma gemini_no_key (w : World) (self : OpenAIService.t) msg sp :
  OpenAIService.gemini_key self = [] ->
  OpenAIService._generate_with_gemini w self msg sp = ret None.
Proof. intros H. unfold OpenAIService._generate_with_gemini. now rewrite H. Qed.

Lemma huggingface_no_token (w : World) (self : OpenAIService.t) msg sp :
  OpenAIService.hf_token self = [] ->
  OpenAIService._generate_with_huggingface w self msg sp = ret None.
Proof.
  intros H. unfold OpenAIService._generate_with_huggingface. now rewrite H.
Qed.

Lemma help_is_not_greeting (x : str) :
  mem x OpenAIService.help_commands = true ->
  mem x OpenAIService.greeting_commands = false.
Proof.
  intros H. apply mem_iff in H. simpl in H.
  destruct H as [<-|[<-|[<-|[]]]]; reflexivity.
Qed.

Section GeneratorMore.

Variable unicode_lower : str -> N -> str -> str.
Variable w : World.
Variable self : OpenAIService.t.

(** X1.  Whatever the backends answer or raise, [generate_response]
    returns a value, and the calls it makes are calls to the AI backends:
    it never calls the LINE SDK. *)
Theorem generate_response_never_raises (user_message : str) (t : Trace) :
  exists v ext,
    OpenAIService.generate_response unicode_lower w self user_message t
    = (Returns v, t ++ ext)
    /\ Forall backend_call ext.
Proof. exact (generate_response_safe unicode_lower w self user_message t). Qed.

Lemma no_client_no_openai_site msg :
  OpenAIService.openai_client self = None ->
  ensures (fun r => fst r <> OpenAIService.AtOpenAI)
    (OpenAIService.generate_response_at unicode_lower w self msg).
Proof.
  intros Hc. unfold OpenAIService.generate_response_at.
  apply ensures_bind. intros configured.
  destruct (negb configured); [now apply ensures_ret|].
  destruct (mem _ _); [now apply ensures_ret|].
  destruct (mem _ _); [now apply ensures_ret|].
  rewrite (try_openai_no_client _ _ _ Hc), bind_ret.
  apply ensures_bind. intros g.
  destruct (truthy g); [now apply ensures_ret|].
  apply ensures_bind. intros h.
  destruct (truthy h); [now apply ensures_ret|].
  apply ensures_bind. intros o.
  destruct (truthy o); [now apply ensures_ret|].
  destruct (nonempty _); now apply ensures_ret.
Qed.

(** X2.  Without an OpenAI client, [generate_response] returns a
    non-empty string for every message. *)
Theorem no_client_gives_text (user_message : str) (t : Trace) :
  OpenAIService.openai_client self = None ->
  exists s t',
    OpenAIService.generate_response unicode_lower w self user_message t
    = (Returns (Some s), t')
    /\ s <> [].
Proof.
  intros Hc.
  destruct (generate_response_at_safe unicode_lower w self user_message t)
    as ([site v] & ext & E & _).
  pose proof (generate_response_at_sited unicode_lower w self user_message
                t _ _ E) as Hs.
  pose proof (no_client_no_openai_site user_message Hc t _ _ E) as Hn.
  assert (Ht : truthy v = true).
  { unfold well_sited in Hs. simpl in Hs, Hn.
    destruct site; try exact Hs; try contradiction; now elim Hn. }
  destruct v as [[|c s]|]; try discriminate.
  exists (c :: s), (t ++ ext). split; [|discriminate].
  unfold OpenAIService.generate_response.
  now rewrite (bind_returns _ _ _ _ _ E).
Qed.

(** X3.  The calls of [generate_response] come in the order: probe of the
    configuration check, OpenAI, Gemini, Hugging Face, Ollama; and once an
    adapter's result is returned no later adapter is called. *)
Theorem adapter_calls_in_order (user_message : str) (t : Trace) :
  exists r e0 e1 e2 e3 e4,
    OpenAIService.generate_response_at unicode_lower w self user_message t
    = (Returns r, t ++ e0 ++ e1 ++ e2 ++ e3 ++ e4)
    /\ Forall (ollama_probe self) e0 /\ Forall openai_call e1
    /\ Forall gemini_call e2 /\ Forall huggingface_call e3
    /\ Forall ollama_call e4
    /\ match fst r with
       | OpenAIService.AtNotConfigured | OpenAIService.AtGreeting
       | OpenAIService.AtHelp => e1 = [] /\ e2 = [] /\ e3 = [] /\ e4 = []
       | OpenAIService.AtOpenAI => e2 = [] /\ e3 = [] /\ e4 = []
       | OpenAIService.AtGemini => e3 = [] /\ e4 = []
       | OpenAIService.AtHuggingFace => e4 = []
       | _ => True
       end.
Proof. exact (adapters_run_in_order unicode_lower w self user_message t). Qed.

(** X4.  With no client, no credential and an Ollama probe that does not
    answer 200, every message gets the "service unavailable" message, after
    that one probe and nothing else. *)
Theorem unavailable_without_configuration (user_message : str) (t : Trace) :
  no_credentials self ->
  is_200 (http_status w (t ++ [probe_request self])) = false ->
  OpenAIService.generate_response unicode_lower w self user_message t
  = (Returns (Some OpenAIService.unavailable_message),
     t ++ [probe_request self]).
Proof.
  intros Hn Hp. apply not_configured_at.
  rewrite (is_configured_without_credentials _ _ Hn), check_ollama_run.
  now rewrite Hp.
Qed.

(** X7.  Whenever the service is configured, a message whose lower-casing
    is one of the help commands gets the help menu, with no call beyond
    those of the configuration check. *)
Theorem help_bypasses_backends (user_message : str) (t : Trace) :
  fst (OpenAIService.is_configured w self t) = Returns true ->
  mem (lower unicode_lower user_message) OpenAIService.help_commands = true ->
  OpenAIService.generate_response unicode_lower w self user_message t
  = (Returns (Some OpenAIService.help_reply),
     snd (OpenAIService.is_configured w self t)).
Proof.
  intros Hc Hm. apply split_run in Hc.
  apply help_command_at; auto. now apply help_is_not_greeting.
Qed.

(** X10.  Without an OpenAI client, a Hugging Face token and a Gemini key,
    the only backend [generate_response] ever calls is Ollama, whatever the
    Anthropic key: no adapter uses that key. *)
Theorem only_ollama_without_credentials (user_message : str) (t : Trace) :
  OpenAIService.openai_client self = None ->
  OpenAIService.hf_token self = [] ->
  OpenAIService.gemini_key self = [] ->
  exists v ext,
    OpenAIService.generate_response unicode_lower w self user_message t
    = (Returns v, t ++ ext)
    /\ Forall ollama_call ext.
Proof.
  intros Hc Hh Hg.
  assert (S : safe ollama_call
                (OpenAIService.generate_response unicode_lower w self
                   user_message)).
  { unfold OpenAIService.generate_response,
      OpenAIService.generate_response_at.
    apply safe_bind; [|intro; apply safe_ret].
    apply safe_bind.
    { eapply safe_weaken; [|apply is_configured_safe]. intros c ->. exact I. }
    intros configured.
    destruct (negb configured); [apply safe_ret|].
    destruct (mem _ _); [apply safe_ret|].
    destruct (mem _ _); [apply safe_ret|].
    rewrite (try_openai_no_client _ _ _ Hc), bind_ret.
    rewrite (gemini_no_key _ _ _ _ Hg), bind_ret. cbn [truthy].
    rewrite (huggingface_no_token _ _ _ _ Hh), bind_ret. cbn [truthy].
    apply safe_bind; [apply ollama_safe|]. intros o.
    destruct (truthy o); [apply safe_ret|].
    destruct (nonempty _); apply safe_ret. }
  exact (S t).
Qed.

(** X13.  The service being configured, for a message that is neither a
    greeting nor a help command, when the OpenAI block does not reach its
    [return] (no client, or a request that raises) and the Gemini, Hugging
    Face and Ollama adapters each return [None] or an empty string, the
    reply is the fallback responder's reply to that message. *)
Theorem fallback_reply_when_adapters_fail (user_message : str) (t : Trace) :
  fst (OpenAIService.is_configured w self t) = Returns true ->
  mem (lower unicode_lower user_message) OpenAIService.greeting_commands
  = false ->
  mem (lower unicode_lower user_message) OpenAIService.help_commands = false ->
  chain_falls_through w self user_message
    (snd (OpenAIService.is_configured w self t)) ->
  fst (OpenAIService.generate_response unicode_lower w self user_message t)
  = Returns
      (Some (OpenAIService._generate_fallback_response unicode_lower
               user_message)).
Proof.
  intros Hc Hg Hh Ha. apply split_run in Hc.
  now apply (fallback_when_no_result unicode_lower w self user_message t _ Hc).
Qed.

End GeneratorMore.

Lemma no_client_gives_text_witness :
  exists s t',
    OpenAIService.generate_response Samples.no_case Samples.offline
      Samples.anthropic_only (u "what time is it") []
    = (Returns (Some s), t')
    /\ s <> [].
Proof.
  apply (no_client_gives_text Samples.no_case Samples.offline
           Samples.anthropic_only (u "what time is it") []).
  reflexivity.
Defined.

Lemma unavailable_without_configuration_witness :
  OpenAIService.generate_response Samples.no_case Samples.offline Samples.bare
    (u "what time is it") []
  = (Returns (Some OpenAIService.unavailable_message),
     [GetOllamaTags (u "http://localhost:11434/api/tags")]).
Proof.
  apply (unavailable_without_configuration Samples.no_case Samples.offline
           Samples.bare (u "what time is it") []).
  - repeat split.
  - reflexivity.
Defined.

Lemma help_bypasses_backends_witness :
  OpenAIService.generate_response Samples.no_case Samples.offline
    Samples.anthropic_only (u "HELP") []
  = (Returns (Some OpenAIService.help_reply), []).
Proof.
  apply (help_bypasses_backends Samples.no_case Samples.offline
           Samples.anthropic_only (u "HELP") []); reflexivity.
Defined.

Lemma only_ollama_without_credentials_witness :
  exists v ext,
    OpenAIService.generate_response Samples.no_case Samples.offline
      Samples.anthropic_only (u "what time is it") []
    = (Returns v, [] ++ ext)
    /\ Forall ollama_call ext.
Proof.
  apply (only_ollama_without_credentials Samples.no_case Samples.offline
           Samples.anthropic_only (u "what time is it") []); reflexivity.
Defined.

Lemma fallback_reply_when_adapters_fail_witness :
  fst (OpenAIService.generate_response Samples.no_case Samples.offline
         Samples.anthropic_only (u "what time is it") [])
  = Returns (Some OpenAIService.fallback_time).
Proof.
  apply (fallback_reply_when_adapters_fail Samples.no_case Samples.offline
           Samples.anthropic_only (u "what time is it") []);
    try reflexivity.
  apply offline_chain_falls_through.
Defined.

(** ** Credentials and the configuration check *)

(** X5.  After [__init__], any one non-empty credential variable makes
    [is_configured] true without a network call; with none of the four, it
    is the answer of the one probe of Ollama, at [OLLAMA_URL] or, by
    default, at localhost:11434. *)
Theorem credentials_from_environment (environ : str -> option str)
    (w : World) (t : Trace) :
  (forall name,
      In name credential_variables ->
      nonempty (OpenAIService.getenv environ name []) = true ->
      OpenAIService.is_configured w (OpenAIService.__init__ environ) t
      = (Returns true, t))
  /\ ((forall name,
          In name credential_variables ->
          OpenAIService.getenv environ name [] = []) ->
      OpenAIService.is_configured w (OpenAIService.__init__ environ) t
      = (Returns
           (is_200
              (http_status w
                 (t ++ [probe_request (OpenAIService.__init__ environ)]))),
         t ++ [probe_request (OpenAIService.__init__ environ)]))
  /\ (environ (u "OLLAMA_URL") = None ->
      probe_request (OpenAIService.__init__ environ)
      = GetOllamaTags (u "http://localhost:11434/api/tags")).
Proof.
  split; [|split].
  - intros name Hin Hne.
    unfold OpenAIService.is_configured, OpenAIService.__init__.
    cbn [OpenAIService.openai_client OpenAIService.hf_token
         OpenAIService.gemini_key OpenAIService.anthropic_key].
    unfold credential_variables in Hin. cbn [In] in Hin.
    destruct Hin as [<-|[<-|[<-|[<-|[]]]]];
      repeat match goal with
             | |- context [if ?b then _ else _] => destruct b eqn:?
             end; try reflexivity; try congruence.
    rewrite Hne in *. discriminate.
  - intros Hnone.
    rewrite is_configured_without_credentials; [apply check_ollama_run|].
    unfold no_credentials, OpenAIService.__init__.
    cbn [OpenAIService.openai_client OpenAIService.hf_token
         OpenAIService.gemini_key OpenAIService.anthropic_key].
    rewrite !Hnone by (unfold credential_variables; cbn [In]; auto).
    repeat split.
  - intros Hu. unfold probe_request, OpenAIService.__init__,
      OpenAIService.getenv.
    cbn [OpenAIService.ollama_url]. now rewrite Hu.
Qed.

(** ** The Gemini adapter *)

(** A loop whose body makes one request and does not raise asks for the
    elements of its list one after the other, from the first. *)
Lemma for_each_requests {A} (body : str -> M (step A)) (request : str -> Call)
    (xs : list str) (d : A) (t : Trace) :
  (forall x t0, exists s, body x t0 = (Returns s, t0 ++ [request x])) ->
  exists k v,
    OpenAIService.for_each body xs (ret d) t
    = (Returns v, t ++ map request (firstn k xs)).
Proof.
  intros Hb. revert t. induction xs as [|x xs IH]; intros t.
  - exists 0%nat, d. cbn. now rewrite app_nil_r.
  - destruct (Hb x t) as (s & E). cbn [OpenAIService.for_each].
    rewrite (bind_returns _ _ _ _ _ E). destruct s as [v|].
    + exists 1%nat, v. reflexivity.
    + destruct (IH (t ++ [request x])) as (k & v & E').
      exists (S k), v. rewrite E', <- app_assoc. reflexivity.
Qed.

Section Gemini.

Variable w : World.
Variable self : OpenAIService.t.
Variable user_message system_prompt : str.

Lemma gemini_try_model_run model t :
  OpenAIService.gemini_try_model w user_message system_prompt model t
  = (Returns
       match gemini_text w
               (t ++ [gemini_request user_message system_prompt model]) with
       | Returns text =>
           if nonempty text then Return_ (Some (strip text)) else Continue
       | Raises _ => Continue
       end,
     t ++ [gemini_request user_message system_prompt model]).
Proof.
  unfold OpenAIService.gemini_try_model, try_except, bind, perform.
  fold (gemini_request user_message system_prompt model).
  destruct (gemini_text w _) as [text|e]; [|reflexivity].
  now destruct (nonempty text).
Qed.

Lemma gemini_loop_requests models t :
  exists k v,
    OpenAIService.for_each
      (OpenAIService.gemini_try_model w user_message system_prompt)
      models (ret None) t
    = (Returns v,
       t ++ map (gemini_request user_message system_prompt) (firstn k models)).
Proof.
  apply for_each_requests. intros x t0.
  rewrite gemini_try_model_run. eauto.
Qed.

Lemma gemini_with_key t :
  nonempty (OpenAIService.gemini_key self) = true ->
  OpenAIService._generate_with_gemini w self user_message system_prompt t
  = OpenAIService.for_each
      (OpenAIService.gemini_try_model w user_message system_prompt)
      OpenAIService.gemini_models (ret None) t.
Proof.
  intros Hk. unfold OpenAIService._generate_with_gemini.
  rewrite Hk. cbn [negb]. unfold try_except.
  destruct (gemini_loop_requests OpenAIService.gemini_models t) as (k & v & E).
  now rewrite E.
Qed.

Lemma gemini_try_model_accepted model :
  ensures (on_return gemini_accepted)
    (OpenAIService.gemini_try_model w user_message system_prompt model).
Proof.
  intros t s t' E. rewrite gemini_try_model_run in E.
  injection E as <- _.
  destruct (gemini_text w _) as [text|e]; [|exact I].
  destruct text as [|c text]; [exact I|].
  simpl. exists (c :: text). split; [discriminate | reflexivity].
Qed.

(** X8.  Without a key the Gemini adapter gives no result and calls
    nothing.  With a key it asks its three models in the order of the list,
    each with the same prompt: a model that raises or answers an empty text
    is passed over, and the first non-empty text is returned stripped (so
    the result may be an empty string).  When all fail the result is
    [None]. *)
Theorem gemini_adapter_contract (t : Trace) :
  (OpenAIService.gemini_key self = [] ->
   OpenAIService._generate_with_gemini w self user_message system_prompt t
   = (Returns None, t))
  /\ (nonempty (OpenAIService.gemini_key self) = true ->
      OpenAIService._generate_with_gemini w self user_message system_prompt t
      = OpenAIService.for_each
          (OpenAIService.gemini_try_model w user_message system_prompt)
          OpenAIService.gemini_models (ret None) t)
  /\ (exists k v,
         OpenAIService._generate_with_gemini w self user_message
           system_prompt t
         = (Returns v,
            t ++ map (gemini_request user_message system_prompt)
                   (firstn k OpenAIService.gemini_models)))
  /\ (forall model rest t0,
         OpenAIService.for_each
           (OpenAIService.gemini_try_model w user_message system_prompt)
           (model :: rest) (ret None) t0
         = match gemini_text w
                   (t0 ++ [gemini_request user_message system_prompt model])
           with
           | Returns (c :: text) =>
               (Returns (Some (strip (c :: text))),
                t0 ++ [gemini_request user_message system_prompt model])
           | _ =>
               OpenAIService.for_each
                 (OpenAIService.gemini_try_model w user_message system_prompt)
                 rest (ret None)
                 (t0 ++ [gemini_request user_message system_prompt model])
           end)
  /\ (forall v t',
         OpenAIService._generate_with_gemini w self user_message
           system_prompt t
         = (Returns v, t') ->
         gemini_accepted v).
Proof.
  split; [|split; [|split; [|split]]].
  - intros Hk. now rewrite gemini_no_key.
  - apply gemini_with_key.
  - destruct (nonempty (OpenAIService.gemini_key self)) eqn:Hk.
    + rewrite (gemini_with_key t Hk). apply gemini_loop_requests.
    + exists 0%nat, None. rewrite gemini_no_key.
      * cbn. now rewrite app_nil_r.
      * now destruct (OpenAIService.gemini_key self).
  - intros model rest t0. cbn [OpenAIService.for_each].
    rewrite (bind_returns _ _ _ _ _ (gemini_try_model_run model t0)).
    destruct (gemini_text w _) as [[|c text]|e]; reflexivity.
  - intros v t' E.
    destruct (nonempty (OpenAIService.gemini_key self)) eqn:Hk.
    + rewrite (gemini_with_key t Hk) in E.
      refine (ensures_for_each gemini_accepted _ _ _ _ _ t v t' E).
      * apply gemini_try_model_accepted.
      * now apply ensures_ret.
    + rewrite gemini_no_key in E by now destruct (OpenAIService.gemini_key self).
      injection E as <- _. exact I.
Qed.

End Gemini.

(** ** The Ollama adapter *)

Section Ollama.

Variable w : World.
Variable self : OpenAIService.t.
Variable user_message system_prompt : str.

Lemma ollama_after_probe t :
  OpenAIService._generate_with_ollama w self user_message system_prompt t
  = if is_200 (http_status w (t ++ [probe_request self]))
    then
      try_except
        (response <- perform (ollama_request self user_message system_prompt)
                       (http_response w) ;;
         if Z.eqb (status_code response) 200 then
           result <- lift (response_json response) ;;
           text <- lift (py_get result (u "response") (JStr [])) ;;
           match text with
           | JStr s => ret (Some (strip s))
           | other => raise (no_attribute other (u "strip"))
           end
         else ret None)
        (fun _ => ret None) (t ++ [probe_request self])
    else (Returns None, t ++ [probe_request self]).
Proof.
  unfold OpenAIService._generate_with_ollama.
  rewrite (bind_returns _ _ _ _ _ (check_ollama_run w self t)).
  now destruct (is_200 _).
Qed.

(** The generation request is made once and nothing is raised. *)
Lemma ollama_generate_log t :
  exists v,
    try_except
      (response <- perform (ollama_request self user_message system_prompt)
                     (http_response w) ;;
       if Z.eqb (status_code response) 200 then
         result <- lift (response_json response) ;;
         text <- lift (py_get result (u "response") (JStr [])) ;;
         match text with
         | JStr s => ret (Some (strip s))
         | other => raise (no_attribute other (u "strip"))
         end
       else ret None)
      (fun _ => ret None) t
    = (Returns v, t ++ [ollama_request self user_message system_prompt]).
Proof. apply try_perform_log. intros response. walk. Qed.

(** X9.  The Ollama adapter probes the daemon first and, unless the probe
    answers 200, gives no result without asking for a generation.
    Otherwise it makes exactly one generation request and never raises; it
    returns the stripped [response] string of a 200 answer whose JSON is an
    object (the empty string when the key is missing), and [None] in every
    other case. *)
Theorem ollama_adapter_contract (t : Trace) :
  (is_200 (http_status w (t ++ [probe_request self])) = false ->
   OpenAIService._generate_with_ollama w self user_message system_prompt t
   = (Returns None, t ++ [probe_request self]))
  /\ (is_200 (http_status w (t ++ [probe_request self])) = true ->
      exists v,
        OpenAIService._generate_with_ollama w self user_message system_prompt t
        = (Returns v,
           t ++ [probe_request self;
                 ollama_request self user_message system_prompt])
        /\ (forall response items,
               http_response w
                 (t ++ [probe_request self;
                        ollama_request self user_message system_prompt])
               = Returns response ->
               status_code response = 200%Z ->
               response_json response = Returns (JObj items) ->
               (forall s,
                   assoc (u "response") items = Some (JStr s) ->
                   v = Some (strip s))
               /\ (assoc (u "response") items = None -> v = Some []))
        /\ (v <> None ->
            exists response items,
              http_response w
                (t ++ [probe_request self;
                       ollama_request self user_message system_prompt])
              = Returns response
              /\ status_code response = 200%Z
              /\ response_json response = Returns (JObj items)
              /\ (assoc (u "response") items = None
                  \/ exists s, assoc (u "response") items = Some (JStr s)))).
Proof.
  split.
  - intros Hp. now rewrite ollama_after_probe, Hp.
  - intros Hp. rewrite ollama_after_probe, Hp.
    destruct (ollama_generate_log (t ++ [probe_request self])) as (v & E).
    rewrite <- app_assoc in E. cbn [app] in E.
    exists v. split; [exact E|].
    unfold try_except, bind, perform, lift in E.
    rewrite <- app_assoc in E. cbn [app] in E.
    split.
    + intros response items Hr Hs Hj.
      rewrite Hr, Hs, Hj in E. cbn [py_get Z.eqb Pos.eqb] in E. split.
      * intros s Ha. rewrite Ha in E. now injection E as <-.
      * intros Ha. rewrite Ha in E. now injection E as <-.
    + intros Hv.
      destruct (http_response w _) as [response|e];
        [|injection E as <-; now elim Hv].
      destruct (Z.eqb (status_code response) 200) eqn:Hs;
        [|injection E as <-; now elim Hv].
      apply Z.eqb_eq in Hs.
      destruct (response_json response) as [result|e] eqn:Hj;
        [|injection E as <-; now elim Hv].
      destruct result as [| | | | |items];
        try (injection E as <-; now elim Hv).
      exists response, items. split; [reflexivity|].
      split; [exact Hs|]. split; [exact Hj|].
      cbn [py_get] in E.
      destruct (assoc (u "response") items) as [j|]; [|now left].
      destruct j; try (injection E as <-; now elim Hv).
      right. eauto.
Qed.

End Ollama.

Lemma ollama_adapter_example :
  OpenAIService._generate_with_ollama MoreSamples.ollama_up Samples.bare
    (u "hey") OpenAIService.system_prompt []
  = (Returns (Some (u "Hi!")),
     [probe_request Samples.bare;
      ollama_request Samples.bare (u "hey") OpenAIService.system_prompt]).
Proof. vm_compute. reflexivity. Qed.

(** ** From one adapter to the next *)

Lemma strip_nonempty (text : str) :
  nonempty (strip text) = true -> nonempty text = true.
Proof. now destruct text. Qed.

(** X23.  With a client whose request raises and a Gemini key, a message
    that is no command gets the text of the first Gemini model, stripped,
    as soon as that text is not blank; no other request is made. *)
Theorem gemini_answers_when_openai_fails
    (unicode_lower : str -> N -> str -> str) (w : World)
    (self : OpenAIService.t) (user_message : str) (t : Trace)
    (e : exn) (text : str) :
  OpenAIService.openai_client self <> None ->
  mem (lower unicode_lower user_message) OpenAIService.greeting_commands
  = false ->
  mem (lower unicode_lower user_message) OpenAIService.help_commands = false ->
  chat_completion w (t ++ [chat_request user_message]) = Raises e ->
  nonempty (OpenAIService.gemini_key self) = true ->
  gemini_text w
    (t ++ [chat_request user_message;
           gemini_request user_message OpenAIService.system_prompt
             (u "gemini-1.5-flash")])
  = Returns text ->
  nonempty (strip text) = true ->
  OpenAIService.generate_response unicode_lower w self user_message t
  = (Returns (Some (strip text)),
     t ++ [chat_request user_message;
           gemini_request user_message OpenAIService.system_prompt
             (u "gemini-1.5-flash")]).
Proof.
  intros Hc Hg Hh Ho Hk Ht Hs.
  destruct (OpenAIService.openai_client self) as [[]|] eqn:Ec;
    [|now elim Hc].
  assert (E0 : OpenAIService.is_configured w self t = (Returns true, t)).
  { unfold OpenAIService.is_configured. now rewrite Ec. }
  assert (E1 : OpenAIService.try_openai w self user_message t
               = (Returns Continue, t ++ [chat_request user_message])).
  { unfold OpenAIService.try_openai, try_except, bind, perform.
    rewrite Ec. fold (chat_request user_message). now rewrite Ho. }
  assert (E2 : OpenAIService._generate_with_gemini w self user_message
                 OpenAIService.system_prompt
                 (t ++ [chat_request user_message])
               = (Returns (Some (strip text)),
                  t ++ [chat_request user_message;
                        gemini_request user_message
                          OpenAIService.system_prompt
                          (u "gemini-1.5-flash")])).
  { rewrite (gemini_with_key _ _ _ _ _ Hk).
    unfold OpenAIService.gemini_models. cbn [OpenAIService.for_each].
    rewrite (bind_returns _ _ _ _ _ (gemini_try_model_run _ _ _ _ _)).
    rewrite <- app_assoc. cbn [app].
    now rewrite Ht, (strip_nonempty _ Hs). }
  assert (E : OpenAIService.generate_response_at unicode_lower w self
                user_message t
              = (Returns (OpenAIService.AtGemini, Some (strip text)),
                 t ++ [chat_request user_message;
                       gemini_request user_message
                         OpenAIService.system_prompt
                         (u "gemini-1.5-flash")])).
  { unfold OpenAIService.generate_response_at.
    rewrite (bind_returns _ _ _ _ _ E0). cbn [negb]. rewrite Hg, Hh.
    rewrite (bind_returns _ _ _ _ _ E1).
    rewrite (bind_returns _ _ _ _ _ E2). cbn [truthy]. now rewrite Hs. }
  unfold OpenAIService.generate_response.
  now rewrite (bind_returns _ _ _ _ _ E).
Qed.

Lemma gemini_answers_when_openai_fails_witness :
  OpenAIService.generate_response Samples.no_case MoreSamples.openai_down
    Samples.openai_and_gemini (u "tell me a joke") []
  = (Returns (Some (u "Hello from Gemini")),
     [chat_request (u "tell me a joke");
      gemini_request (u "tell me a joke") OpenAIService.system_prompt
        (u "gemini-1.5-flash")]).
Proof.
  apply (gemini_answers_when_openai_fails Samples.no_case
           MoreSamples.openai_down Samples.openai_and_gemini
           (u "tell me a joke") [] Samples.unreachable
           (u "  Hello from Gemini
")); try reflexivity.
  discriminate.
Defined.

(** ** How many calls one message costs *)

Lemma within_ret {A} n (a : A) : within n (ret a).
Proof.
  intros t. exists a, []. rewrite app_nil_r. split; [reflexivity|].
  apply Nat.le_0_l.
Qed.

Lemma within_bind {A B} n k (m : M A) (f : A -> M B) :
  within n m -> (forall a, within k (f a)) -> within (n + k) (bind m f).
Proof.
  intros Hm Hf t. destruct (Hm t) as (a & ext & E & L).
  destruct (Hf a (t ++ ext)) as (b & ext' & E' & L').
  exists b, (ext ++ ext'). rewrite (bind_returns _ _ _ _ _ E), E', app_assoc.
  split; [reflexivity|]. rewrite length_app. lia.
Qed.

Lemma within_requests {A} n (m : M A) (request : str -> Call) xs :
  (List.length xs <= n)%nat ->
  (forall t, exists k v, m t = (Returns v, t ++ map request (firstn k xs))) ->
  within n m.
Proof.
  intros Hn H t. destruct (H t) as (k & v & E).
  exists v, (map request (firstn k xs)). split; [exact E|].
  rewrite length_map, length_firstn. lia.
Qed.

Section CallBound.

Variable unicode_lower : str -> N -> str -> str.
Variable w : World.
Variable self : OpenAIService.t.

Lemma check_ollama_within : within 1 (OpenAIService._check_ollama w self).
Proof.
  intros t. rewrite check_ollama_run. eexists _, [_]. split; [reflexivity|].
  apply Nat.le_refl.
Qed.

Lemma is_configured_within : within 1 (OpenAIService.is_configured w self).
Proof.
  unfold OpenAIService.is_configured.
  repeat match goal with
         | |- context [match ?x with _ => _ end] =>
             destruct x; [apply within_ret|]
         end.
  apply check_ollama_within.
Qed.

Lemma try_openai_within msg :
  within 1 (OpenAIService.try_openai w self msg).
Proof.
  intros t. unfold OpenAIService.try_openai.
  destruct (OpenAIService.openai_client self).
  - destruct (try_perform_log
                (ChatCompletionsCreate (u "gpt-4o") OpenAIService.system_prompt
                   msg)
                (chat_completion w)
                (fun ai_response =>
                   ret (Return_
                          (if truthy ai_response
                           then option_map strip ai_response
                           else ai_response)))
                Continue (fun a => logs_ret _ _) t) as (b & E).
    exists b, [ChatCompletionsCreate (u "gpt-4o") OpenAIService.system_prompt
                 msg].
    split; [exact E | apply Nat.le_refl].
  - apply within_ret.
Qed.

Lemma gemini_within msg sp :
  within 3 (OpenAIService._generate_with_gemini w self msg sp).
Proof.
  destruct (nonempty (OpenAIService.gemini_key self)) eqn:Hk.
  - apply (within_requests 3 _ (gemini_request msg sp)
             OpenAIService.gemini_models); [apply Nat.le_refl|].
    intros t. rewrite (gemini_with_key _ _ _ _ _ Hk).
    apply gemini_loop_requests.
  - rewrite gemini_no_key by now destruct (OpenAIService.gemini_key self).
    apply within_ret.
Qed.

Lemma huggingface_within msg sp :
  within 4 (OpenAIService._generate_with_huggingface w self msg sp).
Proof.
  destruct (nonempty (OpenAIService.hf_token self)) eqn:Hk.
  - intros t. rewrite (huggingface_after_whoami _ _ _ _ _ Hk).
    destruct (http_status w _) as [status|e];
      [|eexists _, [_]; split; [reflexivity | simpl; lia]].
    destruct (Z.eqb status 200);
      [|eexists _, [_]; split; [reflexivity | simpl; lia]].
    destruct (hf_loop_requests w self msg OpenAIService.hf_models
                (t ++ [GetWhoami (OpenAIService.hf_token self)]))
      as (k & v & E).
    exists v, (GetWhoami (OpenAIService.hf_token self)
               :: map (hf_request self msg) (firstn k OpenAIService.hf_models)).
    rewrite E, <- app_assoc. split; [reflexivity|].
    cbn [List.length]. rewrite length_map, length_firstn.
    unfold OpenAIService.hf_models. cbn [List.length]. lia.
  - rewrite huggingface_no_token by now destruct (OpenAIService.hf_token self).
    apply within_ret.
Qed.

Lemma ollama_within msg sp :
  within 2 (OpenAIService._generate_with_ollama w self msg sp).
Proof.
  intros t. rewrite ollama_after_probe.
  destruct (is_200 _).
  - destruct (ollama_generate_log w self msg sp (t ++ [probe_request self]))
      as (v & E).
    exists v, [probe_request self; ollama_request self msg sp].
    rewrite E, <- app_assoc. split; [reflexivity | apply Nat.le_refl].
  - eexists _, [_]. split; [reflexivity | simpl; lia].
Qed.

Lemma after_openai_within msg n :
  (9 <= n)%nat ->
  within n
    (gemini_response <-
       OpenAIService._generate_with_gemini w self msg
         OpenAIService.system_prompt ;;
     if truthy gemini_response then ret (OpenAIService.AtGemini, gemini_response)
     else
       hf_response <-
         OpenAIService._generate_with_huggingface w self msg
           OpenAIService.system_prompt ;;
       if truthy hf_response then ret (OpenAIService.AtHuggingFace, hf_response)
       else
         ollama_response <-
           OpenAIService._generate_with_ollama w self msg
             OpenAIService.system_prompt ;;
         if truthy ollama_response
         then ret (OpenAIService.AtOllama, ollama_response)
         else
           let fallback_response :=
             OpenAIService._generate_fallback_response unicode_lower msg in
           if nonempty fallback_response
           then ret (OpenAIService.AtFallback, Some fallback_response)
           else ret (OpenAIService.AtFinal, Some OpenAIService.final_message)).
Proof.
  intros Hn.
  assert (W : within (3 + (4 + (2 + 0)))
                (gemini_response <-
                   OpenAIService._generate_with_gemini w self msg
                     OpenAIService.system_prompt ;;
                 if truthy gemini_response
                 then ret (OpenAIService.AtGemini, gemini_response)
                 else
                   hf_response <-
                     OpenAIService._generate_with_huggingface w self msg
                       OpenAIService.system_prompt ;;
                   if truthy hf_response
                   then ret (OpenAIService.AtHuggingFace, hf_response)
                   else
                     ollama_response <-
                       OpenAIService._generate_with_ollama w self msg
                         OpenAIService.system_prompt ;;
                     if truthy ollama_response
                     then ret (OpenAIService.AtOllama, ollama_response)
                     else
                       let fallback_response :=
                         OpenAIService._generate_fallback_response
                           unicode_lower msg in
                       if nonempty fallback_response
                       then ret (OpenAIService.AtFallback,
                                 Some fallback_response)
                       else ret (OpenAIService.AtFinal,
                                 Some OpenAIService.final_message))).
  { apply within_bind; [apply gemini_within|]. intros g.
    destruct (truthy g); [apply within_ret|].
    apply within_bind; [apply huggingface_within|]. intros h.
    destruct (truthy h); [apply within_ret|].
    apply within_bind; [apply ollama_within|]. intros o.
    destruct (truthy o); [apply within_ret|].
    cbv zeta. destruct (nonempty _); apply within_ret. }
  intros t. destruct (W t) as (a & ext & E & L).
  exists a, ext. split; [exact E | simpl in L; lia].
Qed.

(** X6.  One message costs at most ten calls to the backends, whatever
    they answer: the probe of the configuration check is made only when no
    credential is set, and then only Ollama is asked. *)
Theorem at_most_ten_calls (user_message : str) (t : Trace) :
  exists v ext,
    OpenAIService.generate_response unicode_lower w self user_message t
    = (Returns v, t ++ ext)
    /\ (List.length ext <= 10)%nat.
Proof.
  assert (W : within 10
                (OpenAIService.generate_response_at unicode_lower w self
                   user_message)).
  { unfold OpenAIService.generate_response_at.
    destruct (OpenAIService.openai_client self) as [[]|] eqn:Ec.
    - assert (E0 : OpenAIService.is_configured w self = ret true).
      { unfold OpenAIService.is_configured. now rewrite Ec. }
      rewrite E0, bind_ret. cbn [negb].
      destruct (mem _ _); [apply within_ret|].
      destruct (mem _ _); [apply within_ret|].
      apply (within_bind 1 9); [apply try_openai_within|].
      intros [ai|]; [apply within_ret|].
      apply after_openai_within, Nat.le_refl.
    - apply (within_bind 1 9); [apply is_configured_within|].
      intros configured.
      destruct (negb configured); [apply within_ret|].
      destruct (mem _ _); [apply within_ret|].
      destruct (mem _ _); [apply within_ret|].
      rewrite (try_openai_no_client _ _ _ Ec), bind_ret.
      apply after_openai_within, Nat.le_refl. }
  destruct (W t) as (r & ext & E & L).
  exists (snd r), ext. split; [|exact L].
  unfold OpenAIService.generate_response.
  now rewrite (bind_returns _ _ _ _ _ E).
Qed.

End CallBound.

(** The bound is reached: every credential set and every generation
    request failing. *)
Example ten_calls_reached :
  List.length
    (snd (OpenAIService.generate_response Samples.no_case
            MoreSamples.generation_down MoreSamples.all_keys
            (u "tell me a joke") []))
  = 10%nat.
Proof. vm_compute. reflexivity. Qed.

(** ** Sentiment analysis *)

(** X26.  [analyze_sentiment] never raises.  With an OpenAI client it makes
    exactly one chat request, with the sentiment prompt and the text, and
    returns the content of the completion, or [None] when the request
    raises.  Without a client it returns [None], having made at most the
    probes of the configuration check. *)
Theorem analyze_sentiment_contract (w : World) (self : OpenAIService.t)
    (text : str) (t : Trace) :
  (OpenAIService.openai_client self <> None ->
   Sentiment.analyze_sentiment w self text t
   = (Returns
        match chat_completion w
                (t ++ [ChatCompletionsCreate (u "gpt-4o")
                         Sentiment.sentiment_prompt text]) with
        | Returns content => content
        | Raises _ => None
        end,
      t ++ [ChatCompletionsCreate (u "gpt-4o") Sentiment.sentiment_prompt
              text]))
  /\ (OpenAIService.openai_client self = None ->
      exists probes,
        Sentiment.analyze_sentiment w self text t = (Returns None, t ++ probes)
        /\ Forall (ollama_probe self) probes).
Proof.
  split.
  - intros Hc. unfold Sentiment.analyze_sentiment.
    destruct (OpenAIService.openai_client self) as [[]|] eqn:Ec;
      [|now elim Hc].
    assert (E0 : OpenAIService.is_configured w self = ret true).
    { unfold OpenAIService.is_configured. now rewrite Ec. }
    rewrite E0, bind_ret. cbn [negb].
    unfold try_except, bind, perform.
    now destruct (chat_completion w _).
  - intros Ec. unfold Sentiment.analyze_sentiment.
    destruct (is_configured_safe w self t) as (c & ext & E & F).
    exists ext. split; [|exact F].
    rewrite (bind_returns _ _ _ _ _ E).
    destruct (negb c); [reflexivity|]. now rewrite Ec.
Qed.

Example analyze_sentiment_example :
  Sentiment.analyze_sentiment MoreSamples.sentiment_answer
    Samples.openai_and_gemini (u "I love it") []
  = (Returns (Some (u "{}")),
     [ChatCompletionsCreate (u "gpt-4o") Sentiment.sentiment_prompt
        (u "I love it")]).
Proof. vm_compute. reflexivity. Qed.

(** ** The health endpoint *)

(** The truth value of the chain is what [is_configured] keeps. *)
Lemma is_configured_value_truth (w : World) (self : OpenAIService.t)
    (t : Trace) :
  exists c t',
    Health.is_configured_value w self t = (Returns c, t')
    /\ OpenAIService.is_configured w self t = (Returns (json_truthy c), t').
Proof.
  unfold Health.is_configured_value, OpenAIService.is_configured.
  destruct (OpenAIService.openai_client self); [eexists _, _; split; reflexivity|].
  destruct (nonempty (OpenAIService.hf_token self)) eqn:Hh;
    [eexists _, _; split; [reflexivity | cbn; now rewrite Hh]|].
  destruct (nonempty (OpenAIService.gemini_key self)) eqn:Hg;
    [eexists _, _; split; [reflexivity | cbn; now rewrite Hg]|].
  destruct (nonempty (OpenAIService.anthropic_key self)) eqn:Ha;
    [eexists _, _; split; [reflexivity | cbn; now rewrite Ha]|].
  rewrite (bind_returns _ _ _ _ _ (check_ollama_run w self t)).
  rewrite check_ollama_run. eexists _, _. split; reflexivity.
Qed.

(** X22.  The health endpoint never raises and answers 200 with
    [status] "healthy", [line_bot_configured] a boolean, and
    [openai_configured] the value of the configuration chain: [true] with an
    OpenAI client; without one, the first non-empty credential itself, as a
    string, among the Hugging Face token, the Gemini key and the Anthropic
    key; and with no credential the boolean answer of the Ollama probe.  Its
    truth value is what [is_configured] returns. *)
Theorem health_check_contract (w : World) (line_bot : LineBot.t)
    (openai_service : OpenAIService.t) (t : Trace) :
  exists c t',
    Health.health_check w line_bot openai_service t
    = (Returns
         (JObj [ (u "status", JStr (u "healthy"));
                 (u "line_bot_configured",
                  JBool (LineBot.is_configured line_bot));
                 (u "openai_configured", c) ],
          200%Z),
       t')
    /\ OpenAIService.is_configured w openai_service t
       = (Returns (json_truthy c), t')
    /\ (OpenAIService.openai_client openai_service <> None ->
        c = JBool true /\ t' = t)
    /\ (OpenAIService.openai_client openai_service = None ->
        nonempty (OpenAIService.hf_token openai_service) = true ->
        c = JStr (OpenAIService.hf_token openai_service) /\ t' = t)
    /\ (OpenAIService.openai_client openai_service = None ->
        OpenAIService.hf_token openai_service = [] ->
        nonempty (OpenAIService.gemini_key openai_service) = true ->
        c = JStr (OpenAIService.gemini_key openai_service) /\ t' = t)
    /\ (OpenAIService.openai_client openai_service = None ->
        OpenAIService.hf_token openai_service = [] ->
        OpenAIService.gemini_key openai_service = [] ->
        nonempty (OpenAIService.anthropic_key openai_service) = true ->
        c = JStr (OpenAIService.anthropic_key openai_service) /\ t' = t)
    /\ (no_credentials openai_service ->
        c = JBool (is_200 (http_status w (t ++ [probe_request openai_service])))
        /\ t' = t ++ [probe_request openai_service]).
Proof.
  destruct (is_configured_value_truth w openai_service t)
    as (c & t' & Ev & Ec).
  exists c, t'. split.
  { unfold Health.health_check. now rewrite (bind_returns _ _ _ _ _ Ev). }
  split; [exact Ec|].
  unfold Health.is_configured_value in Ev.
  repeat split.
  - destruct (OpenAIService.openai_client openai_service);
      [now injection Ev as <- _ | now elim H].
  - destruct (OpenAIService.openai_client openai_service);
      [now injection Ev as _ <- | now elim H].
  - rewrite H, H0 in Ev. now injection Ev as <- _.
  - rewrite H, H0 in Ev. now injection Ev as _ <-.
  - rewrite H, H0, H1 in Ev. cbn [nonempty] in Ev. now injection Ev as <- _.
  - rewrite H, H0, H1 in Ev. cbn [nonempty] in Ev. now injection Ev as _ <-.
  - rewrite H, H0, H1, H2 in Ev. cbn [nonempty] in Ev.
    now injection Ev as <- _.
  - rewrite H, H0, H1, H2 in Ev. cbn [nonempty] in Ev.
    now injection Ev as _ <-.
  - destruct H as (H1 & H2 & H3 & H4). rewrite H1, H2, H3, H4 in Ev.
    cbn [nonempty] in Ev.
    rewrite (bind_returns _ _ _ _ _ (check_ollama_run w openai_service t)) in Ev.
    now injection Ev as <- _.
  - destruct H as (H1 & H2 & H3 & H4). rewrite H1, H2, H3, H4 in Ev.
    cbn [nonempty] in Ev.
    rewrite (bind_returns _ _ _ _ _ (check_ollama_run w openai_service t)) in Ev.
    now injection Ev as _ <-.
Qed.

(** With only a Hugging Face token set, the endpoint shows the token. *)
Example health_check_shows_the_token :
  Health.health_check Samples.offline Samples.line_ready Samples.hf_only []
  = (Returns
       (JObj [ (u "status", JStr (u "healthy"));
               (u "line_bot_configured", JBool true);
               (u "openai_configured", JStr (u "hf_test")) ],
        200%Z),
     []).
Proof. vm_compute. reflexivity. Qed.

(** ** The LINE bot *)

Section LineBotMore.

Variable w : World.
Variable self : LineBot.t.

(** X14.  [parse_webhook] never returns events and calls nothing.  Not
    configured, it raises "LINE Bot is not configured"; configured, the
    lookup of [parse] on the handler raises an [AttributeError], which the
    second [except] clause re-raises as it is.  So the exception that leaves
    it is never an [InvalidSignatureError]. *)
Theorem parse_webhook_contract (body signature : str) (t : Trace) :
  (LineBot.is_configured self = false ->
   LineBot.parse_webhook self body signature t
   = (Raises (Exception (u "LINE Bot is not configured")), t))
  /\ (LineBot.is_configured self = true ->
      LineBot.parse_webhook self body signature t
      = (Raises
           {| exn_cls := AttributeError;
              exn_msg := u "'WebhookHandler' object has no attribute 'parse'" |},
         t))
  /\ (forall events t',
         LineBot.parse_webhook self body signature t <> (Returns events, t'))
  /\ (forall e t',
         LineBot.parse_webhook self body signature t = (Raises e, t') ->
         exn_cls e <> InvalidSignatureError /\ t' = t).
Proof.
  unfold LineBot.parse_webhook.
  destruct (LineBot.is_configured self); cbn [negb];
    (split; [|split; [|split]]); try discriminate; try reflexivity.
  - intros e t' E. injection E as <- <-. split; [discriminate | reflexivity].
  - intros e t' E. injection E as <- <-. split; [discriminate | reflexivity].
Qed.

(** X15.  [reply_message] calls the reply API only when the bot is
    configured, and then exactly once, with the token and the text it was
    given.  It returns when the API does; a [LineBotApiError] comes out as a
    plain exception "Failed to send message: ..." carrying the API's
    message, so that no [LineBotApiError] ever leaves it. *)
Theorem reply_message_contract (reply_token : str) (message_text : value)
    (t : Trace) :
  (LineBot.is_configured self = false ->
   LineBot.reply_message w self reply_token message_text t
   = (Raises (Exception (u "LINE Bot is not configured")), t))
  /\ (LineBot.is_configured self = true ->
      LineBot.reply_message w self reply_token message_text t
      = (match api_reply w (t ++ [ApiReplyMessage reply_token message_text])
         with
         | Returns x => Returns x
         | Raises e =>
             match exn_cls e with
             | LineBotApiError =>
                 Raises (Exception (u "Failed to send message: " ++ exn_msg e))
             | _ => Raises e
             end
         end,
         t ++ [ApiReplyMessage reply_token message_text]))
  /\ (forall e t',
         LineBot.reply_message w self reply_token message_text t
         = (Raises e, t') ->
         exn_cls e <> LineBotApiError).
Proof.
  assert (Hrun : LineBot.is_configured self = true ->
                 LineBot.reply_message w self reply_token message_text t
                 = (match api_reply w
                            (t ++ [ApiReplyMessage reply_token message_text])
                    with
                    | Returns x => Returns x
                    | Raises e =>
                        match exn_cls e with
                        | LineBotApiError =>
                            Raises (Exception
                                      (u "Failed to send message: "
                                       ++ exn_msg e))
                        | _ => Raises e
                        end
                    end,
                    t ++ [ApiReplyMessage reply_token message_text])).
  { intros Hc. unfold LineBot.reply_message, try_except, perform.
    rewrite Hc. cbn [negb].
    destruct (api_reply w _) as [x|e]; [reflexivity|].
    now destruct (exn_cls e). }
  split; [|split; [exact Hrun|]].
  - intros Hc. unfold LineBot.reply_message. now rewrite Hc.
  - intros e t' E.
    destruct (LineBot.is_configured self) eqn:Hc.
    + rewrite (Hrun eq_refl) in E.
      destruct (api_reply w _) as [x|e0]; [discriminate|].
      destruct (exn_cls e0) eqn:Hcls; injection E as <- _;
        try discriminate; now rewrite Hcls.
    + unfold LineBot.reply_message in E. rewrite Hc in E.
      injection E as <- _. discriminate.
Qed.

(** X24.  [push_message] raises "LINE Bot is not configured" when the bot
    is not configured, whatever the API would do.  Configured, it returns
    exactly when the API call returns; a [LineBotApiError] comes out as a
    plain exception "Failed to send push message: ..." with the API's
    message, any other exception unchanged, so that no [LineBotApiError]
    ever leaves it. *)
Theorem push_message_contract
    (api_push_message : str -> value -> outcome unit)
    (user_id : str) (message_text : value) :
  (LineBot.is_configured self = false ->
   LineApi.push_message self api_push_message user_id message_text
   = Raises (Exception (u "LINE Bot is not configured")))
  /\ (LineBot.is_configured self = true ->
      (LineApi.push_message self api_push_message user_id message_text
       = Returns tt
       <-> api_push_message user_id message_text = Returns tt))
  /\ (LineBot.is_configured self = true ->
      forall e,
        api_push_message user_id message_text = Raises e ->
        LineApi.push_message self api_push_message user_id message_text
        = Raises
            (match exn_cls e with
             | LineBotApiError =>
                 Exception (u "Failed to send push message: " ++ exn_msg e)
             | _ => e
             end))
  /\ (forall e,
         LineApi.push_message self api_push_message user_id message_text
         = Raises e ->
         exn_cls e <> LineBotApiError).
Proof.
  unfold LineApi.push_message.
  split; [|split; [|split]].
  - intros Hc. now rewrite Hc.
  - intros Hc. rewrite Hc. cbn [negb].
    destruct (api_push_message user_id message_text) as [[]|e].
    + split; reflexivity.
    + split; [|discriminate]. now destruct (exn_cls e).
  - intros Hc e He. rewrite Hc, He. cbn [negb]. now destruct (exn_cls e).
  - intros e E. destruct (negb (LineBot.is_configured self)).
    + injection E as <-. discriminate.
    + destruct (api_push_message user_id message_text) as [[]|e0];
        [discriminate|].
      destruct (exn_cls e0) eqn:Hcls; injection E as <-;
        try discriminate; now rewrite Hcls.
Qed.

(** X25.  [get_profile] raises only when the bot is not configured.
    Configured, it never raises: it returns a dictionary with the four
    attributes of the profile when the API call returns, and [None] whatever
    the API raises. *)
Theorem get_profile_contract
    (api_get_profile : str -> outcome LineApi.Profile) (user_id : str) :
  (LineBot.is_configured self = false ->
   LineApi.get_profile self api_get_profile user_id
   = Raises (Exception (u "LINE Bot is not configured")))
  /\ (LineBot.is_configured self = true ->
      exists j,
        LineApi.get_profile self api_get_profile user_id = Returns j
        /\ (j = JNull <-> exists e, api_get_profile user_id = Raises e)
        /\ (forall profile,
               api_get_profile user_id = Returns profile ->
               py_get j (u "user_id") JNull
               = Returns (json_of_value (LineApi.user_id profile))
               /\ py_get j (u "display_name") JNull
                  = Returns (json_of_value (LineApi.display_name profile))
               /\ py_get j (u "picture_url") JNull
                  = Returns (json_of_value (LineApi.picture_url profile))
               /\ py_get j (u "status_message") JNull
                  = Returns (json_of_value (LineApi.status_message profile)))).
Proof.
  unfold LineApi.get_profile. split.
  - intros Hc. now rewrite Hc.
  - intros Hc. rewrite Hc. cbn [negb].
    destruct (api_get_profile user_id) as [profile|e].
    + eexists. split; [reflexivity|]. split.
      * split; [discriminate | intros [e He]; discriminate].
      * intros p Hp. injection Hp as <-. repeat split.
    + exists JNull. split; [now destruct (exn_cls e)|]. split.
      * split; eauto.
      * discriminate.
Qed.

End LineBotMore.

(** ** The webhook and several events *)

Section WebhookEvents.

Variable unicode_lower : str -> N -> str -> str.
Variable w : World.
Variable line_bot : LineBot.t.
Variable openai_service : OpenAIService.t.

Lemma process_events_cons event rest t :
  App.process_events unicode_lower w line_bot openai_service (event :: rest) t
  = ((if is_text_message event
      then
        ai_response <-
          OpenAIService.generate_response unicode_lower w openai_service
            (ev_message_text event) ;;
        LineBot.reply_message w line_bot (ev_reply_token event) ai_response
      else ret tt) ;;;
     App.process_events unicode_lower w line_bot openai_service rest) t.
Proof. reflexivity. Qed.

Lemma process_events_no_text events t :
  filter is_text_message events = [] ->
  App.process_events unicode_lower w line_bot openai_service events t
  = (Returns tt, t).
Proof.
  induction events as [|event rest IH]; intros Hf; [reflexivity|].
  rewrite process_events_cons. cbn [filter] in Hf.
  destruct (is_text_message event); [discriminate|].
  rewrite bind_ret. now apply IH.
Qed.

(** One text event: the response is generated, then sent. *)
Lemma process_text_event event t :
  LineBot.is_configured line_bot = true ->
  exists v ext,
    OpenAIService.generate_response unicode_lower w openai_service
      (ev_message_text event) t
    = (Returns v, t ++ ext)
    /\ Forall backend_call ext
    /\ (ai_response <-
          OpenAIService.generate_response unicode_lower w openai_service
            (ev_message_text event) ;;
        LineBot.reply_message w line_bot (ev_reply_token event) ai_response) t
       = (match api_reply w
                  (t ++ ext ++ [ApiReplyMessage (ev_reply_token event) v]) with
          | Returns x => Returns x
          | Raises e =>
              match exn_cls e with
              | LineBotApiError =>
                  Raises (Exception (u "Failed to send message: " ++ exn_msg e))
              | _ => Raises e
              end
          end,
          t ++ ext ++ [ApiReplyMessage (ev_reply_token event) v]).
Proof.
  intros Hc.
  destruct (generate_response_safe unicode_lower w openai_service
              (ev_message_text event) t) as (v & ext & E & F).
  exists v, ext. split; [exact E|]. split; [exact F|].
  rewrite (bind_returns _ _ _ _ _ E).
  unfold LineBot.reply_message, try_except, perform.
  rewrite Hc. cbn [negb]. rewrite <- !app_assoc.
  destruct (api_reply w _) as [x|e]; [reflexivity|].
  now destruct (exn_cls e).
Qed.

Lemma process_events_all_replied events t :
  LineBot.is_configured line_bot = true ->
  (forall t0, api_reply w t0 = Returns tt) ->
  exists ext,
    App.process_events unicode_lower w line_bot openai_service events t
    = (Returns tt, t ++ ext)
    /\ map reply_token_of (filter is_reply ext)
       = map ev_reply_token (filter is_text_message events).
Proof.
  intros Hc Hr. revert t. induction events as [|event rest IH]; intros t.
  - exists []. cbn. now rewrite app_nil_r.
  - rewrite process_events_cons. cbn [filter].
    destruct (is_text_message event).
    + destruct (process_text_event event t Hc) as (v & ext & _ & F & E).
      rewrite Hr in E. rewrite (bind_returns _ _ _ _ _ E).
      destruct (IH (t ++ ext ++ [ApiReplyMessage (ev_reply_token event) v]))
        as (ext' & E' & Hm).
      exists (ext ++ [ApiReplyMessage (ev_reply_token event) v] ++ ext').
      rewrite E'. split; [now rewrite <- !app_assoc|].
      rewrite !filter_app, (no_reply_in_backend_calls _ F).
      cbn [filter is_reply app map reply_token_of]. now rewrite Hm.
    + rewrite bind_ret. apply IH.
Qed.

Lemma bind_assoc {A B C} (m : M A) (f : A -> M B) (g : B -> M C) t :
  bind (bind m f) g t = bind m (fun a => bind (f a) g) t.
Proof. unfold bind. now destruct (m t) as [[a|e] t']. Qed.

Lemma bind_ext {A B} (m : M A) (f g : A -> M B) t :
  (forall a t', f a t' = g a t') -> bind m f t = bind m g t.
Proof. intros H. unfold bind. destruct (m t) as [[a|e] t']; auto. Qed.

Lemma process_events_step event rest :
  App.process_events unicode_lower w line_bot openai_service (event :: rest)
  = ((if is_text_message event
      then
        ai_response <-
          OpenAIService.generate_response unicode_lower w openai_service
            (ev_message_text event) ;;
        LineBot.reply_message w line_bot (ev_reply_token event) ai_response
      else ret tt) ;;;
     App.process_events unicode_lower w line_bot openai_service rest).
Proof. reflexivity. Qed.

(** Handling a list of events is handling its first part, then the rest. *)
Lemma process_events_app before after t :
  App.process_events unicode_lower w line_bot openai_service
    (before ++ after) t
  = (App.process_events unicode_lower w line_bot openai_service before ;;;
     App.process_events unicode_lower w line_bot openai_service after) t.
Proof.
  revert t. induction before as [|event rest IH]; intros t; [reflexivity|].
  cbn [app]. rewrite !process_events_step, bind_assoc.
  apply bind_ext. intros _ t'. apply IH.
Qed.

(** X16.  The event loop of [webhook] passes over every event that is not
    a text message: run on events none of which is one, it returns with
    nothing generated and nothing sent. *)
Theorem events_without_text_make_no_call (events : list Event) (t : Trace) :
  filter is_text_message events = [] ->
  App.process_events unicode_lower w line_bot openai_service events t
  = (Returns tt, t).
Proof. apply process_events_no_text. Qed.

(** X17.  When the bot is configured and the reply API accepts every
    reply, the event loop of [webhook] returns, and the replies it sends
    are, in the order of the events, one per text-message event, each with
    the reply token of its event; the other events get none. *)
Theorem loop_replies_to_each_text_event (events : list Event) (t : Trace) :
  LineBot.is_configured line_bot = true ->
  (forall t0, api_reply w t0 = Returns tt) ->
  exists ext,
    App.process_events unicode_lower w line_bot openai_service events t
    = (Returns tt, t ++ ext)
    /\ map reply_token_of (filter is_reply ext)
       = map ev_reply_token (filter is_text_message events).
Proof. intros Hc Hr. now apply process_events_all_replied. Qed.

(** X18.  The event loop of [webhook] stops at the first reply that
    raises: when the events before a text-message event have been handled
    and the reply to that one raises, the loop raises (a [LineBotApiError]
    as "Failed to send message: ...", anything else as it is), the failed
    reply is the last call made and the events after it are not handled. *)
Theorem loop_stops_at_failed_reply (before : list Event) (event : Event)
    (rest : list Event) (t t1 t2 : Trace) (v : value) (e : exn) :
  LineBot.is_configured line_bot = true ->
  App.process_events unicode_lower w line_bot openai_service before t
  = (Returns tt, t1) ->
  is_text_message event = true ->
  OpenAIService.generate_response unicode_lower w openai_service
    (ev_message_text event) t1
  = (Returns v, t2) ->
  api_reply w (t2 ++ [ApiReplyMessage (ev_reply_token event) v]) = Raises e ->
  App.process_events unicode_lower w line_bot openai_service
    (before ++ event :: rest) t
  = (Raises
       match exn_cls e with
       | LineBotApiError =>
           Exception (u "Failed to send message: " ++ exn_msg e)
       | _ => e
       end,
     t2 ++ [ApiReplyMessage (ev_reply_token event) v]).
Proof.
  intros Hc Hb Ht Hg Hr.
  rewrite process_events_app, (bind_returns _ _ _ _ _ Hb).
  rewrite process_events_cons, Ht.
  destruct (process_text_event event t1 Hc) as (v0 & ext & Eg & _ & E).
  rewrite Hg in Eg. injection Eg as <- ->.
  rewrite <- app_assoc in Hr. rewrite Hr in E.
  assert (E' : (ai_response <-
                  OpenAIService.generate_response unicode_lower w
                    openai_service (ev_message_text event) ;;
                LineBot.reply_message w line_bot (ev_reply_token event)
                  ai_response) t1
               = (Raises
                    match exn_cls e with
                    | LineBotApiError =>
                        Exception (u "Failed to send message: " ++ exn_msg e)
                    | _ => e
                    end,
                  t1 ++ ext ++ [ApiReplyMessage (ev_reply_token event) v])).
  { rewrite E. now destruct (exn_cls e). }
  rewrite (bind_raises _ _ _ _ _ E'). now rewrite <- !app_assoc.
Qed.

End WebhookEvents.

Lemma events_without_text_make_no_call_witness :
  App.process_events Samples.no_case Samples.offline Samples.line_ready
    Samples.anthropic_only
    [MoreSamples.sticker_event; MoreSamples.follow_event] []
  = (Returns tt, []).
Proof.
  apply (events_without_text_make_no_call Samples.no_case Samples.offline
           Samples.line_ready Samples.anthropic_only
           [MoreSamples.sticker_event; MoreSamples.follow_event] []).
  reflexivity.
Defined.

Lemma loop_replies_to_each_text_event_witness :
  exists ext,
    App.process_events Samples.no_case Samples.replies_delivered
      Samples.line_ready Samples.anthropic_only MoreSamples.four_events []
    = (Returns tt, [] ++ ext)
    /\ map reply_token_of (filter is_reply ext)
       = [u "reply-token"; u "help-token"].
Proof.
  apply (loop_replies_to_each_text_event Samples.no_case
           Samples.replies_delivered Samples.line_ready
           Samples.anthropic_only MoreSamples.four_events []);
    reflexivity.
Defined.

Lemma loop_stops_at_failed_reply_witness :
  App.process_events Samples.no_case MoreSamples.second_reply_fails
    Samples.line_ready Samples.anthropic_only
    ([Samples.hello_event; MoreSamples.sticker_event;
      MoreSamples.follow_event]
     ++ MoreSamples.help_event :: [Samples.hello_event]) []
  = (Raises (Exception (u "Failed to send message: Invalid reply token")),
     [ApiReplyMessage (u "reply-token") (Some OpenAIService.greeting_reply)]
     ++ [ApiReplyMessage (u "help-token") (Some OpenAIService.help_reply)]).
Proof.
  apply (loop_stops_at_failed_reply Samples.no_case
           MoreSamples.second_reply_fails Samples.line_ready
           Samples.anthropic_only
           [Samples.hello_event; MoreSamples.sticker_event;
            MoreSamples.follow_event]
           MoreSamples.help_event [Samples.hello_event] []
           [ApiReplyMessage (u "reply-token")
              (Some OpenAIService.greeting_reply)]
           [ApiReplyMessage (u "reply-token")
              (Some OpenAIService.greeting_reply)]
           (Some OpenAIService.help_reply) MoreSamples.invalid_token);
    reflexivity.
Defined.

(** ** The test endpoint, beyond the two documented requests *)

Section TestEndpointMore.

Variable unicode_lower : str -> N -> str -> str.
Variable w : World.
Variable openai_service : OpenAIService.t.

Lemma generate_response_any_logs (message : json) :
  logs backend_call
    (OpenAIService.generate_response_any unicode_lower w openai_service
       message).
Proof.
  assert (Hc : logs backend_call
                 (configured <- OpenAIService.is_configured w openai_service ;;
                  if negb configured
                  then ret (Some OpenAIService.unavailable_message)
                  else raise (no_attribute message (u "lower")))).
  { apply logs_bind.
    - apply logs_of_safe. eapply safe_weaken; [|apply is_configured_safe].
      intros c ->. exact I.
    - intros c. destruct (negb c); [apply logs_ret | apply logs_raise]. }
  destruct message; try exact Hc.
  apply logs_of_safe, generate_response_safe.
Qed.

Lemma test_message_body_logs (get_json : outcome json) :
  logs backend_call
    (data <- lift get_json ;;
     message <- lift (py_get data (u "message") (JStr [])) ;;
     if negb (json_truthy message)
     then ret (JObj [(u "error", JStr (u "Message is required"))], 400%Z)
     else
       response <-
         OpenAIService.generate_response_any unicode_lower w openai_service
           message ;;
       ret (JObj [(u "response", json_of_value response)], 200%Z)).
Proof.
  apply logs_bind; [apply logs_lift|]. intros data.
  apply logs_bind; [apply logs_lift|]. intros message.
  destruct (negb _); [apply logs_ret|].
  apply logs_bind; [apply generate_response_any_logs|].
  intros response. apply logs_ret.
Qed.

Lemma test_message_body_answers (get_json : outcome json) :
  ensures
    (fun r => r = message_required
              \/ exists v, r = (JObj [(u "response", v)], 200%Z))
    (data <- lift get_json ;;
     message <- lift (py_get data (u "message") (JStr [])) ;;
     if negb (json_truthy message)
     then ret (JObj [(u "error", JStr (u "Message is required"))], 400%Z)
     else
       response <-
         OpenAIService.generate_response_any unicode_lower w openai_service
           message ;;
       ret (JObj [(u "response", json_of_value response)], 200%Z)).
Proof.
  apply ensures_bind. intros data.
  apply ensures_bind. intros message.
  destruct (negb _); [apply ensures_ret; now left|].
  apply ensures_bind. intros response.
  apply ensures_ret. right. eauto.
Qed.

(** X19.  The test endpoint never raises, whatever the request and the
    backends: it answers 200 with a [response] field, 400 with "Message is
    required", or 500 with an [error] field, and the only calls it makes
    are calls to the AI backends. *)
Theorem test_message_always_answers (get_json : outcome json) (t : Trace) :
  exists body status ext,
    App.test_message unicode_lower w openai_service get_json t
    = (Returns (body, status), t ++ ext)
    /\ Forall backend_call ext
    /\ ((status = 200%Z /\ exists v, body = JObj [(u "response", v)])
        \/ (status = 400%Z
            /\ body = JObj [(u "error", JStr (u "Message is required"))])
        \/ (status = 500%Z /\ exists msg, body = JObj [(u "error", JStr msg)])).
Proof.
  unfold App.test_message, try_except.
  destruct (test_message_body_logs get_json t) as (o & ext & E & F).
  rewrite E. destruct o as [[body status]|e].
  - exists body, status, ext. split; [reflexivity|]. split; [exact F|].
    destruct (test_message_body_answers get_json t _ _ E) as [H|[v H]];
      injection H as -> ->.
    + right. left. now split.
    + left. split; eauto.
  - eexists _, _, ext. split; [reflexivity|]. split; [exact F|].
    right. right. split; eauto.
Qed.

(** X20.  What the endpoint answers with 500: a request whose JSON cannot
    be read gives the message of that exception; a JSON document that is
    not an object gives "'...' object has no attribute 'get'"; both without
    any call.  A truthy [message] that is not a string gives "'...' object
    has no attribute 'lower'" when the service is configured, and 200 with
    the "service unavailable" message when it is not. *)
Theorem test_message_errors (t : Trace) :
  (forall e,
      App.test_message unicode_lower w openai_service (Raises e) t
      = (Returns (JObj [(u "error", JStr (exn_msg e))], 500%Z), t))
  /\ (forall data,
         match data with JObj _ => False | _ => True end ->
         App.test_message unicode_lower w openai_service (Returns data) t
         = (Returns
              (JObj [(u "error",
                      JStr (u "'" ++ type_name data
                            ++ u "' object has no attribute 'get'"))],
               500%Z),
            t))
  /\ (forall items message,
         assoc (u "message") items = Some message ->
         json_truthy message = true ->
         match message with JStr _ => False | _ => True end ->
         App.test_message unicode_lower w openai_service
           (Returns (JObj items)) t
         = (match fst (OpenAIService.is_configured w openai_service t) with
            | Returns true =>
                Returns
                  (JObj [(u "error",
                          JStr (u "'" ++ type_name message
                                ++ u "' object has no attribute 'lower'"))],
                   500%Z)
            | _ =>
                Returns
                  (JObj [(u "response",
                          JStr OpenAIService.unavailable_message)],
                   200%Z)
            end,
            snd (OpenAIService.is_configured w openai_service t))).
Proof.
  split; [|split].
  - intros e. reflexivity.
  - intros data Hd. destruct data; try reflexivity. contradiction.
  - intros items message Ha Ht Hm.
    unfold App.test_message, try_except.
    erewrite bind_returns by reflexivity.
    erewrite bind_returns by (unfold lift; cbn [py_get]; rewrite Ha; reflexivity).
    rewrite Ht. cbn [negb].
    destruct (is_configured_safe w openai_service t) as (c & ext & E & _).
    rewrite E. cbn [fst snd].
    assert (Ea : OpenAIService.generate_response_any unicode_lower w
                   openai_service message t
                 = (if c
                    then Raises (no_attribute message (u "lower"))
                    else Returns (Some OpenAIService.unavailable_message),
                    t ++ ext)).
    { destruct message; try contradiction;
        unfold OpenAIService.generate_response_any;
        rewrite (bind_returns _ _ _ _ _ E); now destruct c. }
    unfold bind at 1. rewrite Ea. now destruct c.
Qed.

(** X21.  A request whose [message] is a non-empty string is always
    answered 200, with what [generate_response] returns for that string in
    the [response] field. *)
Theorem test_message_with_text (items : list (str * json)) (s : str)
    (t : Trace) :
  assoc (u "message") items = Some (JStr s) ->
  s <> [] ->
  exists v t',
    OpenAIService.generate_response unicode_lower w openai_service s t
    = (Returns v, t')
    /\ App.test_message unicode_lower w openai_service
         (Returns (JObj items)) t
       = (Returns (JObj [(u "response", json_of_value v)], 200%Z), t').
Proof.
  intros Ha Hs.
  destruct (generate_response_safe unicode_lower w openai_service s t)
    as (v & ext & E & _).
  exists v, (t ++ ext). split; [exact E|].
  apply (test_message_with_message unicode_lower w openai_service
           (JObj items) (JStr s) v).
  - cbn [py_get]. now rewrite Ha.
  - now destruct s.
  - exact E.
Qed.

End TestEndpointMore.

Lemma test_message_with_text_witness :
  exists v t',
    OpenAIService.generate_response Samples.no_case Samples.offline
      Samples.anthropic_only (u "what time is it") []
    = (Returns v, t')
    /\ App.test_message Samples.no_case Samples.offline Samples.anthropic_only
         (Returns (JObj [(u "message", JStr (u "what time is it"))])) []
       = (Returns (JObj [(u "response", json_of_value v)], 200%Z), t').
Proof.
  apply (test_message_with_text Samples.no_case Samples.offline
           Samples.anthropic_only
           [(u "message", JStr (u "what time is it"))]
           (u "what time is it") []).
  - reflexivity.
  - discriminate.
Defined.

(** A JSON array instead of an object, and a number as message. *)
Example test_message_error_examples :
  App.test_message Samples.no_case Samples.offline Samples.anthropic_only
    (Returns (JList [])) []
  = (Returns
       (JObj [(u "error", JStr (u "'list' object has no attribute 'get'"))],
        500%Z), [])
  /\ App.test_message Samples.no_case Samples.offline Samples.anthropic_only
       (Returns (JObj [(u "message", JNum 5)])) []
     = (Returns
          (JObj [(u "error", JStr (u "'int' object has no attribute 'lower'"))],
           500%Z), []).
Proof. split; vm_compute; reflexivity. Qed.

(** ** The fallback responder, further *)

Lemma ascii_lower_above (c : N) : (c <? 128) = false -> ascii_lower c = c.
Proof.
  intros H. apply N.ltb_ge in H. unfold ascii_lower.
  destruct (c <=? 90) eqn:E; [|now rewrite andb_false_r].
  apply N.leb_le in E. lia.
Qed.

(** On ASCII and CJK code points, lower-casing is the ASCII one, code
    point by code point, whatever the case table. *)
Lemma lower_plain (unicode_lower : str -> N -> str -> str) (s : str) :
  forallb plain s = true -> lower unicode_lower s = map ascii_lower s.
Proof.
  unfold lower. generalize (@nil N) as pre.
  induction s as [|c s IH]; intros pre H; [reflexivity|].
  cbn [forallb] in H. apply andb_true_iff in H. destruct H as [Hc Hs].
  cbn [lower_from map]. rewrite (IH _ Hs). unfold lower_cp, plain in *.
  destruct (c <? 128) eqn:E; [reflexivity|].
  cbn [orb] in Hc. rewrite Hc. now rewrite (ascii_lower_above _ E).
Qed.

(** X11.  The fallback responder ignores the case of ASCII letters: two
    messages made of ASCII and CJK code points that differ only in the case
    of their ASCII letters get the same reply, whatever the Unicode case
    table of the interpreter. *)
Theorem fallback_ignores_ascii_case
    (unicode_lower unicode_lower' : str -> N -> str -> str) (a b : str) :
  forallb plain a = true ->
  forallb plain b = true ->
  map ascii_lower a = map ascii_lower b ->
  OpenAIService._generate_fallback_response unicode_lower a
  = OpenAIService._generate_fallback_response unicode_lower' b.
Proof.
  intros Ha Hb Hab. unfold OpenAIService._generate_fallback_response.
  now rewrite (lower_plain _ _ Ha), (lower_plain _ _ Hb), Hab.
Qed.

Lemma fallback_ignores_ascii_case_witness :
  OpenAIService._generate_fallback_response Samples.no_case (u "Good BYE 再見")
  = OpenAIService._generate_fallback_response (fun _ _ _ => [])
      (u "good bye 再見").
Proof.
  apply (fallback_ignores_ascii_case Samples.no_case (fun _ _ _ => [])
           (u "Good BYE 再見") (u "good bye 再見")); reflexivity.
Defined.

(** X12.  Which reply the fallback responder gives is decided by the first
    keyword set with a keyword in the lower-cased message: each canned
    reply is given exactly when its set matches and no earlier set does,
    and the generic reply exactly when no set matches.  In particular the
    goodbye reply is never given to a message with a thanks keyword. *)
Theorem fallback_reply_decided (unicode_lower : str -> N -> str -> str)
    (user_message : str) :
  (OpenAIService._generate_fallback_response unicode_lower user_message
   = OpenAIService.fallback_greeting
   <-> keyword_in unicode_lower OpenAIService.greeting_words user_message
       = true)
  /\ (OpenAIService._generate_fallback_response unicode_lower user_message
      = OpenAIService.fallback_help
      <-> keyword_in unicode_lower OpenAIService.greeting_words user_message
          = false
          /\ keyword_in unicode_lower OpenAIService.help_words user_message
             = true)
  /\ (OpenAIService._generate_fallback_response unicode_lower user_message
      = OpenAIService.fallback_time
      <-> keyword_in unicode_lower OpenAIService.greeting_words user_message
          = false
          /\ keyword_in unicode_lower OpenAIService.help_words user_message
             = false
          /\ keyword_in unicode_lower OpenAIService.time_words user_message
             = true)
  /\ (OpenAIService._generate_fallback_response unicode_lower user_message
      = OpenAIService.fallback_weather
      <-> keyword_in unicode_lower OpenAIService.greeting_words user_message
          = false
          /\ keyword_in unicode_lower OpenAIService.help_words user_message
             = false
          /\ keyword_in unicode_lower OpenAIService.time_words user_message
             = false
          /\ keyword_in unicode_lower OpenAIService.weather_words user_message
             = true)
  /\ (OpenAIService._generate_fallback_response unicode_lower user_message
      = OpenAIService.fallback_thanks
      <-> keyword_in unicode_lower OpenAIService.greeting_words user_message
          = false
          /\ keyword_in unicode_lower OpenAIService.help_words user_message
             = false
          /\ keyword_in unicode_lower OpenAIService.time_words user_message
             = false
          /\ keyword_in unicode_lower OpenAIService.weather_words user_message
             = false
          /\ keyword_in unicode_lower OpenAIService.thanks_words user_message
             = true)
  /\ (OpenAIService._generate_fallback_response unicode_lower user_message
      = OpenAIService.fallback_goodbye
      <-> keyword_in unicode_lower OpenAIService.greeting_words user_message
          = false
          /\ keyword_in unicode_lower OpenAIService.help_words user_message
             = false
          /\ keyword_in unicode_lower OpenAIService.time_words user_message
             = false
          /\ keyword_in unicode_lower OpenAIService.weather_words user_message
             = false
          /\ keyword_in unicode_lower OpenAIService.thanks_words user_message
             = false
          /\ keyword_in unicode_lower OpenAIService.goodbye_words user_message
             = true)
  /\ (OpenAIService._generate_fallback_response unicode_lower user_message
      = OpenAIService.fallback_default
      <-> keyword_in unicode_lower OpenAIService.greeting_words user_message
          = false
          /\ keyword_in unicode_lower OpenAIService.help_words user_message
             = false
          /\ keyword_in unicode_lower OpenAIService.time_words user_message
             = false
          /\ keyword_in unicode_lower OpenAIService.weather_words user_message
             = false
          /\ keyword_in unicode_lower OpenAIService.thanks_words user_message
             = false
          /\ keyword_in unicode_lower OpenAIService.goodbye_words user_message
             = false).
Proof.
  unfold OpenAIService._generate_fallback_response, keyword_in. cbv zeta.
  destruct (OpenAIService.any_in OpenAIService.greeting_words _);
    [repeat split; intros; try reflexivity; try discriminate;
     intuition discriminate|].
  destruct (OpenAIService.any_in OpenAIService.help_words _);
    [repeat split; intros; try reflexivity; try discriminate;
     intuition discriminate|].
  destruct (OpenAIService.any_in OpenAIService.time_words _);
    [repeat split; intros; try reflexivity; try discriminate;
     intuition discriminate|].
  destruct (OpenAIService.any_in OpenAIService.weather_words _);
    [repeat split; intros; try reflexivity; try discriminate;
     intuition discriminate|].
  destruct (OpenAIService.any_in OpenAIService.thanks_words _);
    [repeat split; intros; try reflexivity; try discriminate;
     intuition discriminate|].
  destruct (OpenAIService.any_in OpenAIService.goodbye_words _);
    repeat split; intros; try reflexivity; try discriminate;
    intuition discriminate.
Qed.

(** ** The OpenAI path *)

(** X27.  With an OpenAI client, for a message that is no command, when
    the chat request returns, [generate_response] returns its content
    stripped ([None] for a [None] content), and that request is the only
    call made: no other adapter is asked. *)
Theorem openai_content_is_returned_stripped
    (unicode_lower : str -> N -> str -> str) (w : World)
    (self : OpenAIService.t) (user_message : str) (t : Trace)
    (content : value) :
  OpenAIService.openai_client self <> None ->
  mem (lower unicode_lower user_message) OpenAIService.greeting_commands
  = false ->
  mem (lower unicode_lower user_message) OpenAIService.help_commands = false ->
  chat_completion w (t ++ [chat_request user_message]) = Returns content ->
  OpenAIService.generate_response unicode_lower w self user_message t
  = (Returns (option_map strip content), t ++ [chat_request user_message]).
Proof.
  intros Hc Hg Hh Ho.
  destruct (OpenAIService.openai_client self) as [[]|] eqn:Ec;
    [|now elim Hc].
  assert (E0 : OpenAIService.is_configured w self t = (Returns true, t)).
  { unfold OpenAIService.is_configured. now rewrite Ec. }
  assert (E1 : OpenAIService.try_openai w self user_message t
               = (Returns (Return_ (option_map strip content)),
                  t ++ [chat_request user_message])).
  { unfold OpenAIService.try_openai, try_except, bind, perform.
    rewrite Ec. fold (chat_request user_message). rewrite Ho.
    now destruct content as [[|c s]|]. }
  assert (E : OpenAIService.generate_response_at unicode_lower w self
                user_message t
              = (Returns (OpenAIService.AtOpenAI, option_map strip content),
                 t ++ [chat_request user_message])).
  { unfold OpenAIService.generate_response_at.
    rewrite (bind_returns _ _ _ _ _ E0). cbn [negb]. rewrite Hg, Hh.
    now rewrite (bind_returns _ _ _ _ _ E1). }
  unfold OpenAIService.generate_response.
  now rewrite (bind_returns _ _ _ _ _ E).
Qed.

Lemma openai_content_is_returned_stripped_witness :
  OpenAIService.generate_response Samples.no_case MoreSamples.sentiment_answer
    Samples.openai_and_gemini (u "tell me a joke") []
  = (Returns (Some (u "{}")), [chat_request (u "tell me a joke")]).
Proof.
  apply (openai_content_is_returned_stripped Samples.no_case
           MoreSamples.sentiment_answer Samples.openai_and_gemini
           (u "tell me a joke") [] (Some (u "{}"))); try reflexivity.
  discriminate.
Defined.
